(** * experiment_app.py: phenol-water CST and conductometric titration simulator

    A shallow embedding of [src/experiment_app.py].  Python floats are IEEE-754
    binary64 numbers; they are modelled by the Standard Library's executable
    specification [spec_float] at precision 53 and maximal exponent 1024, so
    every arithmetic step below rounds exactly as the interpreter does.
    [st.session_state] is a record that each page handler receives and
    returns; one run of the script is one call of [run]. *)

From Stdlib Require Import ZArith List Bool String Ascii Lia Permutation Sorted.
From Stdlib Require Import SpecFloat DecimalString Reals Lra.
Import ListNotations.
Open Scope Z_scope.

(** ** Python floats *)

Module Py.

Definition float := spec_float.

Definition prec : Z := 53.
Definition emax : Z := 1024.

(** [x + y], [x - y], [x * y] on floats never raise. *)
Definition fadd (x y : float) : float := SFadd prec emax x y.
Definition fsub (x y : float) : float := SFsub prec emax x y.
Definition fmul (x y : float) : float := SFmul prec emax x y.

(** [x < y], [x <= y], [x == y]: false as soon as one side is a NaN. *)
Definition flt (x y : float) : bool := SFltb x y.
Definition fle (x y : float) : bool := SFleb x y.
Definition feq (x y : float) : bool := SFeqb x y.

Definition is_nan (x : float) : bool :=
  match x with S754_nan => true | _ => false end.

Definition is_zero (x : float) : bool :=
  match x with S754_zero _ => true | _ => false end.

(** An [int] literal that meets a float is converted, rounding to nearest. *)
Definition of_int (z : Z) : float := binary_normalize prec emax z 0 false.

(** A decimal literal [n / 10^k] (for instance [0.05] is [dec 5 2]) denotes
    the binary64 number nearest to it.  Both [n] and [10^k] are exact here,
    and IEEE division rounds the exact quotient correctly, so the quotient of
    the two conversions is that nearest number. *)
Definition dec (n : Z) (k : nat) : float :=
  SFdiv prec emax (of_int n) (of_int (10 ^ Z.of_nat k)).

(** [min(a, b)] of the builtins: the second argument wins only when it is
    strictly smaller than the first. *)
Definition fmin (a b : float) : float := if flt b a then b else a.

(** Exceptions that the modelled code can raise, and [InputOutOfRange] for a
    value that a bounded [st.number_input] can never hand back. *)
Inductive exn : Type :=
| ZeroDivisionError
| AttributeError
| ValueError
| StreamlitAPIException
| InputOutOfRange.

Inductive result (A : Type) : Type :=
| Ok (a : A)
| Raise (e : exn).
Arguments Ok {A} a.
Arguments Raise {A} e.

Definition bind {A B : Type} (r : result A) (k : A -> result B) : result B :=
  match r with
  | Ok a => k a
  | Raise e => Raise e
  end.

(** [x / y] raises [ZeroDivisionError] on a zero divisor. *)
Definition fdiv (x y : float) : result float :=
  if is_zero y then Raise ZeroDivisionError else Ok (SFdiv prec emax x y).

(** Reading an attribute of [st.session_state] that was never assigned. *)
Definition attr {A : Type} (o : option A) : result A :=
  match o with
  | Some a => Ok a
  | None => Raise AttributeError
  end.

End Py.

Notation "x <- r ;; k" := (Py.bind r (fun x => k))
  (at level 61, r at next level, right associativity).

Import Py.

(** Literals of the source and of the specification, each the nearest
    binary64 number. *)
Definition f0       : float := Eval vm_compute in S754_zero false.
Definition f0_02    : float := Eval vm_compute in dec 2 2.
Definition f0_03    : float := Eval vm_compute in dec 3 2.
Definition f0_05    : float := Eval vm_compute in dec 5 2.
Definition f0_1     : float := Eval vm_compute in dec 1 1.
Definition f0_2     : float := Eval vm_compute in dec 2 1.
Definition f0_25    : float := Eval vm_compute in dec 25 2.
Definition f0_3     : float := Eval vm_compute in dec 3 1.
Definition f0_4     : float := Eval vm_compute in dec 4 1.
Definition f0_6     : float := Eval vm_compute in dec 6 1.
Definition f0_8     : float := Eval vm_compute in dec 8 1.
Definition f1_2     : float := Eval vm_compute in dec 12 1.
Definition f2       : float := Eval vm_compute in of_int 2.
Definition f3       : float := Eval vm_compute in of_int 3.
Definition f3_5     : float := Eval vm_compute in dec 35 1.
Definition f4       : float := Eval vm_compute in of_int 4.
Definition f5       : float := Eval vm_compute in of_int 5.
Definition f8       : float := Eval vm_compute in of_int 8.
Definition f10      : float := Eval vm_compute in of_int 10.
Definition f18_5    : float := Eval vm_compute in dec 185 1.
Definition f25      : float := Eval vm_compute in of_int 25.
Definition f30      : float := Eval vm_compute in of_int 30.
Definition f32      : float := Eval vm_compute in of_int 32.
Definition f36      : float := Eval vm_compute in of_int 36.
Definition f50      : float := Eval vm_compute in of_int 50.
Definition f60      : float := Eval vm_compute in of_int 60.
Definition f61      : float := Eval vm_compute in of_int 61.
Definition f61_625  : float := Eval vm_compute in dec 61625 3.
Definition f62_5    : float := Eval vm_compute in dec 625 1.
Definition f64_1875 : float := Eval vm_compute in dec 641875 4.
Definition f65      : float := Eval vm_compute in of_int 65.
Definition f66      : float := Eval vm_compute in of_int 66.
Definition f66_75   : float := Eval vm_compute in dec 6675 2.
Definition f67      : float := Eval vm_compute in of_int 67.
Definition f70      : float := Eval vm_compute in of_int 70.
Definition f100     : float := Eval vm_compute in of_int 100.

(** [lo <= x <= hi], the guarantee of a [st.number_input] with [min_value]
    and [max_value]; it excludes NaN. *)
Definition in_range (lo hi x : float) : bool := fle lo x && fle x hi.

(** ** Data model *)

(** One row of [st.session_state.phenol_data], by column. *)
Record phenol_row : Type := mk_phenol_row {
  phenol_ml : float;      (* "Phenol (ml)" *)
  water_ml : float;       (* "Water (ml)" *)
  pct_phenol : float;     (* "% Phenol" *)
  disappear_c : float;    (* "Disappear Temp (°C)" *)
  reappear_c : float;     (* "Reappear Temp (°C)" *)
  mean_c : float          (* "Mean Temp (°C)" *)
}.

(** One row of [st.session_state.cond_data]. *)
Record cond_row : Type := mk_cond_row {
  naoh_ml : float;          (* "NaOH (ml)" *)
  conductance_ms : float    (* "Conductance (mS)" *)
}.

Inductive page_id : Type :=
| pg_home
| pg_phenol_intro
| pg_phenol_exp1
| pg_phenol_exp2
| pg_phenol_exp3
| pg_phenol_graph
| pg_cond_intro
| pg_cond_standardize
| pg_cond_titration.

(** [st.session_state].  The first six fields are assigned when the session
    is created; the last four exist only once a handler has assigned them. *)
Record session_state : Type := mk_session_state {
  page : page_id;
  phenol_data : list phenol_row;
  water_vol : float;
  cond_data : list cond_row;
  naoh_normality : float;
  current_naoh : float;
  phenol_vol : option float;
  disappear : option float;
  reappear : option float;
  total : option float
}.

Definition set_page (p : page_id) (s : session_state) : session_state :=
  mk_session_state p (phenol_data s) (water_vol s) (cond_data s)
    (naoh_normality s) (current_naoh s) (phenol_vol s) (disappear s)
    (reappear s) (total s).

Definition set_phenol_data (t : list phenol_row) (s : session_state) : session_state :=
  mk_session_state (page s) t (water_vol s) (cond_data s)
    (naoh_normality s) (current_naoh s) (phenol_vol s) (disappear s)
    (reappear s) (total s).

Definition set_water_vol (w : float) (s : session_state) : session_state :=
  mk_session_state (page s) (phenol_data s) w (cond_data s)
    (naoh_normality s) (current_naoh s) (phenol_vol s) (disappear s)
    (reappear s) (total s).

Definition set_cond_data (t : list cond_row) (s : session_state) : session_state :=
  mk_session_state (page s) (phenol_data s) (water_vol s) t
    (naoh_normality s) (current_naoh s) (phenol_vol s) (disappear s)
    (reappear s) (total s).

Definition set_naoh_normality (n : float) (s : session_state) : session_state :=
  mk_session_state (page s) (phenol_data s) (water_vol s) (cond_data s)
    n (current_naoh s) (phenol_vol s) (disappear s) (reappear s) (total s).

Definition set_current_naoh (v : float) (s : session_state) : session_state :=
  mk_session_state (page s) (phenol_data s) (water_vol s) (cond_data s)
    (naoh_normality s) v (phenol_vol s) (disappear s) (reappear s) (total s).

Definition set_phenol_vol (v : float) (s : session_state) : session_state :=
  mk_session_state (page s) (phenol_data s) (water_vol s) (cond_data s)
    (naoh_normality s) (current_naoh s) (Some v) (disappear s) (reappear s)
    (total s).

Definition set_temps (d r t : float) (s : session_state) : session_state :=
  mk_session_state (page s) (phenol_data s) (water_vol s) (cond_data s)
    (naoh_normality s) (current_naoh s) (phenol_vol s) (Some d) (Some r)
    (Some t).

(** Lines 7-16: the state of a fresh session. *)
Definition initial_state : session_state :=
  mk_session_state pg_home [] f3 [] f0_1 f0 None None None None.

(** The buttons, by label.  The two lines above the rule come from the home
    screen, which is not part of the available source. *)
Inductive button : Type :=
| BtnPhenolWater
| BtnTitration
| BtnStartExperiment
| BtnHeatMixture
| BtnRecordTemperatures
| BtnAddMoreWater
| BtnPlotPhaseDiagram
| BtnReturnHome
| BtnCalculateNaOHNormality
| BtnProceedToTitration
| BtnRecordMeasurement.

Definition button_eqb (a b : button) : bool :=
  match a, b with
  | BtnPhenolWater, BtnPhenolWater
  | BtnTitration, BtnTitration
  | BtnStartExperiment, BtnStartExperiment
  | BtnHeatMixture, BtnHeatMixture
  | BtnRecordTemperatures, BtnRecordTemperatures
  | BtnAddMoreWater, BtnAddMoreWater
  | BtnPlotPhaseDiagram, BtnPlotPhaseDiagram
  | BtnReturnHome, BtnReturnHome
  | BtnCalculateNaOHNormality, BtnCalculateNaOHNormality
  | BtnProceedToTitration, BtnProceedToTitration
  | BtnRecordMeasurement, BtnRecordMeasurement => true
  | _, _ => false
  end.

(** What the browser sends with one run of the script: the button that was
    clicked, if any, and the current value of each number input (named by
    the widget's [key]). *)
Record user_input : Type := mk_user_input {
  clicked : option button;
  water_input_phenol : float;
  phenol_input : float;
  naoh_standardize : float;
  naoh_titration : float
}.

(** [st.button(label)] is true in the run that follows a click on it. *)
Definition st_button (i : user_input) (b : button) : bool :=
  match clicked i with
  | Some c => button_eqb c b
  | None => false
  end.

(** [st.number_input(min_value, max_value, value)]: the default must lie in
    the bounds, and so does the number handed back. *)
Definition st_number_input (lo hi default current : float) : result float :=
  if negb (in_range lo hi default) then Raise StreamlitAPIException
  else if negb (in_range lo hi current) then Raise InputOutOfRange
  else Ok current.

(** ** Phenol-water experiment *)

Definition phenol_intro (s : session_state) (i : user_input) : result session_state :=
  if st_button i BtnStartExperiment then
    Ok (set_page pg_phenol_exp1 (set_water_vol f3 (set_phenol_data [] s)))
  else Ok s.

Definition phenol_exp1 (s : session_state) (i : user_input) : result session_state :=
  water <- st_number_input f3 f36 (water_vol s) (water_input_phenol i) ;;
  phenol <- st_number_input f5 f10 f5 (phenol_input i) ;;
  if st_button i BtnHeatMixture then
    Ok (set_page pg_phenol_exp2 (set_water_vol water (set_phenol_vol phenol s)))
  else Ok s.

(** The four formulas of lines 77, 79, 81 and 83. *)
Definition segment_below_10 (percent_phenol : float) : float :=
  fadd f32 (fmul percent_phenol f3_5).

Definition segment_10_30 (percent_phenol : float) : float :=
  fadd f65 (fmul (fsub percent_phenol f10) f0_25).

Definition segment_30_70 (percent_phenol : float) : float :=
  fsub f70 (fmul (fsub percent_phenol f30) f0_1).

Definition segment_from_70 (percent_phenol : float) : float :=
  fsub f66 (fmul (fsub percent_phenol f70) f0_3).

(** The disappearance temperature alone (lines 76-83). *)
Definition disappear_temp (percent_phenol : float) : float :=
  if flt percent_phenol f10 then segment_below_10 percent_phenol
  else if flt percent_phenol f30 then segment_10_30 percent_phenol
  else if flt percent_phenol f70 then segment_30_70 percent_phenol
  else segment_from_70 percent_phenol.

Definition calculate_temps (percent_phenol : float) : float * float :=
  let disappear := disappear_temp percent_phenol in
  let reappear := fsub disappear (fadd f2 (fmul percent_phenol f0_05)) in
  (disappear, reappear).

Definition phenol_exp2 (s : session_state) (i : user_input) : result session_state :=
  pv <- attr (phenol_vol s) ;;
  let total := fadd pv (water_vol s) in
  q <- fdiv pv total ;;
  let percent_phenol := fmul q f100 in
  let '(disappear, reappear) := calculate_temps percent_phenol in
  if st_button i BtnRecordTemperatures then
    Ok (set_page pg_phenol_exp3 (set_temps disappear reappear total s))
  else Ok s.

(** The boolean mask of lines 108-111: the rows whose two volume columns
    both compare equal ([==]) to the stored volumes. *)
Definition same_mixture (phenol water : float) (r : phenol_row) : bool :=
  feq (phenol_ml r) phenol && feq (water_ml r) water.

(** Lines 105-125: the row is appended when the mask selects nothing. *)
Definition record_row (s : session_state) : result session_state :=
  pv <- attr (phenol_vol s) ;;
  tot <- attr (total s) ;;
  q <- fdiv pv tot ;;
  let percent_phenol := fmul q f100 in
  d <- attr (disappear s) ;;
  r <- attr (reappear s) ;;
  mean_temp <- fdiv (fadd d r) f2 ;;
  let existing :=
    match filter (same_mixture pv (water_vol s)) (phenol_data s) with
    | [] => true
    | _ :: _ => false
    end in
  if existing then
    let new_row := mk_phenol_row pv (water_vol s) percent_phenol d r mean_temp in
    Ok (set_phenol_data (phenol_data s ++ [new_row]) s)
  else Ok s.

(** Lines 129-132, the effect of "Add More Water (+2ml)". *)
Definition add_more_water (water_vol : float) : float :=
  fmin (fadd water_vol f2) f36.

Definition phenol_exp3 (s : session_state) (i : user_input) : result session_state :=
  s1 <- record_row s ;;
  if flt (water_vol s1) f36 then
    if st_button i BtnAddMoreWater then
      Ok (set_page pg_phenol_exp1 (set_water_vol (add_more_water (water_vol s1)) s1))
    else Ok s1
  else
    if st_button i BtnPlotPhaseDiagram then Ok (set_page pg_phenol_graph s1)
    else Ok s1.

(** *** The data frame operations of [phenol_graph] *)

(** A frame is its rows with their index labels.  [pd.concat] is always
    called with [ignore_index=True], which numbers the rows from 0. *)
Definition frame : Type := list (nat * phenol_row).

Definition to_frame (t : list phenol_row) : frame :=
  combine (seq 0 (List.length t)) t.

(** Two cells hold the same value for [drop_duplicates]: equal numbers, or
    both missing. *)
Definition same_cell (x y : float) : bool :=
  feq x y || (is_nan x && is_nan y).

Definition same_row (a b : phenol_row) : bool :=
  same_cell (phenol_ml a) (phenol_ml b) &&
  same_cell (water_ml a) (water_ml b) &&
  same_cell (pct_phenol a) (pct_phenol b) &&
  same_cell (disappear_c a) (disappear_c b) &&
  same_cell (reappear_c a) (reappear_c b) &&
  same_cell (mean_c a) (mean_c b).

(** [df.drop_duplicates()]: a row stays unless an earlier row that stayed
    holds the same values in every column; labels are kept. *)
Fixpoint drop_duplicates_aux (seen : list phenol_row) (df : frame) : frame :=
  match df with
  | [] => []
  | (l, r) :: rest =>
      if existsb (same_row r) seen then drop_duplicates_aux seen rest
      else (l, r) :: drop_duplicates_aux (r :: seen) rest
  end.

Definition drop_duplicates (df : frame) : frame := drop_duplicates_aux [] df.

(** The order of [sort_values("% Phenol")]: ascending, missing values last. *)
Definition pct_le (a b : phenol_row) : bool :=
  is_nan (pct_phenol b) || fle (pct_phenol a) (pct_phenol b).

Fixpoint insert_sorted (x : nat * phenol_row) (df : frame) : frame :=
  match df with
  | [] => [x]
  | y :: rest =>
      if pct_le (snd x) (snd y) then x :: y :: rest
      else y :: insert_sorted x rest
  end.

(** [df.sort_values("% Phenol")], as the insertion sort that keeps rows with
    equal keys in their previous order.  The library's default sort does not
    promise an order among equal keys; the statements on the CST point are
    therefore made for every arrangement of the de-duplicated rows that is
    sorted by percentage, of which this is one. *)
Definition sort_values (df : frame) : frame :=
  fold_right insert_sorted [] df.

(** [skipna]: a missing value counts as minus infinity. *)
Definition fill_missing (x : float) : float :=
  if is_nan x then S754_infinity true else x.

(** The first row among [best :: rest] that holds the greatest value: a
    later row replaces the candidate only when it is strictly greater. *)
Fixpoint first_max (best : nat * phenol_row) (rest : frame) : nat * phenol_row :=
  match rest with
  | [] => best
  | x :: rest' =>
      if flt (fill_missing (mean_c (snd best))) (fill_missing (mean_c (snd x)))
      then first_max x rest'
      else first_max best rest'
  end.

(** [df["Mean Temp (°C)"].idxmax()]: the label of the first greatest value;
    [ValueError] when the column is empty or holds no number. *)
Definition idxmax (df : frame) : result nat :=
  match df with
  | [] => Raise ValueError
  | x :: rest =>
      if forallb (fun r => is_nan (mean_c (snd r))) df then Raise ValueError
      else Ok (fst (first_max x rest))
  end.

(** [df.loc[label, column]] for a label that occurs in the index. *)
Definition loc (df : frame) (label : nat) (column : phenol_row -> float) : result float :=
  match find (fun r => Nat.eqb (fst r) label) df with
  | Some r => Ok (column (snd r))
  | None => Raise ValueError
  end.

(** Lines 150-152: the CST point read off the sorted frame, as the pair
    [(cst_temp, cst_conc)]. *)
Definition cst_of_frame (df : frame) : result (float * float) :=
  max_temp_idx <- idxmax df ;;
  cst_temp <- loc df max_temp_idx mean_c ;;
  cst_conc <- loc df max_temp_idx pct_phenol ;;
  Ok (cst_temp, cst_conc).

(** Line 142, the frame that is plotted. *)
Definition plotted_frame (t : list phenol_row) : frame :=
  sort_values (drop_duplicates (to_frame t)).

Definition cst_point (t : list phenol_row) : result (float * float) :=
  cst_of_frame (plotted_frame t).

Definition phenol_graph (s : session_state) (i : user_input) : result session_state :=
  _ <- cst_point (phenol_data s) ;;
  if st_button i BtnReturnHome then Ok (set_page pg_home s) else Ok s.

(** ** Conductometric titration *)

Definition cond_intro (s : session_state) (i : user_input) : result session_state :=
  if st_button i BtnStartExperiment then
    Ok (set_page pg_cond_standardize (set_current_naoh f0 (set_cond_data [] s)))
  else Ok s.

(** Line 207. *)
Definition standardize (naoh_used : float) : result float :=
  let oxalic_normality := f0_05 in
  let oxalic_vol := f25 in
  fdiv (fmul oxalic_vol oxalic_normality) naoh_used.

Definition cond_standardize (s : session_state) (i : user_input) : result session_state :=
  naoh_used <- st_number_input f0_1 f50 f18_5 (naoh_standardize i) ;;
  s1 <- (if st_button i BtnCalculateNaOHNormality then
           n <- standardize naoh_used ;; Ok (set_naoh_normality n s)
         else Ok s) ;;
  if st_button i BtnProceedToTitration then Ok (set_page pg_cond_titration s1)
  else Ok s1.

(** The two formulas of lines 226 and 228. *)
Definition conductance_low (naoh_added : float) : result float :=
  q <- fdiv naoh_added f0_2 ;; Ok (fsub f0_8 (fmul f0_02 q)).

Definition conductance_high (naoh_added : float) : result float :=
  q <- fdiv (fsub naoh_added f4) f0_2 ;; Ok (fadd f0_6 (fmul f0_03 q)).

(** Lines 225-228. *)
Definition conductance_model (naoh_added : float) : result float :=
  if fle naoh_added f4 then conductance_low naoh_added
  else conductance_high naoh_added.

(** Line 231: [naoh_added not in cond_data["NaOH (ml)"].values], an
    element-wise [==] over the column. *)
Definition not_in_column (naoh_added : float) (t : list cond_row) : bool :=
  negb (existsb (fun v => feq v naoh_added) (map naoh_ml t)).

(** Modelled from the spec: the end of the assignment that starts on line
    233, where the available source stops in the middle of the [pd.concat]
    call.  The guard and [new_row] are lines 231-232; that the new row is
    appended to the table follows the spec ("appends {naohAdded,
    conductance}") and the same call in [phenol_exp3]. *)
Definition record_measurement (naoh_added conductance : float) (s : session_state)
  : session_state :=
  if not_in_column naoh_added (cond_data s) then
    let new_row := mk_cond_row naoh_added conductance in
    set_cond_data (cond_data s ++ [new_row]) s
  else s.

Definition cond_titration (s : session_state) (i : user_input) : result session_state :=
  naoh_added <- st_number_input f0 f8 (current_naoh s) (naoh_titration i) ;;
  conductance <- conductance_model naoh_added ;;
  if st_button i BtnRecordMeasurement then
    Ok (record_measurement naoh_added conductance s)
  else Ok s.

(** ** Display *)

(** [n / d] rounded to the nearest integer, ties to the even one
    ([0 <= n], [0 < d]). *)
Definition round_half_even (n d : Z) : Z :=
  let q := n / d in
  match Z.compare (2 * (n mod d)) d with
  | Lt => q
  | Gt => q + 1
  | Eq => if Z.even q then q else q + 1
  end.

(** [m * 2^e * 10^digits], correctly rounded to an integer. *)
Definition scaled_decimal (digits : nat) (m : positive) (e : Z) : Z :=
  let n := Zpos m * 10 ^ Z.of_nat digits in
  if 0 <=? e then n * 2 ^ e else round_half_even n (2 ^ (- e)).

Definition string_of_nonneg (n : Z) : string :=
  DecimalString.NilZero.string_of_uint (N.to_uint (Z.to_N n)).

Fixpoint zeros (n : nat) : string :=
  match n with
  | O => EmptyString
  | S n' => String "0" (zeros n')
  end.

Definition fixed_digits (digits : nat) (n : Z) : string :=
  let unit := 10 ^ Z.of_nat digits in
  let frac := string_of_nonneg (n mod unit) in
  let int_part := string_of_nonneg (n / unit) in
  match digits with
  | O => int_part
  | _ => (int_part ++ "." ++ zeros (digits - String.length frac) ++ frac)%string
  end.

Definition sign_string (s : bool) : string :=
  if s then "-"%string else EmptyString.

(** [f"{x:.Nf}"]: the exact binary value rounded to [N] decimals. *)
Definition format_fixed (digits : nat) (x : float) : string :=
  match x with
  | S754_nan => "nan"%string
  | S754_infinity s => (sign_string s ++ "inf")%string
  | S754_zero s => (sign_string s ++ fixed_digits digits 0)%string
  | S754_finite s m e =>
      (sign_string s ++ fixed_digits digits (scaled_decimal digits m e))%string
  end.

(** Line 208, the text passed to [st.success]. *)
Definition normality_message (s : session_state) : string :=
  ("NaOH Normality: " ++ format_fixed 4 (naoh_normality s) ++ " N")%string.

(** ** Navigation *)

(** Modelled from the spec: the home screen is not in the available source.
    It is the page the session starts on and (section 4.1) it "loops back to
    the start of either" workflow. *)
Definition home (s : session_state) (i : user_input) : result session_state :=
  if st_button i BtnPhenolWater then Ok (set_page pg_phenol_intro s)
  else if st_button i BtnTitration then Ok (set_page pg_cond_intro s)
  else Ok s.

(** Modelled from the spec: the router is not in the available source.  Per
    section 2 it "routes each render cycle to the handler for the current
    page". *)
Definition run (s : session_state) (i : user_input) : result session_state :=
  match page s with
  | pg_home => home s i
  | pg_phenol_intro => phenol_intro s i
  | pg_phenol_exp1 => phenol_exp1 s i
  | pg_phenol_exp2 => phenol_exp2 s i
  | pg_phenol_exp3 => phenol_exp3 s i
  | pg_phenol_graph => phenol_graph s i
  | pg_cond_intro => cond_intro s i
  | pg_cond_standardize => cond_standardize s i
  | pg_cond_titration => cond_titration s i
  end.

(** A session: the script runs once per interaction, each run starting from
    the state the previous one left.  A run that raises ends the session. *)
Fixpoint run_session (s : session_state) (inputs : list user_input)
  : result session_state :=
  match inputs with
  | [] => Ok s
  | i :: rest => s' <- run s i ;; run_session s' rest
  end.

Definition reachable (s : session_state) : Prop :=
  exists inputs, run_session initial_state inputs = Ok s.

(** ** Vocabulary of the statements *)

(** The largest binary64 number below [x]. *)
Definition prev_float (x : float) : float := SFpred prec emax x.

(** Agreement up to the tolerance [1e-9] of a floating-point comparison. *)
Definition tolerance : float := Eval vm_compute in dec 1 9.

Definition close_to (a b : float) : bool :=
  fle (SFabs (fsub a b)) tolerance.

(** How many rows of a table belong to one mixture, to one NaOH volume. *)
Definition mixture_count (phenol water : float) (t : list phenol_row) : nat :=
  List.length (filter (same_mixture phenol water) t).

Definition volume_count (naoh : float) (t : list cond_row) : nat :=
  List.length (filter (fun r => feq (naoh_ml r) naoh) t).

(** [n] clicks on "Add More Water (+2ml)" in a row. *)
Fixpoint add_more_water_times (n : nat) (water_vol : float) : float :=
  match n with
  | O => water_vol
  | S n' => add_more_water (add_more_water_times n' water_vol)
  end.

(** No run of the session is a click on "Calculate NaOH Normality". *)
Definition never_calculates (inputs : list user_input) : Prop :=
  Forall (fun i => clicked i <> Some BtnCalculateNaOHNormality) inputs.

(** What every reachable state satisfies: the water volume is at most 36.0,
    a stored phenol volume is a number, and each table holds at most one row
    per key. *)
Definition session_ok (s : session_state) : Prop :=
  fle (water_vol s) f36 = true /\
  (forall pv, phenol_vol s = Some pv -> is_nan pv = false) /\
  (forall p w, (mixture_count p w (phenol_data s) <= 1)%nat) /\
  (forall v, (volume_count v (cond_data s) <= 1)%nat).

(** The relation by which the plotted frame is sorted. *)
Definition pct_ordered (x y : nat * phenol_row) : Prop :=
  pct_le (snd x) (snd y) = true.

(** [df] is an arrangement of the de-duplicated table [t], sorted ascending
    by percentage: what [drop_duplicates().sort_values("% Phenol")] returns,
    whatever the order it gives to rows of equal percentage. *)
Definition sorted_frame_of (t : list phenol_row) (df : frame) : Prop :=
  Permutation df (drop_duplicates (to_frame t)) /\ Sorted pct_ordered df.

(** The value by which [idxmax] compares rows. *)
Definition filled_mean (x : nat * phenol_row) : float :=
  fill_missing (mean_c (snd x)).

(** *** Example sessions and tables *)

(** One run of the script with the number inputs at 3.0 ml of water, 5.0 ml
    of phenol, 18.5 ml and 0.0 ml of NaOH. *)
Definition example_input (b : option button) : user_input :=
  mk_user_input b f3 f5 f18_5 f0.

(** The session that prepares 5.0 ml of phenol in 3.0 ml of water, heats
    and records the temperatures; the record page has not run yet. *)
Definition example_before_record : list user_input :=
  [ example_input (Some BtnPhenolWater);
    example_input (Some BtnStartExperiment);
    example_input (Some BtnHeatMixture);
    example_input (Some BtnRecordTemperatures) ].

(** The same session, followed by the first display of the record page. *)
Definition example_session : list user_input :=
  example_before_record ++ [example_input None].

Definition example_row : phenol_row :=
  mk_phenol_row f5 f3 f62_5 f66_75 f61_625 f64_1875.

(** The state after [example_session]. *)
Definition example_recorded : session_state :=
  mk_session_state pg_phenol_exp3 [example_row] f3 [] f0_1 f0
    (Some f5) (Some f66_75) (Some f61_625) (Some f8).

(** From the home screen to the titration page without standardizing. *)
Definition straight_to_titration : list user_input :=
  [ example_input (Some BtnTitration);
    example_input (Some BtnStartExperiment);
    example_input (Some BtnProceedToTitration) ].

(** The same, then "Record Measurement" twice at 0.0 ml. *)
Definition titration_twice : list user_input :=
  straight_to_titration ++
  [ example_input (Some BtnRecordMeasurement);
    example_input (Some BtnRecordMeasurement) ].

(** A table with mean temperatures 60.0, 64.1875 and 61.0, at the
    percentages 20, 62.5 and 70. *)
Definition example_table : list phenol_row :=
  [ mk_phenol_row f5 (of_int 20) (of_int 20) f0 f0 f60;
    example_row;
    mk_phenol_row f5 f2 f70 f0 f0 f61 ].

(** *** The order of the comparisons *)

(** The position of a number on the extended line, as a triple compared
    lexicographically: class (infinities, sign), then exponent, then
    mantissa.  The two zeros share one position. *)
Definition rank (x : float) : Z * (Z * Z) :=
  match x with
  | S754_nan => (0, (0, 0))
  | S754_zero _ => (0, (0, 0))
  | S754_infinity true => (-2, (0, 0))
  | S754_infinity false => (2, (0, 0))
  | S754_finite true m e => (-1, (- e, Zneg m))
  | S754_finite false m e => (1, (e, Zpos m))
  end.

Definition lex_lt (p q : Z * (Z * Z)) : Prop :=
  fst p < fst q \/
  (fst p = fst q /\
   (fst (snd p) < fst (snd q) \/
    (fst (snd p) = fst (snd q) /\ snd (snd p) < snd (snd q)))).

(** *** Binary64 numbers as real numbers *)

(** The exponent of the least significant bit of a number of magnitude
    [2^e]: 53 bits of precision, never below [2^-1074]. *)
Definition fexp64 (e : Z) : Z := Z.max (e - 53) (-1074).

Definition bpow (e : Z) : R := powerRZ 2 e.

(** The value [m * 2^e] of a mantissa and an exponent. *)
Definition F2R (m e : Z) : R := (IZR m * bpow e)%R.

(** The real number that a float denotes; 0 for what is not a number. *)
Definition B2R (x : float) : R :=
  match x with
  | S754_finite s m e =>
      if s then (- (IZR (Zpos m) * bpow e))%R else (IZR (Zpos m) * bpow e)%R
  | _ => 0%R
  end.

Definition is_finite (x : float) : bool :=
  match x with
  | S754_zero _ | S754_finite _ _ _ => true
  | _ => false
  end.

(** Half the distance between a finite float and its neighbours in the
    format. *)
Definition half_ulp (x : float) : R :=
  match x with
  | S754_finite _ _ e => bpow (e - 1)
  | _ => 0%R
  end.

(** A number as the interpreter holds it: finite, with the normalised
    mantissa and exponent of the binary64 format. *)
Definition number (x : float) : Prop :=
  is_finite x = true /\ valid_binary prec emax x = true.

(** What the lemmas on the operations promise about a result [r] computed
    for the exact value [x], which lies in [[0, 2^k)]: [r] is a number of the
    format, not negative, and within [2^(fexp64 k)] of [x]. *)
Definition rounds (x : R) (k : Z) (r : float) : Prop :=
  number r /\ (0 <= B2R r)%R /\
  (x - bpow (fexp64 k) <= B2R r <= x + bpow (fexp64 k))%R.

(** *** Sessions of genuine inputs *)

(** What a browser can send with a run: each of the four number inputs
    holds a well-formed binary64 number within the bounds of its widget
    (lines 45-52, 55-62, 195-202 and 216-223). *)
Definition genuine (i : user_input) : Prop :=
  (valid_binary prec emax (water_input_phenol i) = true /\
   in_range f3 f36 (water_input_phenol i) = true) /\
  (valid_binary prec emax (phenol_input i) = true /\
   in_range f5 f10 (phenol_input i) = true) /\
  (valid_binary prec emax (naoh_standardize i) = true /\
   in_range f0_1 f50 (naoh_standardize i) = true) /\
  (valid_binary prec emax (naoh_titration i) = true /\
   in_range f0 f8 (naoh_titration i) = true).

Definition genuine_session (inputs : list user_input) : Prop :=
  Forall genuine inputs.

(** Lines 72-73 and 105: the percentage of phenol in a mixture. *)
Definition percent_of (phenol water : float) : float :=
  fmul (SFdiv prec emax phenol (fadd phenol water)) f100.

(** Lines 72-88 and 105-121 together: the row that the record page appends
    for a mixture, from its two volumes alone. *)
Definition row_of (phenol water : float) : phenol_row :=
  let pct := percent_of phenol water in
  let d := fst (calculate_temps pct) in
  let r := snd (calculate_temps pct) in
  mk_phenol_row phenol water pct d r (SFdiv prec emax (fadd d r) f2).

(** Volumes that the two number inputs of [phenol_exp1] accept. *)
Definition volumes_ok (phenol water : float) : Prop :=
  number phenol /\ (5 <= B2R phenol <= 10)%R /\
  number water /\ (3 <= B2R water <= 36)%R.

(** What every state of a session of genuine inputs satisfies.  The stored
    volumes are numbers within the bounds of their inputs; the default of
    the titration input is within its bounds, and the normality is a number
    between 0.0249 and 12.51; the
    attributes that a page reads have been assigned when the session is on
    that page; every row of the phenol table is the row of its own two
    volumes; and the plot page is only shown once a mixture with 36.0 ml of
    water is in the table. *)
Definition session_sound (s : session_state) : Prop :=
  (number (water_vol s) /\ (3 <= B2R (water_vol s) <= 36)%R) /\
  (forall pv, phenol_vol s = Some pv ->
              number pv /\ (5 <= B2R pv <= 10)%R) /\
  in_range f0 f8 (current_naoh s) = true /\
  (number (naoh_normality s) /\
   (249 / 10000 <= B2R (naoh_normality s) <= 1251 / 100)%R) /\
  (page s = pg_phenol_exp2 -> phenol_vol s <> None) /\
  (page s = pg_phenol_exp3 ->
   exists pv,
     phenol_vol s = Some pv /\
     total s = Some (fadd pv (water_vol s)) /\
     disappear s = Some (disappear_c (row_of pv (water_vol s))) /\
     reappear s = Some (reappear_c (row_of pv (water_vol s)))) /\
  (forall r, In r (phenol_data s) ->
             volumes_ok (phenol_ml r) (water_ml r) /\
             r = row_of (phenol_ml r) (water_ml r)) /\
  (page s = pg_phenol_graph ->
   exists r, In r (phenol_data s) /\ B2R (water_ml r) = 36%R).

(** The attributes of the session that belong to the phenol-water pages,
    and those that belong to the titration pages. *)
Definition phenol_part (s : session_state)
  : list phenol_row * float * option float * option float * option float
    * option float :=
  (phenol_data s, water_vol s, phenol_vol s, disappear s, reappear s, total s).

Definition titration_part (s : session_state) : list cond_row * float * float :=
  (cond_data s, naoh_normality s, current_naoh s).

(** One run with the water input at 36.0 ml, and the session that prepares
    5.0 ml of phenol in 36.0 ml of water, records the temperatures and asks
    for the plot. *)
Definition full_dilution_input (b : option button) : user_input :=
  mk_user_input b f36 f5 f18_5 f0.

Definition plot_session : list user_input :=
  [ example_input (Some BtnPhenolWater);
    example_input (Some BtnStartExperiment);
    full_dilution_input (Some BtnHeatMixture);
    full_dilution_input (Some BtnRecordTemperatures);
    full_dilution_input (Some BtnPlotPhaseDiagram) ].

(** ** Order lemmas *)

Lemma compare_rank (x y : float) :
  is_nan x = false -> is_nan y = false ->
  (flt x y = true <-> lex_lt (rank x) (rank y)) /\
  (feq x y = true <-> rank x = rank y).
Proof.
  unfold flt, feq, SFltb, SFeqb, lex_lt.
  destruct x as [sx|sx| |sx mx ex], y as [sy|sy| |sy my ey];
    try discriminate; intros _ _;
    try destruct sx; try destruct sy; cbn [SFcompare rank fst snd];
    try change (Pos.compare_cont Eq mx my) with (Pos.compare mx my);
    try destruct (Z.compare_spec ex ey); try destruct (Pos.compare_spec mx my);
    subst; cbn [CompOpp];
    (split; split; intros Hxy; try discriminate; try reflexivity;
     try lia; try (inversion Hxy; lia)).
Qed.

Lemma flt_not_nan (x y : float) :
  flt x y = true -> is_nan x = false /\ is_nan y = false.
Proof. destruct x, y; cbn; intros H; try discriminate; auto. Qed.

Lemma fle_not_nan (x y : float) :
  fle x y = true -> is_nan x = false /\ is_nan y = false.
Proof. destruct x, y; cbn; intros H; try discriminate; auto. Qed.

Lemma feq_not_nan (x y : float) :
  feq x y = true -> is_nan x = false /\ is_nan y = false.
Proof. destruct x, y; cbn; intros H; try discriminate; auto. Qed.

Lemma fill_missing_not_nan (x : float) : is_nan (fill_missing x) = false.
Proof. destruct x; reflexivity. Qed.

Lemma feq_refl (x : float) : is_nan x = false -> feq x x = true.
Proof. intros H. apply (compare_rank x x H H). reflexivity. Qed.

Lemma feq_sym (x y : float) : feq x y = feq y x.
Proof.
  destruct (is_nan x) eqn:Hx; [destruct x, y; try discriminate; reflexivity|].
  destruct (is_nan y) eqn:Hy; [destruct x, y; try discriminate; reflexivity|].
  destruct (feq x y) eqn:E, (feq y x) eqn:E'; try reflexivity.
  - apply (compare_rank x y Hx Hy) in E.
    symmetry in E. apply (compare_rank y x Hy Hx) in E. congruence.
  - apply (compare_rank y x Hy Hx) in E'.
    symmetry in E'. apply (compare_rank x y Hx Hy) in E'. congruence.
Qed.

Lemma feq_trans (x y z : float) :
  feq x y = true -> feq y z = true -> feq x z = true.
Proof.
  intros Hxy Hyz.
  destruct (feq_not_nan _ _ Hxy) as [Hx Hy].
  destruct (feq_not_nan _ _ Hyz) as [_ Hz].
  apply (compare_rank x y Hx Hy) in Hxy.
  apply (compare_rank y z Hy Hz) in Hyz.
  apply (compare_rank x z Hx Hz). congruence.
Qed.

Lemma flt_false_iff (x y : float) :
  is_nan x = false -> is_nan y = false ->
  (flt x y = false <-> ~ lex_lt (rank x) (rank y)).
Proof.
  intros Hx Hy. destruct (compare_rank x y Hx Hy) as [L _].
  destruct (flt x y); split; intros H; try discriminate; try reflexivity.
  - exfalso. apply H, L. reflexivity.
  - intros C. apply L in C. discriminate.
Qed.

(** [b <= a < c] gives [b < c]. *)
Lemma flt_chain (a b c : float) :
  is_nan a = false -> is_nan b = false -> is_nan c = false ->
  flt a b = false -> flt a c = true -> flt b c = true.
Proof.
  intros Ha Hb Hc Hab Hac.
  apply (flt_false_iff a b Ha Hb) in Hab.
  apply (compare_rank a c Ha Hc) in Hac.
  apply (compare_rank b c Hb Hc).
  unfold lex_lt in *. lia.
Qed.

Lemma flt_asym (a b : float) : flt a b = true -> flt b a = false.
Proof.
  intros Hab. destruct (flt_not_nan _ _ Hab) as [Ha Hb].
  apply (compare_rank a b Ha Hb) in Hab.
  apply (flt_false_iff b a Hb Ha). unfold lex_lt in *. lia.
Qed.

(** ** The conductance model (C1) *)

(** C1, as stated, fails: at [naoh_added = 4.0] the model takes the first
    branch, whose value is 0.4 and not 0.6, and the two branch formulas give
    different values there. *)
Lemma conductance_claim_fails :
  ~ (conductance_model f0 = Ok f0_8 /\
     conductance_model f4 = Ok f0_6 /\
     conductance_model f8 = Ok f1_2 /\
     conductance_low f4 = conductance_high f4).
Proof. intros (_ & H & _). vm_compute in H. discriminate. Qed.

(** C1 (amended): the conductance model evaluates to 0.8 at
    [naoh_added = 0.0], to 0.4 at 4.0 and to 1.2 at 8.0; at the boundary 4.0
    the formula of the first branch gives 0.4 and that of the second gives
    0.6. *)
Theorem conductance_model_values :
  conductance_model f0 = Ok f0_8 /\
  conductance_model f4 = Ok f0_4 /\
  conductance_model f8 = Ok f1_2 /\
  conductance_low f4 = Ok f0_4 /\
  conductance_high f4 = Ok f0_6.
Proof. repeat split; vm_compute; reflexivity. Qed.

(** ** The worked example phenol = 5.0, water = 3.0 (C5) *)

(** C5: with 5.0 ml of phenol and 3.0 ml of water stored, "Record
    Temperatures" on the observation page stores total = 8.0,
    disappear = 66.75 and reappear = 61.625, whatever the rest of the state
    (the total is 5.0 + 3.0 = 8.0, the percentage (5.0 / 8.0) * 100 = 62.5,
    and these are the temperatures of 62.5); the record step then computes
    percent = 62.5 and mean = 64.1875 and, on an empty table, appends the row
    holding all of them.  The session that does exactly this from a fresh
    state ends with that table. *)
Theorem phenol_5_water_3 :
  (forall s w p n1 n2,
     let s0 := set_water_vol f3 (set_phenol_vol f5 s) in
     phenol_exp2 s0 (mk_user_input (Some BtnRecordTemperatures) w p n1 n2)
     = Ok (set_page pg_phenol_exp3 (set_temps f66_75 f61_625 f8 s0))) /\
  fadd f5 f3 = f8 /\
  (q <- fdiv f5 f8 ;; Ok (fmul q f100)) = Ok f62_5 /\
  calculate_temps f62_5 = (f66_75, f61_625) /\
  (forall s,
     let s1 := set_phenol_data []
                 (set_temps f66_75 f61_625 f8
                    (set_water_vol f3 (set_phenol_vol f5 s))) in
     record_row s1 = Ok (set_phenol_data [example_row] s1)) /\
  (exists s, run_session initial_state example_session = Ok s /\
             page s = pg_phenol_exp3 /\
             total s = Some f8 /\
             phenol_data s = [example_row]).
Proof.
  split; [|split; [|split; [|split; [|split]]]].
  - intros [pg pd wv cd nn cn pv d r t] w p n1 n2. vm_compute. reflexivity.
  - vm_compute. reflexivity.
  - vm_compute. reflexivity.
  - vm_compute. reflexivity.
  - intros [pg pd wv cd nn cn pv d r t]. vm_compute. reflexivity.
  - eexists. split; [vm_compute; reflexivity|]. repeat split.
Qed.

(** ** Standardization (C8) *)

Lemma in_range_not_zero (lo hi x : float) :
  flt f0 lo = true -> in_range lo hi x = true -> is_zero x = false.
Proof.
  unfold in_range. intros Hlo H. apply andb_prop in H. destruct H as [H _].
  destruct x; try reflexivity.
  unfold flt, fle in *.
  destruct lo as [[]|[]| |[] ? ?]; cbn in *; discriminate.
Qed.

(** C8: for every [naoh_used] that the input accepts (0.1 to 50.0),
    "Calculate NaOH Normality" stores [(25.0 * 0.05) / naoh_used], rounded as
    binary64 arithmetic rounds, and touches nothing else.  For
    [naoh_used = 18.5] the stored value reads 0.067568 at six decimals and
    is displayed as 0.0676. *)
Theorem standardization_formula (s : session_state) (i : user_input) :
  in_range f0_1 f50 (naoh_standardize i) = true ->
  clicked i = Some BtnCalculateNaOHNormality ->
  cond_standardize s i
  = Ok (set_naoh_normality
          (SFdiv prec emax (fmul f25 f0_05) (naoh_standardize i)) s) /\
  (exists n, standardize f18_5 = Ok n /\
             format_fixed 6 n = "0.067568"%string /\
             format_fixed 4 n = "0.0676"%string /\
             normality_message (set_naoh_normality n s)
             = "NaOH Normality: 0.0676 N"%string).
Proof.
  intros Hr Hc. split.
  - unfold cond_standardize, st_number_input, st_button, standardize, fdiv.
    rewrite Hr, Hc.
    replace (in_range f0_1 f50 f18_5) with true by (vm_compute; reflexivity).
    cbn [negb button_eqb bind].
    rewrite (in_range_not_zero f0_1 f50 _ eq_refl Hr).
    reflexivity.
  - eexists. split; [vm_compute; reflexivity|].
    repeat split; vm_compute; reflexivity.
Qed.

Lemma standardization_formula_witness :
  cond_standardize initial_state
    (mk_user_input (Some BtnCalculateNaOHNormality) f3 f5 f18_5 f0)
  = Ok (set_naoh_normality (SFdiv prec emax (fmul f25 f0_05) f18_5) initial_state).
Proof.
  apply (standardization_formula initial_state
           (mk_user_input (Some BtnCalculateNaOHNormality) f3 f5 f18_5 f0));
    vm_compute; reflexivity.
Defined.

(** ** The normality before any standardization (C10) *)

(** Takes apart the [x <- r ;; k], [if] and [match] steps of a handler that
    is known to have returned. *)
Ltac step_handler :=
  repeat match goal with
  | H : Ok _ = Ok _ |- _ => injection H as H; try subst
  | H : Raise _ = Ok _ |- _ => discriminate H
  | H : bind ?r _ = Ok _ |- _ =>
      let E := fresh "E" in destruct r eqn:E; cbn [bind] in H
  | H : (if ?b then _ else _) = Ok _ |- _ =>
      let E := fresh "E" in destruct b eqn:E
  | H : (let '(_, _) := ?p in _) = Ok _ |- _ =>
      let E := fresh "E" in destruct p eqn:E
  end.

Lemma st_button_other (i : user_input) (b : button) :
  clicked i <> Some b -> st_button i b = false.
Proof.
  unfold st_button. destruct (clicked i) as [c|]; [|reflexivity].
  intros H. destruct c, b; try reflexivity; exfalso; apply H; reflexivity.
Qed.

Lemma st_button_clicked (i : user_input) (b : button) :
  clicked i = Some b -> st_button i b = true.
Proof. unfold st_button. intros ->. destruct b; reflexivity. Qed.

Lemma st_button_exclusive (i : user_input) (b c : button) :
  clicked i = Some b -> b <> c -> st_button i c = false.
Proof. intros H Hbc. apply st_button_other. congruence. Qed.

Lemma record_row_normality (s s' : session_state) :
  record_row s = Ok s' -> naoh_normality s' = naoh_normality s.
Proof. unfold record_row. intros H. step_handler; reflexivity. Qed.

Lemma run_keeps_normality (s s' : session_state) (i : user_input) :
  clicked i <> Some BtnCalculateNaOHNormality ->
  run s i = Ok s' -> naoh_normality s' = naoh_normality s.
Proof.
  intros Hc H. unfold run in H.
  destruct (page s);
    unfold home, phenol_intro, phenol_exp1, phenol_exp2, phenol_exp3,
      phenol_graph, cond_intro, cond_standardize, cond_titration,
      record_measurement in H;
    try rewrite (st_button_other i _ Hc) in H;
    step_handler; try reflexivity;
    try match goal with
    | E : record_row _ = Ok _ |- _ => apply record_row_normality in E; exact E
    end.
  destruct (not_in_column _ _); reflexivity.
Qed.

(** C10: a fresh session holds [naoh_normality = 0.1]; "Proceed to
    Titration" returns the state it was given with only the page changed;
    and after any session in which "Calculate NaOH Normality" is never
    clicked the value is still 0.1, in particular on the titration page. *)
Theorem normality_default_until_calculated :
  naoh_normality initial_state = f0_1 /\
  (forall s i s',
     clicked i = Some BtnProceedToTitration ->
     cond_standardize s i = Ok s' -> s' = set_page pg_cond_titration s) /\
  (forall inputs s,
     never_calculates inputs ->
     run_session initial_state inputs = Ok s ->
     naoh_normality s = f0_1).
Proof.
  split; [reflexivity|split].
  - intros s i s' Hc H. unfold cond_standardize in H.
    rewrite (st_button_exclusive i _ BtnCalculateNaOHNormality Hc) in H
      by discriminate.
    rewrite (st_button_clicked i _ Hc) in H.
    step_handler. reflexivity.
  - intros inputs.
    change f0_1 with (naoh_normality initial_state).
    generalize initial_state as s0.
    induction inputs as [|i rest IH]; intros s0 s Hn H; cbn in H.
    + step_handler. reflexivity.
    + inversion Hn as [|? ? Hi Hrest]; subst.
      destruct (run s0 i) as [s1|] eqn:E; cbn in H; [|discriminate].
      rewrite (IH s1 s Hrest H). exact (run_keeps_normality _ _ _ Hi E).
Qed.

Lemma normality_default_until_calculated_witness :
  exists s, run_session initial_state straight_to_titration = Ok s /\
            page s = pg_cond_titration /\
            naoh_normality s = f0_1.
Proof.
  eexists. split; [vm_compute; reflexivity|]. split; [reflexivity|].
  apply (proj2 (proj2 normality_default_until_calculated)
           straight_to_titration).
  - repeat constructor; discriminate.
  - vm_compute. reflexivity.
Defined.

(** ** Rounding never invents a NaN *)

Lemma shr_1_nonneg (mrs : shr_record) :
  0 <= shr_m mrs -> 0 <= shr_m (shr_1 mrs).
Proof.
  destruct mrs as [m r s]. cbn. destruct m as [|[p|p|]|p]; cbn; lia.
Qed.

Lemma iter_shr_1_nonneg (n : positive) :
  forall mrs, 0 <= shr_m mrs -> 0 <= shr_m (SpecFloat.iter_pos shr_1 n mrs).
Proof.
  induction n as [n IH|n IH|]; intros mrs H; cbn.
  - apply IH, IH, shr_1_nonneg, H.
  - apply IH, IH, H.
  - apply shr_1_nonneg, H.
Qed.

Lemma shr_fexp_nonneg (m e : Z) (l : location) :
  0 <= m -> 0 <= shr_m (fst (shr_fexp prec emax m e l)).
Proof.
  intros H. unfold shr_fexp, shr.
  assert (H0 : 0 <= shr_m (shr_record_of_loc m l))
    by (destruct l as [|[]]; exact H).
  destruct (fexp prec emax (Zdigits2 m + e) - e); cbn [fst]; auto.
  apply iter_shr_1_nonneg, H0.
Qed.

Lemma round_nearest_even_nonneg (m : Z) (l : location) :
  0 <= m -> 0 <= round_nearest_even m l.
Proof.
  intros H. destruct l as [|[]]; cbn; try lia. destruct (Z.even m); lia.
Qed.

Lemma binary_round_aux_not_nan (s : bool) (m e : Z) (l : location) :
  0 <= m -> is_nan (binary_round_aux prec emax s m e l) = false.
Proof.
  intros H. unfold binary_round_aux.
  pose proof (shr_fexp_nonneg m e l H) as H1.
  destruct (shr_fexp prec emax m e l) as [mrs1 e1]. cbn [fst] in H1.
  pose proof (shr_fexp_nonneg _ e1 loc_Exact
                (round_nearest_even_nonneg _ (loc_of_shr_record mrs1) H1)) as H2.
  destruct (shr_fexp prec emax _ e1 loc_Exact) as [mrs2 e2]. cbn [fst] in H2.
  destruct (shr_m mrs2); try lia; try reflexivity.
  destruct (e2 <=? emax - prec); reflexivity.
Qed.

Lemma binary_normalize_not_nan (m e : Z) (sz : bool) :
  is_nan (binary_normalize prec emax m e sz) = false.
Proof.
  unfold binary_normalize, binary_round.
  destruct m as [|p|p]; [reflexivity| |];
    destruct (shl_align p e _) as [mz ez];
    apply binary_round_aux_not_nan; lia.
Qed.

(** A sum is a NaN only if an operand is, or if the operands are the two
    opposite infinities. *)
Lemma add_finite_not_nan (x : float) (s : bool) (m : positive) (e : Z) :
  is_nan x = false -> is_nan (fadd x (S754_finite s m e)) = false.
Proof.
  unfold fadd. destruct x as [sx|sx| |sx mx ex]; intros H; try discriminate;
    try reflexivity.
  cbn [SFadd]. apply binary_normalize_not_nan.
Qed.

(** ** The cap of "Add More Water" *)

Lemma fle_of_not_lt (x y : float) :
  is_nan x = false -> is_nan y = false -> flt y x = false -> fle x y = true.
Proof.
  intros Hx Hy H. apply (flt_false_iff y x Hy Hx) in H.
  destruct (compare_rank x y Hx Hy) as [L E].
  unfold fle, SFleb. unfold flt, SFltb in L. unfold feq, SFeqb in E.
  destruct (SFcompare x y) as [[]|] eqn:C; try reflexivity; exfalso.
  - assert (Hr : rank x <> rank y) by (intros R; apply E in R; discriminate).
    assert (Hl : ~ lex_lt (rank x) (rank y))
      by (intros R; apply L in R; discriminate).
    apply Hr. unfold lex_lt in *.
    destruct (rank x) as [a [b c]], (rank y) as [a' [b' c']]; cbn in *.
    assert (a = a') by lia. assert (b = b') by lia. assert (c = c') by lia.
    congruence.
  - destruct x, y; cbn in C; discriminate.
Qed.

Lemma fle_not_gt (x y : float) : fle x y = true -> flt y x = false.
Proof.
  intros H. destruct (fle_not_nan _ _ H) as [Hx Hy].
  apply (flt_false_iff y x Hy Hx). intros C.
  destruct (compare_rank x y Hx Hy) as [L Q].
  unfold fle, SFleb in H. unfold flt, SFltb in L. unfold feq, SFeqb in Q.
  destruct (SFcompare x y) as [[]|]; try discriminate.
  - assert (R : rank x = rank y) by (apply Q; reflexivity).
    rewrite R in C. unfold lex_lt in C. lia.
  - assert (R : lex_lt (rank x) (rank y)) by (apply L; reflexivity).
    unfold lex_lt in *. lia.
Qed.

Lemma add_more_water_capped (w : float) :
  is_nan w = false -> fle (add_more_water w) f36 = true.
Proof.
  intros Hw. unfold add_more_water, fmin.
  destruct (flt f36 (fadd w f2)) eqn:E; [vm_compute; reflexivity|].
  apply fle_of_not_lt; [|reflexivity|exact E].
  apply add_finite_not_nan, Hw.
Qed.

(** ** What every reachable state satisfies *)

Lemma st_number_input_ok (lo hi d c x : float) :
  st_number_input lo hi d c = Ok x -> x = c /\ in_range lo hi c = true.
Proof.
  unfold st_number_input. intros H.
  destruct (in_range lo hi d); cbn in H; [|discriminate].
  destruct (in_range lo hi c); cbn in H; [|discriminate].
  injection H as <-. auto.
Qed.

Lemma in_range_bounds (lo hi x : float) :
  in_range lo hi x = true -> fle lo x = true /\ fle x hi = true.
Proof. unfold in_range. intros H. apply andb_prop in H. exact H. Qed.

Lemma same_mixture_shift (p w pv wv : float) (a : phenol_row) :
  same_mixture p w a = true -> feq pv p = true -> feq wv w = true ->
  same_mixture pv wv a = true.
Proof.
  unfold same_mixture. intros H Hp Hw.
  apply andb_prop in H. destruct H as [H1 H2].
  rewrite feq_sym in Hp. rewrite feq_sym in Hw.
  rewrite (feq_trans _ _ _ H1 Hp), (feq_trans _ _ _ H2 Hw). reflexivity.
Qed.

Lemma filter_nil_count {A : Type} (f g : A -> bool) (t : list A) :
  (forall a, g a = true -> f a = true) ->
  filter f t = [] -> List.length (filter g t) = O.
Proof.
  intros Hfg. induction t as [|a t IH]; cbn; [reflexivity|].
  destruct (f a) eqn:Fa; [discriminate|]. intros H.
  destruct (g a) eqn:Ga; [rewrite (Hfg a Ga) in Fa; discriminate|].
  apply IH, H.
Qed.

Lemma mixture_count_snoc (p w : float) (t : list phenol_row) (r : phenol_row) :
  mixture_count p w (t ++ [r])
  = (mixture_count p w t + if same_mixture p w r then 1 else 0)%nat.
Proof.
  unfold mixture_count. rewrite filter_app, length_app. cbn.
  destruct (same_mixture p w r); reflexivity.
Qed.

Lemma volume_count_snoc (v : float) (t : list cond_row) (r : cond_row) :
  volume_count v (t ++ [r])
  = (volume_count v t + if feq (naoh_ml r) v then 1 else 0)%nat.
Proof.
  unfold volume_count. rewrite filter_app, length_app. cbn.
  destruct (feq (naoh_ml r) v); reflexivity.
Qed.

(** A mixture that is not in the table can be appended. *)
Lemma append_new_mixture (pv wv : float) (t : list phenol_row) (r : phenol_row) :
  phenol_ml r = pv -> water_ml r = wv ->
  filter (same_mixture pv wv) t = [] ->
  (forall p w, (mixture_count p w t <= 1)%nat) ->
  forall p w, (mixture_count p w (t ++ [r]) <= 1)%nat.
Proof.
  intros Hp Hw Hnew Ht p w. rewrite mixture_count_snoc.
  destruct (same_mixture p w r) eqn:E; [|specialize (Ht p w); lia].
  unfold same_mixture in E. rewrite Hp, Hw in E.
  apply andb_prop in E. destruct E as [E1 E2].
  unfold mixture_count at 1.
  rewrite (filter_nil_count (same_mixture pv wv) (same_mixture p w) t); auto.
  intros a Ha. exact (same_mixture_shift p w pv wv a Ha E1 E2).
Qed.

Lemma not_in_column_filter (x : float) (t : list cond_row) :
  not_in_column x t = true -> filter (fun r => feq (naoh_ml r) x) t = [].
Proof.
  unfold not_in_column. induction t as [|a t IH]; cbn; [reflexivity|].
  destruct (feq (naoh_ml a) x); cbn; [discriminate|exact IH].
Qed.

(** A volume that is not in the column can be appended. *)
Lemma append_new_volume (x c : float) (t : list cond_row) :
  not_in_column x t = true ->
  (forall v, (volume_count v t <= 1)%nat) ->
  forall v, (volume_count v (t ++ [mk_cond_row x c]) <= 1)%nat.
Proof.
  intros Hnew Ht v. rewrite volume_count_snoc. cbn [naoh_ml].
  destruct (feq x v) eqn:E; [|specialize (Ht v); lia].
  unfold volume_count at 1.
  rewrite (filter_nil_count (fun r => feq (naoh_ml r) x)
             (fun r => feq (naoh_ml r) v) t); auto.
  - intros a Ha. rewrite feq_sym in E. exact (feq_trans _ _ _ Ha E).
  - apply not_in_column_filter, Hnew.
Qed.

(** What [record_row] does to a state in which it returns. *)
Lemma record_row_cases (s s' : session_state) :
  record_row s = Ok s' ->
  exists pv, phenol_vol s = Some pv /\
    ((filter (same_mixture pv (water_vol s)) (phenol_data s) <> [] /\ s' = s) \/
     (filter (same_mixture pv (water_vol s)) (phenol_data s) = [] /\
      exists r, phenol_ml r = pv /\ water_ml r = water_vol s /\
                s' = set_phenol_data (phenol_data s ++ [r]) s)).
Proof.
  unfold record_row, attr. intros H.
  destruct (phenol_vol s) as [pv|]; cbn [bind] in H; [|discriminate].
  exists pv. split; [reflexivity|].
  destruct (filter (same_mixture pv (water_vol s)) (phenol_data s)) eqn:F.
  - right. split; [reflexivity|]. step_handler.
    eexists. split; [|split]; [| |reflexivity]; reflexivity.
  - left. split; [discriminate|]. step_handler. reflexivity.
Qed.

Lemma record_row_ok (s s' : session_state) :
  session_ok s -> record_row s = Ok s' -> session_ok s'.
Proof.
  intros (Hw & Hp & Hm & Hv) H.
  destruct (record_row_cases s s' H) as (pv & Hpv & [[_ ->]|(F & r & R1 & R2 & ->)]).
  - repeat split; assumption.
  - repeat split; cbn; try assumption.
    exact (append_new_mixture pv (water_vol s) _ r R1 R2 F Hm).
Qed.

Lemma initial_state_ok : session_ok initial_state.
Proof.
  repeat split; cbn; try lia. discriminate.
Qed.

Lemma run_ok (s s' : session_state) (i : user_input) :
  session_ok s -> run s i = Ok s' -> session_ok s'.
Proof.
  intros Hs H. unfold run in H.
  destruct (page s);
    unfold home, phenol_intro, phenol_exp1, phenol_exp2, phenol_exp3,
      phenol_graph, cond_intro, cond_standardize, cond_titration in H;
    step_handler;
    try match goal with
    | E : record_row _ = Ok _ |- _ => apply (record_row_ok _ _ Hs) in E
    end;
    try assumption;
    repeat match goal with
    | E : st_number_input _ _ _ _ = Ok _ |- _ =>
        apply st_number_input_ok in E; destruct E as [-> E];
        apply in_range_bounds in E; destruct E as [? ?]
    end;
    try (destruct Hs as (Hw & Hp & Hm & Hv); repeat split; cbn;
         try assumption; try (intros; lia); fail).
  - (* Heat Mixture *)
    destruct Hs as (Hw & Hp & Hm & Hv). repeat split; cbn; try assumption.
    intros pv [= <-].
    match goal with
    | L : fle f5 _ = true |- _ => exact (proj2 (fle_not_nan _ _ L))
    end.
  - (* Add More Water *)
    match goal with
    | E : session_ok ?s1 |- _ => destruct E as (Hw & Hp & Hm & Hv)
    end.
    repeat split; cbn; try assumption.
    apply add_more_water_capped. exact (proj1 (fle_not_nan _ _ Hw)).
  - (* Record Measurement *)
    destruct Hs as (Hw & Hp & Hm & Hv). unfold record_measurement.
    destruct (not_in_column _ _) eqn:N; repeat split; cbn; try assumption.
    apply append_new_volume; assumption.
Qed.

Lemma run_session_ok (inputs : list user_input) :
  forall s s', session_ok s -> run_session s inputs = Ok s' -> session_ok s'.
Proof.
  induction inputs as [|i rest IH]; intros s s' Hs H; cbn in H.
  - injection H as <-. exact Hs.
  - destruct (run s i) as [s1|] eqn:E; cbn in H; [|discriminate].
    exact (IH s1 s' (run_ok _ _ _ Hs E) H).
Qed.

Lemma reachable_ok (s : session_state) : reachable s -> session_ok s.
Proof.
  intros [inputs H]. exact (run_session_ok inputs _ _ initial_state_ok H).
Qed.

(** ** One row per mixture (C6) *)

Lemma mixture_count_pos (p w : float) (t : list phenol_row) :
  filter (same_mixture p w) t <> [] -> (1 <= mixture_count p w t)%nat.
Proof.
  unfold mixture_count. destruct (filter _ t); [congruence|cbn; lia].
Qed.

(** Whether [record_row] returns does not depend on the table. *)
Lemma record_row_returns (s s' : session_state) :
  record_row s = Ok s' ->
  forall t, exists s'', record_row (set_phenol_data t s) = Ok s''.
Proof.
  unfold record_row. intros H t.
  cbn [phenol_vol total disappear reappear water_vol phenol_data set_phenol_data].
  destruct (attr (phenol_vol s)) as [pv|]; cbn [bind] in *; [|discriminate].
  destruct (attr (total s)) as [tot|]; cbn [bind] in *; [|discriminate].
  destruct (fdiv pv tot) as [q|]; cbn [bind] in *; [|discriminate].
  destruct (attr (disappear s)) as [d|]; cbn [bind] in *; [|discriminate].
  destruct (attr (reappear s)) as [r|]; cbn [bind] in *; [|discriminate].
  destruct (fdiv (fadd d r) f2) as [m|]; cbn [bind] in *; [|discriminate].
  destruct (filter _ t); eexists; reflexivity.
Qed.

(** C6: in every state a session can reach, the phenol table holds at most
    one row per (phenol, water) pair.  When the record step runs in such a
    state and runs again on the state it produced, the second run returns
    that state unchanged, and the table holds exactly one row for the stored
    pair; the same holds for two displays of the record page with no button
    clicked. *)
Theorem phenol_table_one_row_per_mixture (s s1 : session_state) (pv : float) :
  reachable s ->
  phenol_vol s = Some pv ->
  record_row s = Ok s1 ->
  (forall p w, (mixture_count p w (phenol_data s1) <= 1)%nat) /\
  record_row s1 = Ok s1 /\
  mixture_count pv (water_vol s) (phenol_data s1) = 1%nat /\
  (forall i, clicked i = None ->
             phenol_exp3 s i = Ok s1 /\ phenol_exp3 s1 i = Ok s1).
Proof.
  intros Hr Hpv H.
  pose proof (reachable_ok s Hr) as Hs.
  pose proof (record_row_ok s s1 Hs H) as (_ & _ & Hm1 & _).
  destruct Hs as (Hw & Hp & Hm & _).
  assert (Hnp : is_nan pv = false) by exact (Hp pv Hpv).
  assert (Hnw : is_nan (water_vol s) = false) by exact (proj1 (fle_not_nan _ _ Hw)).
  assert (Hagain : record_row s1 = Ok s1 /\
                   mixture_count pv (water_vol s) (phenol_data s1) = 1%nat).
  { destruct (record_row_cases s s1 H) as (pv' & Hpv' & C).
    rewrite Hpv in Hpv'. injection Hpv' as <-.
    destruct C as [[F ->]|(F & r & R1 & R2 & ->)].
    - split; [exact H|].
      pose proof (mixture_count_pos _ _ _ F). specialize (Hm pv (water_vol s)). lia.
    - assert (Hr1 : same_mixture pv (water_vol s) r = true).
      { unfold same_mixture. rewrite R1, R2, !feq_refl by assumption.
        reflexivity. }
      split.
      + destruct (record_row_returns s _ H (phenol_data s ++ [r])) as [s2 H2].
        destruct (record_row_cases _ s2 H2) as (pv' & Hpv' & C).
        cbn [phenol_vol water_vol phenol_data set_phenol_data] in Hpv', C.
        rewrite Hpv in Hpv'. injection Hpv' as <-.
        destruct C as [[_ ->]|(F' & _)]; [exact H2|exfalso].
        rewrite filter_app in F'. cbn [filter] in F'. rewrite Hr1 in F'.
        destruct (filter _ (phenol_data s)); discriminate.
      + cbn [phenol_data set_phenol_data]. rewrite mixture_count_snoc, Hr1.
        unfold mixture_count. rewrite F. reflexivity. }
  destruct Hagain as [Ha Hc].
  repeat split; try assumption;
    unfold phenol_exp3; rewrite ?H, ?Ha; cbn [bind];
    rewrite !st_button_other by congruence;
    destruct (flt (water_vol s1) f36); reflexivity.
Qed.

Lemma phenol_table_one_row_per_mixture_witness :
  record_row example_recorded = Ok example_recorded /\
  mixture_count f5 f3 (phenol_data example_recorded) = 1%nat.
Proof.
  assert (R : exists s, run_session initial_state example_before_record = Ok s /\
                        phenol_vol s = Some f5 /\ water_vol s = f3 /\
                        record_row s = Ok example_recorded).
  { eexists. split; [vm_compute; reflexivity|]. repeat split. }
  destruct R as (s & Hrun & Hpv & Hw & Hrec).
  destruct (phenol_table_one_row_per_mixture s example_recorded f5
              (ex_intro _ example_before_record Hrun) Hpv Hrec)
    as (_ & H1 & H2 & _).
  rewrite Hw in H2. split; assumption.
Defined.

(** ** One row per NaOH volume (C7) *)

Lemma not_in_column_iff (x : float) (t : list cond_row) :
  not_in_column x t = false <->
  exists r, In r t /\ feq (naoh_ml r) x = true.
Proof.
  unfold not_in_column. rewrite negb_false_iff, existsb_exists. split.
  - intros (v & Hin & Hv). apply in_map_iff in Hin.
    destruct Hin as (r & <- & Hr). exists r. auto.
  - intros (r & Hr & Hv). exists (naoh_ml r). split; [|exact Hv].
    apply in_map, Hr.
Qed.

(** C7: "Record Measurement" hands the entered volume and its conductance
    to the record step.  That step appends the row when no row of the table
    has this volume, and returns the state unchanged, without raising, when
    one has.  Hence in every state a session can reach the conductance table
    holds at most one row per NaOH volume. *)
Theorem conductance_table_one_row_per_volume (s : session_state) :
  reachable s ->
  (forall i s',
     clicked i = Some BtnRecordMeasurement ->
     cond_titration s i = Ok s' ->
     exists c, conductance_model (naoh_titration i) = Ok c /\
               s' = record_measurement (naoh_titration i) c s) /\
  (forall x c,
     (forall r, In r (cond_data s) -> feq (naoh_ml r) x = false) ->
     cond_data (record_measurement x c s) = cond_data s ++ [mk_cond_row x c]) /\
  (forall x c r,
     In r (cond_data s) -> feq (naoh_ml r) x = true ->
     record_measurement x c s = s) /\
  (forall v, (volume_count v (cond_data s) <= 1)%nat).
Proof.
  intros Hr. split; [|split; [|split]].
  - intros i s' Hc H. unfold cond_titration in H.
    rewrite (st_button_clicked i _ Hc) in H.
    destruct (st_number_input f0 f8 (current_naoh s) (naoh_titration i))
      as [x|] eqn:E; cbn [bind] in H; [|discriminate].
    apply st_number_input_ok in E. destruct E as [-> _].
    destruct (conductance_model (naoh_titration i)) as [c|];
      cbn [bind] in H; [|discriminate].
    injection H as <-. exists c. auto.
  - intros x c Hnew. unfold record_measurement.
    destruct (not_in_column x (cond_data s)) eqn:N; [reflexivity|].
    apply not_in_column_iff in N. destruct N as (r & Hin & Hv).
    rewrite (Hnew r Hin) in Hv. discriminate.
  - intros x c r Hin Hv. unfold record_measurement.
    destruct (not_in_column x (cond_data s)) eqn:N; [|reflexivity].
    assert (N' : not_in_column x (cond_data s) = false)
      by (apply not_in_column_iff; exists r; auto).
    congruence.
  - exact (proj2 (proj2 (proj2 (reachable_ok s Hr)))).
Qed.

Lemma conductance_table_one_row_per_volume_witness :
  exists s, run_session initial_state titration_twice = Ok s /\
            cond_data s = [mk_cond_row f0 f0_8] /\
            (volume_count f0 (cond_data s) <= 1)%nat.
Proof.
  assert (R : exists s, run_session initial_state titration_twice = Ok s /\
                        cond_data s = [mk_cond_row f0 f0_8]).
  { eexists. split; [vm_compute; reflexivity|]. reflexivity. }
  destruct R as (s & Hrun & Hdata). exists s. repeat split; try assumption.
  apply (conductance_table_one_row_per_volume s
           (ex_intro _ titration_twice Hrun)).
Defined.

(** ** "Add More Water" (C9) *)

(** C9: a click on "Add More Water (+2ml)", offered while the water volume
    is below 36, replaces the volume [w] by [min(w + 2, 36.0)].  From any
    starting volume in the input's range 3.0 to 36.0 the volume is at most
    36.0 after any number of clicks, and it is at most 36.0 in every state
    that a session can reach. *)
Theorem add_more_water_never_exceeds_36 (w : float) (n : nat) :
  in_range f3 f36 w = true ->
  (forall s i s',
     clicked i = Some BtnAddMoreWater ->
     flt (water_vol s) f36 = true ->
     phenol_exp3 s i = Ok s' ->
     water_vol s' = fmin (fadd (water_vol s) f2) f36) /\
  fle (add_more_water_times n w) f36 = true /\
  flt f36 (add_more_water_times n w) = false /\
  (forall s, reachable s -> fle (water_vol s) f36 = true).
Proof.
  intros Hw.
  assert (Hn : fle (add_more_water_times n w) f36 = true).
  { induction n as [|n IH]; cbn.
    - apply in_range_bounds in Hw. apply Hw.
    - apply add_more_water_capped. exact (proj1 (fle_not_nan _ _ IH)). }
  split; [|split; [|split]].
  - intros s i s' Hc Hlt H. unfold phenol_exp3 in H.
    destruct (record_row s) as [s1|] eqn:E; cbn [bind] in H; [|discriminate].
    assert (Hs1 : water_vol s1 = water_vol s).
    { destruct (record_row_cases s s1 E) as (pv & _ & [[_ ->]|(_ & r & _ & _ & ->)]);
        reflexivity. }
    rewrite Hs1, Hlt, (st_button_clicked i _ Hc) in H.
    injection H as <-. reflexivity.
  - exact Hn.
  - apply fle_not_gt, Hn.
  - intros s Hs. exact (proj1 (reachable_ok s Hs)).
Qed.

Lemma add_more_water_never_exceeds_36_witness :
  fle (add_more_water_times 40 f3) f36 = true.
Proof.
  apply (proj1 (proj2 (add_more_water_never_exceeds_36 f3 40 eq_refl))).
Defined.

(** ** The CST point (C3) *)

Lemma flt_le (x y : float) : flt x y = true -> fle x y = true.
Proof.
  unfold flt, fle, SFltb, SFleb. destruct (SFcompare x y) as [[]|]; auto.
Qed.

(** [a < b <= c] gives [a < c]. *)
Lemma flt_chain_right (a b c : float) :
  is_nan c = false -> flt a b = true -> flt c b = false -> flt a c = true.
Proof.
  intros Hc Hab Hcb. destruct (flt_not_nan _ _ Hab) as [Ha Hb].
  apply (compare_rank a b Ha Hb) in Hab.
  apply (flt_false_iff c b Hc Hb) in Hcb.
  apply (compare_rank a c Ha Hc). unfold lex_lt in *. lia.
Qed.

Lemma pct_le_total (a b : phenol_row) :
  pct_le a b = false -> pct_le b a = true.
Proof.
  unfold pct_le. intros H. apply orb_false_elim in H. destruct H as [Hb H].
  destruct (is_nan (pct_phenol a)) eqn:Ha; [reflexivity|]. cbn.
  apply fle_of_not_lt; try assumption.
  destruct (flt (pct_phenol a) (pct_phenol b)) eqn:L; [|reflexivity].
  apply flt_le in L. congruence.
Qed.

Lemma insert_sorted_perm (x : nat * phenol_row) (df : frame) :
  Permutation (insert_sorted x df) (x :: df).
Proof.
  induction df as [|y df IH]; cbn; [reflexivity|].
  destruct (pct_le (snd x) (snd y)); [reflexivity|].
  rewrite IH. apply perm_swap.
Qed.

Lemma sort_values_perm (df : frame) : Permutation (sort_values df) df.
Proof.
  induction df as [|x df IH]; cbn; [reflexivity|].
  fold (sort_values df). rewrite insert_sorted_perm, IH. reflexivity.
Qed.

Lemma insert_sorted_sorted (x : nat * phenol_row) (df : frame) :
  Sorted pct_ordered df -> Sorted pct_ordered (insert_sorted x df).
Proof.
  induction df as [|y df IH]; cbn; intros H.
  - repeat constructor.
  - destruct (pct_le (snd x) (snd y)) eqn:E.
    + constructor; [exact H|]. constructor. exact E.
    + inversion H as [|? ? Hs Hh]; subst. constructor; [exact (IH Hs)|].
      destruct df as [|z df]; cbn.
      * constructor. apply pct_le_total, E.
      * destruct (pct_le (snd x) (snd z)); constructor.
        -- apply pct_le_total, E.
        -- inversion Hh; assumption.
Qed.

Lemma sort_values_sorted (df : frame) : Sorted pct_ordered (sort_values df).
Proof.
  induction df as [|x df IH]; cbn; [constructor|].
  apply insert_sorted_sorted, IH.
Qed.

Lemma drop_duplicates_aux_incl (df : frame) :
  forall seen x, In x (drop_duplicates_aux seen df) -> In x df.
Proof.
  induction df as [|[l r] df IH]; intros seen x; cbn; [auto|].
  destruct (existsb (same_row r) seen); cbn; intros H.
  - right. exact (IH _ _ H).
  - destruct H as [H|H]; [left; exact H|right; exact (IH _ _ H)].
Qed.

Lemma drop_duplicates_aux_labels (df : frame) :
  forall seen, NoDup (map fst df) ->
               NoDup (map fst (drop_duplicates_aux seen df)).
Proof.
  induction df as [|[l r] df IH]; intros seen H; cbn; [constructor|].
  cbn in H. inversion H as [|? ? Hl Hd]; subst.
  destruct (existsb (same_row r) seen); cbn; [exact (IH _ Hd)|].
  constructor; [|exact (IH _ Hd)].
  intros C. apply Hl. apply in_map_iff in C. destruct C as (x & Hx & Hin).
  apply in_map_iff. exists x. split; [exact Hx|].
  exact (drop_duplicates_aux_incl _ _ _ Hin).
Qed.

Lemma to_frame_labels (t : list phenol_row) : NoDup (map fst (to_frame t)).
Proof.
  unfold to_frame. generalize 0%nat as k.
  induction t as [|r t IH]; intros k; cbn; [constructor|].
  constructor; [|apply IH].
  intros C. apply in_map_iff in C. destruct C as ([l x] & Hx & Hin).
  cbn in Hx. subst l. apply in_combine_l in Hin. apply in_seq in Hin. lia.
Qed.

Lemma to_frame_rows (t : list phenol_row) (x : nat * phenol_row) :
  In x (to_frame t) -> In (snd x) t.
Proof.
  unfold to_frame. destruct x as [l r]. intros H.
  apply in_combine_r in H. exact H.
Qed.

Lemma sorted_frame_rows (t : list phenol_row) (df : frame) (x : nat * phenol_row) :
  sorted_frame_of t df -> In x df -> In (snd x) t.
Proof.
  unfold drop_duplicates. intros [P _] H.
  apply (Permutation_in _ P) in H.
  apply drop_duplicates_aux_incl in H. apply to_frame_rows, H.
Qed.

Lemma sorted_frame_labels (t : list phenol_row) (df : frame) :
  sorted_frame_of t df -> NoDup (map fst df).
Proof.
  unfold drop_duplicates. intros [P _].
  apply (Permutation_NoDup (Permutation_map fst (Permutation_sym P))).
  apply drop_duplicates_aux_labels, to_frame_labels.
Qed.

Lemma sorted_frame_not_empty (t : list phenol_row) (df : frame) :
  sorted_frame_of t df -> t <> [] -> df <> [].
Proof.
  destruct t as [|r t]; [congruence|]. intros [P _] _ C.
  rewrite C in P. apply Permutation_nil in P.
  unfold drop_duplicates, to_frame in P. cbn in P. discriminate.
Qed.

Lemma plotted_frame_sorted (t : list phenol_row) :
  sorted_frame_of t (plotted_frame t).
Proof. split; [apply sort_values_perm|apply sort_values_sorted]. Qed.

(** [loc] on a frame with distinct labels reads the row itself. *)
Lemma loc_row (df : frame) (x : nat * phenol_row) (column : phenol_row -> float) :
  NoDup (map fst df) -> In x df -> loc df (fst x) column = Ok (column (snd x)).
Proof.
  unfold loc. induction df as [|y df IH]; cbn; intros Hd Hin; [contradiction|].
  inversion Hd as [|? ? Hy Hd']; subst.
  destruct Hin as [->|Hin]; [rewrite Nat.eqb_refl; reflexivity|].
  destruct (Nat.eqb (fst y) (fst x)) eqn:E; [|exact (IH Hd' Hin)].
  apply Nat.eqb_eq in E. exfalso. apply Hy. rewrite E.
  apply in_map, Hin.
Qed.

(** [first_max] returns the first row that no row exceeds. *)
Lemma first_max_spec (rest : frame) :
  forall best, exists before after,
    best :: rest = before ++ first_max best rest :: after /\
    Forall (fun x => flt (filled_mean x) (filled_mean (first_max best rest)) = true)
      before /\
    Forall (fun x => flt (filled_mean (first_max best rest)) (filled_mean x) = false)
      after.
Proof.
  induction rest as [|x rest IH]; intros best; cbn [first_max].
  - exists [], []. repeat split; constructor.
  - fold (filled_mean best). fold (filled_mean x).
    destruct (flt (filled_mean best) (filled_mean x)) eqn:E.
    + destruct (IH x) as (before & after & Hsplit & Hb & Ha).
      exists (best :: before), after. split; [rewrite Hsplit; reflexivity|].
      split; [|exact Ha]. constructor; [|exact Hb].
      destruct before as [|y before].
      * injection Hsplit as Hx _. rewrite <- Hx. exact E.
      * injection Hsplit as Hx _. subst y.
        inversion Hb as [|? ? Hxr _]; subst.
        apply flt_chain_right with (b := filled_mean x);
          [apply fill_missing_not_nan|exact E|apply flt_asym, Hxr].
    + destruct (IH best) as (before & after & Hsplit & Hb & Ha).
      destruct before as [|y before].
      * injection Hsplit as Hx Hrest. exists [], (x :: after).
        split; [cbn; rewrite <- Hx, <- Hrest; reflexivity|].
        split; [constructor|]. constructor; [|exact Ha].
        rewrite <- Hx. exact E.
      * injection Hsplit as Hx Hrest. subst y.
        inversion Hb as [|? ? Hbr Hb']; subst.
        exists (best :: x :: before), after.
        split; [cbn; do 2 f_equal; exact Hrest|].
        split; [|exact Ha].
        constructor; [exact Hbr|]. constructor; [|exact Hb'].
        apply flt_chain with (a := filled_mean best);
          try apply fill_missing_not_nan; assumption.
Qed.

Lemma fill_missing_number (x : float) : is_nan x = false -> fill_missing x = x.
Proof. unfold fill_missing. intros ->. reflexivity. Qed.

Lemma same_row_needs_same_mean (a b : phenol_row) :
  same_cell (mean_c a) (mean_c b) = false -> same_row a b = false.
Proof. unfold same_row. intros ->. apply andb_false_r. Qed.

(** A table whose rows differ in their mean temperatures has no duplicates
    to drop. *)
Lemma drop_duplicates_three (r1 r2 r3 : phenol_row) :
  same_cell (mean_c r2) (mean_c r1) = false ->
  same_cell (mean_c r3) (mean_c r1) = false ->
  same_cell (mean_c r3) (mean_c r2) = false ->
  drop_duplicates (to_frame [r1; r2; r3]) = to_frame [r1; r2; r3].
Proof.
  intros H21 H31 H32. unfold drop_duplicates, to_frame.
  cbn [List.length seq combine drop_duplicates_aux existsb].
  rewrite !same_row_needs_same_mean by assumption. reflexivity.
Qed.

(** C3: the frame that [phenol_graph] plots is the de-duplicated table
    sorted ascending by percentage.  For every such arrangement of a
    non-empty table whose mean temperatures are numbers, the CST point is
    read from one row of the frame: every row before it has a strictly
    smaller mean temperature and no row after it has a greater one, so it is
    the first row of maximal mean temperature; [cst_temp] is its mean
    temperature and [cst_conc] its percentage.  For a table with mean
    temperatures 60.0, 64.1875 and 61.0 the CST point is 64.1875 at the
    percentage of the second record. *)
Theorem cst_point_is_first_maximum (t : list phenol_row) (df : frame) :
  t <> [] ->
  Forall (fun r => is_nan (mean_c r) = false) t ->
  sorted_frame_of t df ->
  sorted_frame_of t (plotted_frame t) /\
  cst_point t = cst_of_frame (plotted_frame t) /\
  (exists before r after,
     map snd df = before ++ r :: after /\
     cst_of_frame df = Ok (mean_c r, pct_phenol r) /\
     Forall (fun x => flt (mean_c x) (mean_c r) = true) before /\
     Forall (fun x => fle (mean_c x) (mean_c r) = true) after) /\
  (forall r1 r2 r3,
     t = [r1; r2; r3] ->
     mean_c r1 = f60 -> mean_c r2 = f64_1875 -> mean_c r3 = f61 ->
     cst_of_frame df = Ok (f64_1875, pct_phenol r2)).
Proof.
  intros Hne Hnum Hdf.
  split; [apply plotted_frame_sorted|]. split; [reflexivity|].
  assert (Hfirst : exists before r after,
     map snd df = before ++ r :: after /\
     cst_of_frame df = Ok (mean_c r, pct_phenol r) /\
     Forall (fun x => flt (mean_c x) (mean_c r) = true) before /\
     Forall (fun x => fle (mean_c x) (mean_c r) = true) after).
  { assert (Hrows : forall x, In x df ->
                              filled_mean x = mean_c (snd x) /\
                              is_nan (mean_c (snd x)) = false).
    { intros x Hx. apply (sorted_frame_rows t df x Hdf) in Hx.
      rewrite Forall_forall in Hnum. specialize (Hnum _ Hx).
      unfold filled_mean. rewrite fill_missing_number by exact Hnum. auto. }
    pose proof (sorted_frame_labels t df Hdf) as Hlab.
    pose proof (sorted_frame_not_empty t df Hdf Hne) as Hdf0.
    unfold cst_of_frame.
    destruct df as [|x rest]; [congruence|].
    destruct (first_max_spec rest x) as (before & after & Hsplit & Hb & Ha).
    set (r := first_max x rest) in *.
    assert (Hin : forall y, In y (before ++ r :: after) -> In y (x :: rest))
      by (intros y Hy; rewrite Hsplit; exact Hy).
    assert (Hr : In r (x :: rest)) by (apply Hin, in_elt).
    exists (map snd before), (snd r), (map snd after).
    split; [rewrite Hsplit, map_app; reflexivity|].
    split; [|split].
    + unfold idxmax. cbn [forallb].
      rewrite (proj2 (Hrows x (or_introl eq_refl))). cbn [andb bind].
      fold r. rewrite !(loc_row (x :: rest) r) by assumption. reflexivity.
    + apply Forall_map. rewrite Forall_forall in *. intros y Hy.
      specialize (Hb y Hy).
      rewrite (proj1 (Hrows r Hr)) in Hb.
      rewrite (proj1 (Hrows y (Hin y (in_or_app _ _ _ (or_introl Hy))))) in Hb.
      exact Hb.
    + apply Forall_map. rewrite Forall_forall in *. intros y Hy.
      specialize (Ha y Hy).
      assert (Hy' : In y (x :: rest))
        by (apply Hin, in_or_app; right; right; exact Hy).
      rewrite (proj1 (Hrows r Hr)), (proj1 (Hrows y Hy')) in Ha.
      apply fle_of_not_lt; [apply (Hrows y Hy')|apply (Hrows r Hr)|exact Ha]. }
  split; [exact Hfirst|].
  intros r1 r2 r3 -> M1 M2 M3.
  destruct Hfirst as (before & r & after & Hsplit & Hcst & Hb & Ha).
  destruct Hdf as [P _].
  rewrite drop_duplicates_three in P
    by (rewrite ?M1, ?M2, ?M3; vm_compute; reflexivity).
  apply (Permutation_map snd) in P. rewrite Hsplit in P.
  cbn [to_frame List.length seq combine map snd] in P.
  assert (Hr : In r [r1; r2; r3])
    by (apply (Permutation_in _ P), in_elt).
  assert (H2 : In r2 (before ++ r :: after))
    by (apply (Permutation_in _ (Permutation_sym P)); cbn; auto).
  rewrite Forall_forall in Hb, Ha.
  assert (Hmax : r = r2 \/ fle (mean_c r2) (mean_c r) = true).
  { apply in_app_or in H2. destruct H2 as [H2|[H2|H2]].
    - right. apply flt_le, Hb, H2.
    - left. exact H2.
    - right. apply Ha, H2. }
  destruct Hmax as [->|Hmax]; [rewrite Hcst, M2; reflexivity|].
  rewrite M2 in Hmax.
  destruct Hr as [<-|[<-|[<-|[]]]].
  - rewrite M1 in Hmax. vm_compute in Hmax. discriminate.
  - rewrite Hcst, M2. reflexivity.
  - rewrite M3 in Hmax. vm_compute in Hmax. discriminate.
Qed.

Lemma cst_point_is_first_maximum_witness :
  cst_point example_table = Ok (f64_1875, f62_5).
Proof.
  destruct (cst_point_is_first_maximum example_table
              (plotted_frame example_table)) as (_ & _ & _ & H).
  - discriminate.
  - repeat constructor.
  - apply plotted_frame_sorted.
  - apply (H _ _ _ eq_refl); reflexivity.
Defined.

(** ** Binary64 arithmetic: digits, shifts and rounding *)

Lemma fexp64_eq (e : Z) : fexp prec emax e = fexp64 e.
Proof. reflexivity. Qed.

Lemma digits2_pos_bounds (m : positive) :
  2 ^ (Zpos (digits2_pos m) - 1) <= Zpos m < 2 ^ Zpos (digits2_pos m).
Proof.
  induction m as [m IH|m IH|]; cbn [digits2_pos].
  - rewrite Pos2Z.inj_succ.
    assert (Zpos m~1 = 2 * Zpos m + 1) by reflexivity.
    replace (Z.succ (Zpos (digits2_pos m)) - 1)
      with (Z.succ (Zpos (digits2_pos m) - 1)) by lia.
    rewrite !Z.pow_succ_r by lia. lia.
  - rewrite Pos2Z.inj_succ.
    assert (Zpos m~0 = 2 * Zpos m) by reflexivity.
    replace (Z.succ (Zpos (digits2_pos m)) - 1)
      with (Z.succ (Zpos (digits2_pos m) - 1)) by lia.
    rewrite !Z.pow_succ_r by lia. lia.
  - cbn. lia.
Qed.

Lemma digits_bounds (m : Z) :
  0 < m -> 2 ^ (Zdigits2 m - 1) <= m < 2 ^ Zdigits2 m.
Proof.
  destruct m as [|p|p]; try lia. intros _. apply digits2_pos_bounds.
Qed.

Lemma digits_pos (m : Z) : 0 < m -> 0 < Zdigits2 m.
Proof. destruct m; cbn; lia. Qed.

(** The number of digits is the only [d] with [2^(d-1) <= m < 2^d]. *)
Lemma digits_unique (m d : Z) :
  2 ^ (d - 1) <= m < 2 ^ d -> 0 < m -> Zdigits2 m = d.
Proof.
  intros [Hlo Hhi] Hm.
  pose proof (digits_bounds m Hm) as [Dlo Dhi].
  pose proof (digits_pos m Hm) as Dp.
  assert (Hd : 0 < d).
  { destruct (Z.lt_ge_cases 0 d) as [|Hd]; [assumption|exfalso].
    destruct (Z.eq_dec d 0) as [->|]; [cbn in Hhi; lia|].
    rewrite Z.pow_neg_r in Hhi by lia. lia. }
  destruct (Z.lt_trichotomy (Zdigits2 m) d) as [L|[E|G]]; [exfalso| exact E |exfalso].
  - assert (2 ^ Zdigits2 m <= 2 ^ (d - 1)) by (apply Z.pow_le_mono_r; lia). lia.
  - assert (2 ^ d <= 2 ^ (Zdigits2 m - 1)) by (apply Z.pow_le_mono_r; lia). lia.
Qed.

Lemma digits_lt_pow (m k : Z) : 0 < m -> m < 2 ^ k -> Zdigits2 m <= k.
Proof.
  intros Hm Hk. pose proof (digits_bounds m Hm) as [Dlo _].
  destruct (Z.le_gt_cases (Zdigits2 m) k) as [|G]; [assumption|exfalso].
  assert (0 <= k).
  { destruct (Z.lt_ge_cases k 0); [|assumption].
    rewrite Z.pow_neg_r in Hk by assumption. lia. }
  assert (2 ^ k <= 2 ^ (Zdigits2 m - 1)) by (apply Z.pow_le_mono_r; lia). lia.
Qed.

(** *** Shifting the mantissa right *)

Lemma shr_1_div2 (mrs : shr_record) :
  0 <= shr_m mrs -> shr_m (shr_1 mrs) = shr_m mrs / 2.
Proof.
  destruct mrs as [m r s]. cbn [shr_m shr_1].
  destruct m as [|[p|p|]|p]; cbn [shr_m]; intros H.
  - reflexivity.
  - apply Z.div_unique with 1; lia.
  - apply Z.div_unique with 0; lia.
  - reflexivity.
  - lia.
Qed.

Lemma iter_shr_1_div (n : positive) :
  forall mrs, 0 <= shr_m mrs ->
    shr_m (SpecFloat.iter_pos shr_1 n mrs) = shr_m mrs / 2 ^ Zpos n.
Proof.
  induction n as [n IH|n IH|]; intros mrs H; cbn [SpecFloat.iter_pos].
  - rewrite IH, IH, shr_1_div2 by
      (try apply iter_shr_1_nonneg; try apply shr_1_nonneg; exact H).
    rewrite !Z.div_div by lia.
    f_equal. change (Zpos n~1) with (2 * Zpos n + 1).
    rewrite Z.pow_add_r, Z.pow_mul_r by lia.
    change (2 ^ 2) with 4. change (2 ^ 1) with 2.
    replace 4 with (2 * 2) by reflexivity.
    rewrite Z.pow_mul_l. lia.
  - rewrite IH, IH by (try apply iter_shr_1_nonneg; exact H).
    rewrite !Z.div_div by lia.
    f_equal. change (Zpos n~0) with (2 * Zpos n).
    rewrite Z.pow_mul_r by lia.
    change (2 ^ 2) with 4. replace 4 with (2 * 2) by reflexivity.
    rewrite Z.pow_mul_l. reflexivity.
  - rewrite shr_1_div2 by exact H. reflexivity.
Qed.

(** [shr_fexp] on an exact mantissa: the mantissa loses its [n] low bits,
    where [n] is the distance to the exponent of the format, if positive. *)
Lemma shr_fexp_exact (m e : Z) :
  0 <= m ->
  let n := Z.max 0 (fexp64 (Zdigits2 m + e) - e) in
  shr_m (fst (shr_fexp prec emax m e loc_Exact)) = m / 2 ^ n /\
  snd (shr_fexp prec emax m e loc_Exact) = e + n.
Proof.
  intros H n. unfold shr_fexp, shr. rewrite fexp64_eq. subst n.
  cbn [shr_record_of_loc].
  destruct (fexp64 (Zdigits2 m + e) - e) as [|p|p] eqn:E; cbn [fst snd shr_m].
  - cbn. rewrite Z.div_1_r. lia.
  - rewrite iter_shr_1_div by exact H. cbn [shr_m]. rewrite Z.max_r by lia.
    split; reflexivity.
  - rewrite Z.max_l by lia. cbn. rewrite Z.div_1_r. lia.
Qed.

(** *** Rounding an exact mantissa *)

Lemma round_nearest_even_bounds (q : Z) (l : location) :
  q <= round_nearest_even q l <= q + 1.
Proof.
  destruct l as [|[]]; cbn; try lia. destruct (Z.even q); lia.
Qed.

(** A mantissa of at most [D] bits, or exactly [2^D], at the exponent that
    the format gives to [D]-bit mantissas: [shr_fexp] brings it to the
    normal form without changing its value. *)
Lemma renormalise (m1 e1 D : Z) :
  0 < m1 <= 2 ^ D -> 0 <= D <= 53 ->
  fexp64 (D + e1) = e1 ->
  (D = 53 -> 2 ^ 52 <= m1) ->
  let n2 := Z.max 0 (fexp64 (Zdigits2 m1 + e1) - e1) in
  let m2 := m1 / 2 ^ n2 in
  0 < m2 /\ m2 * 2 ^ n2 = m1 /\ n2 <= 1 /\
  fexp64 (Zdigits2 m2 + (e1 + n2)) = e1 + n2.
Proof.
  intros [Hpos Hle] HD Hfexp Hnorm.
  pose proof (digits_bounds m1 Hpos) as [Dlo Dhi].
  pose proof (digits_pos m1 Hpos) as Dp.
  destruct (Z.eq_dec m1 (2 ^ D)) as [Hcarry|Hless].
  - (* the mantissa is the power 2^D *)
    assert (Hd : Zdigits2 m1 = D + 1).
    { apply digits_unique; [|exact Hpos]. replace (D + 1 - 1) with D by lia.
      rewrite Hcarry, Z.pow_add_r by lia. change (2 ^ 1) with 2. lia. }
    rewrite Hd. unfold fexp64 in *.
    destruct (Z.eq_dec D 53) as [->|HD53].
    + assert (He1 : -1074 <= e1) by lia.
      replace (Z.max 0 (Z.max (53 + 1 + e1 - 53) (-1074) - e1)) with 1 by lia.
      cbn zeta. change (2 ^ 1) with 2.
      assert (Hm2 : m1 / 2 = 2 ^ 52).
      { rewrite Hcarry. change (2 ^ 53) with (2 ^ 52 * 2).
        apply Z.div_mul. lia. }
      rewrite Hm2.
      assert (Hd2 : Zdigits2 (2 ^ 52) = 53) by reflexivity.
      rewrite Hd2. rewrite Hcarry. change (2 ^ 53) with (2 ^ 52 * 2).
      repeat split; lia.
    + assert (He1 : e1 = -1074) by lia.
      replace (Z.max 0 (Z.max (D + 1 + e1 - 53) (-1074) - e1)) with 0 by lia.
      cbn zeta. change (2 ^ 0) with 1. rewrite Z.div_1_r, Hd.
      repeat split; lia.
  - (* fewer than D+1 bits *)
    assert (Hlt : m1 < 2 ^ D) by lia.
    pose proof (digits_lt_pow m1 D Hpos Hlt) as HdD.
    unfold fexp64 in *.
    destruct (Z.eq_dec D 53) as [->|HD53].
    + assert (Hd : Zdigits2 m1 = 53)
        by (apply digits_unique; [split; [apply Hnorm; reflexivity|exact Hlt]
                                 |exact Hpos]).
      rewrite Hd.
      replace (Z.max 0 (Z.max (53 + e1 - 53) (-1074) - e1)) with 0 by lia.
      cbn zeta. change (2 ^ 0) with 1. rewrite Z.div_1_r, Hd.
      repeat split; lia.
    + assert (He1 : e1 = -1074) by lia.
      replace (Z.max 0 (Z.max (Zdigits2 m1 + e1 - 53) (-1074) - e1)) with 0 by lia.
      cbn zeta. change (2 ^ 0) with 1. rewrite Z.div_1_r.
      repeat split; lia.
Qed.

(** The result of rounding the exact positive value [mx * 2^ex], when the
    exponent [e1] that the format gives to it is at least [ex]: the mantissa
    loses its low bits, is kept or incremented, and is brought to normal
    form. *)
Lemma round_aux_exact (s : bool) (mx ex : Z) :
  0 < mx ->
  let e1 := fexp64 (Zdigits2 mx + ex) in
  ex <= e1 -> e1 < 971 ->
  exists m1,
    mx / 2 ^ (e1 - ex) <= m1 <= mx / 2 ^ (e1 - ex) + 1 /\
    ((m1 = 0 /\ binary_round_aux prec emax s mx ex loc_Exact = S754_zero s) \/
     (exists m2 e2,
        binary_round_aux prec emax s mx ex loc_Exact = S754_finite s m2 e2 /\
        SpecFloat.bounded prec emax m2 e2 = true /\
        e1 <= e2 /\ Zpos m2 * 2 ^ (e2 - e1) = m1)).
Proof.
  intros Hmx e1 Hex He1.
  pose proof (digits_bounds mx Hmx) as [Dlo Dhi].
  pose proof (digits_pos mx Hmx) as Dp.
  set (d := Zdigits2 mx) in *.
  set (n := e1 - ex).
  assert (Hn : 0 <= n) by (unfold n; lia).
  assert (Hpn : 0 < 2 ^ n) by (apply Z.pow_pos_nonneg; lia).
  set (q := mx / 2 ^ n).
  assert (Hq : 0 <= q) by (apply Z.div_pos; lia).
  unfold binary_round_aux.
  destruct (shr_fexp_exact mx ex (Z.lt_le_incl _ _ Hmx)) as [S1 S2].
  fold d in S1, S2. fold e1 in S1, S2.
  rewrite Z.max_r in S1, S2 by lia. fold n in S1, S2. fold q in S1.
  destruct (shr_fexp prec emax mx ex loc_Exact) as [mrs1 e1'].
  cbn [fst snd] in S1, S2. rewrite S1.
  replace e1' with e1 by (unfold n in S2; lia).
  pose proof (round_nearest_even_bounds q (loc_of_shr_record mrs1)) as Hm1.
  set (m1 := round_nearest_even q (loc_of_shr_record mrs1)) in *.
  exists m1. split; [exact Hm1|].
  assert (Hm1' : 0 <= m1) by lia.
  destruct (shr_fexp_exact m1 e1 Hm1') as [T1 T2].
  destruct (shr_fexp prec emax m1 e1 loc_Exact) as [mrs2 e2].
  cbn [fst snd] in T1, T2.
  destruct (Z.eq_dec m1 0) as [Hz|Hnz].
  - left. split; [exact Hz|]. rewrite T1, Hz. cbn. reflexivity.
  - right.
    set (D := Z.max 0 (d + ex - e1)).
    assert (He1def : e1 = Z.max (d + ex - 53) (-1074)) by reflexivity.
    assert (HqD : q < 2 ^ D).
    { apply Z.div_lt_upper_bound; [exact Hpn|].
      rewrite <- Z.pow_add_r by (unfold D; lia).
      apply Z.lt_le_trans with (1 := Dhi).
      apply Z.pow_le_mono_r; unfold D, n; lia. }
    assert (Hnorm : D = 53 -> 2 ^ 52 <= m1).
    { intros HD. apply Z.le_trans with q; [|lia].
      apply Z.div_le_lower_bound; [exact Hpn|].
      rewrite Z.mul_comm, <- Z.pow_add_r by lia.
      apply Z.le_trans with (2 := Dlo).
      apply Z.pow_le_mono_r; unfold D, n in *; lia. }
    destruct (renormalise m1 e1 D) as (R1 & R2 & R3 & R4);
      [lia|unfold D; lia|unfold fexp64, D; lia|exact Hnorm|].
    set (n2 := Z.max 0 (fexp64 (Zdigits2 m1 + e1) - e1)) in *.
    rewrite T1.
    destruct (m1 / 2 ^ n2) as [|m2|m2] eqn:Em2; try lia.
    assert (He2 : e2 = e1 + n2) by exact T2.
    assert (Hle : (e2 <=? emax - prec) = true)
      by (apply Z.leb_le; change (emax - prec) with 971; lia).
    rewrite Hle. exists m2, e2. split; [reflexivity|].
    split; [|split].
    + unfold SpecFloat.bounded, canonical_mantissa. rewrite Hle, andb_true_r.
      apply Z.eqb_eq. rewrite fexp64_eq.
      change (Zpos (digits2_pos m2)) with (Zdigits2 (Zpos m2)).
      rewrite He2. exact R4.
    + lia.
    + replace (e2 - e1) with n2 by lia. exact R2.
Qed.

(** *** Powers of two *)

Lemma bpow_pos (e : Z) : (0 < bpow e)%R.
Proof. apply powerRZ_lt. lra. Qed.

Lemma bpow_add (a b : Z) : bpow (a + b) = (bpow a * bpow b)%R.
Proof. apply powerRZ_add. lra. Qed.

Lemma bpow_IZR (n : Z) : 0 <= n -> bpow n = IZR (2 ^ n).
Proof.
  destruct n as [|p|p]; intros H; try lia.
  - reflexivity.
  - unfold bpow. change (2 ^ Zpos p) with (Z.pow_pos 2 p).
    rewrite Zpower_pos_powerRZ. reflexivity.
Qed.

Lemma bpow_le (a b : Z) : a <= b -> (bpow a <= bpow b)%R.
Proof.
  intros H. replace b with (a + (b - a)) by lia. rewrite bpow_add.
  rewrite (bpow_IZR (b - a)) by lia.
  assert (1 <= 2 ^ (b - a)) by (apply Z.lt_pred_le, Z.pow_pos_nonneg; lia).
  apply IZR_le in H0. pose proof (bpow_pos a). nra.
Qed.

Lemma bpow_lt (a b : Z) : a < b -> (bpow a < bpow b)%R.
Proof.
  intros H. replace b with (a + (b - a)) by lia. rewrite bpow_add.
  rewrite (bpow_IZR (b - a)) by lia.
  assert (2 <= 2 ^ (b - a)).
  { change 2 with (2 ^ 1) at 1. apply Z.pow_le_mono_r; lia. }
  apply IZR_le in H0. pose proof (bpow_pos a). nra.
Qed.

Lemma bpow_lt_inv (a b : Z) : (bpow a < bpow b)%R -> a < b.
Proof.
  intros H. destruct (Z.lt_ge_cases a b) as [|G]; [assumption|exfalso].
  apply bpow_le in G. lra.
Qed.

Lemma F2R_shift (m e n : Z) : 0 <= n -> F2R (m * 2 ^ n) e = F2R m (e + n).
Proof.
  intros H. unfold F2R. rewrite mult_IZR, <- bpow_IZR, (Z.add_comm e n), bpow_add by exact H.
  ring.
Qed.

(** A value below [2^k] has at most [k - e] bits at exponent [e]. *)
Lemma F2R_digits (m e k : Z) :
  0 < m -> (F2R m e < bpow k)%R -> Zdigits2 m + e <= k.
Proof.
  intros Hm H. pose proof (digits_bounds m Hm) as [Dlo _].
  pose proof (digits_pos m Hm) as Dp.
  apply IZR_le in Dlo. rewrite <- bpow_IZR in Dlo by lia.
  assert (L : (bpow (Zdigits2 m - 1 + e) < bpow k)%R).
  { rewrite bpow_add. unfold F2R in H. pose proof (bpow_pos e). nra. }
  apply bpow_lt_inv in L. lia.
Qed.

Lemma fexp64_mono (a b : Z) : a <= b -> fexp64 a <= fexp64 b.
Proof. unfold fexp64. lia. Qed.

(** *** Rounding, in real numbers *)

Lemma rounds_exact (x : R) (k : Z) (r : float) :
  number r -> B2R r = x -> (0 <= x)%R -> rounds x k r.
Proof.
  intros Hn Hx H0. pose proof (bpow_pos (fexp64 k)).
  repeat split; try apply Hn; lra.
Qed.

Lemma round_aux_rounds (mx ex k : Z) :
  0 < mx -> ex <= fexp64 (Zdigits2 mx + ex) ->
  (F2R mx ex < bpow k)%R -> k <= 1000 ->
  rounds (F2R mx ex) k (binary_round_aux prec emax false mx ex loc_Exact).
Proof.
  intros Hmx Hex Hk Hk'.
  pose proof (F2R_digits mx ex k Hmx Hk) as Hd.
  set (e1 := fexp64 (Zdigits2 mx + ex)) in *.
  assert (He1k : e1 <= fexp64 k) by (apply fexp64_mono, Hd).
  assert (He1 : e1 < 971) by (unfold fexp64 in He1k; lia).
  destruct (round_aux_exact false mx ex Hmx Hex He1) as (m1 & Hm1 & Hres).
  fold e1 in Hm1, Hres.
  set (n := e1 - ex) in *.
  assert (Hpn : 0 < 2 ^ n) by (apply Z.pow_pos_nonneg; unfold n; lia).
  pose proof (bpow_pos e1) as Hb1. pose proof (bpow_pos ex) as Hbx.
  pose proof (bpow_le e1 (fexp64 k) He1k) as Hbk.
  (* the kept bits bracket the exact value *)
  assert (Hlo : (IZR (mx / 2 ^ n) * bpow e1 <= F2R mx ex)%R).
  { pose proof (Z.mul_div_le mx (2 ^ n) Hpn) as L. apply IZR_le in L.
    rewrite mult_IZR, <- bpow_IZR in L by (unfold n; lia).
    replace e1 with (n + ex) by (unfold n; lia). rewrite bpow_add.
    unfold F2R. nra. }
  assert (Hhi : (F2R mx ex <= (IZR (mx / 2 ^ n) + 1) * bpow e1)%R).
  { pose proof (Z.mul_succ_div_gt mx (2 ^ n) Hpn) as L.
    apply Z.lt_le_incl, IZR_le in L.
    rewrite mult_IZR, succ_IZR, <- bpow_IZR in L by (unfold n; lia).
    replace e1 with (n + ex) by (unfold n; lia). rewrite bpow_add.
    unfold F2R. nra. }
  assert (Hm1lo : (IZR (mx / 2 ^ n) <= IZR m1)%R) by (apply IZR_le; lia).
  assert (Hm1hi : (IZR m1 <= IZR (mx / 2 ^ n) + 1)%R)
    by (rewrite <- succ_IZR; apply IZR_le; lia).
  assert (Hq0 : (0 <= IZR (mx / 2 ^ n))%R)
    by (apply IZR_le, Z.div_pos; lia).
  assert (P1 : (0 <= (IZR m1 - IZR (mx / 2 ^ n)) * bpow e1)%R)
    by (apply Rmult_le_pos; lra).
  assert (P2 : (0 <= (IZR (mx / 2 ^ n) + 1 - IZR m1) * bpow e1)%R)
    by (apply Rmult_le_pos; lra).
  assert (P3 : (0 <= IZR (mx / 2 ^ n) * bpow e1)%R)
    by (apply Rmult_le_pos; lra).
  assert (Hy : (F2R mx ex - bpow (fexp64 k) <= F2R m1 e1
                <= F2R mx ex + bpow (fexp64 k))%R) by (unfold F2R in *; lra).
  assert (Hy0 : (0 <= F2R m1 e1)%R) by (unfold F2R; lra).
  destruct Hres as [[Hz ->]|(m2 & e2 & -> & Hb & He2 & Hv)].
  - subst m1. unfold F2R in Hy. rewrite Rmult_0_l in Hy.
    repeat split; cbn; lra.
  - assert (Hval : B2R (S754_finite false m2 e2) = F2R m1 e1).
    { cbn [B2R]. rewrite <- Hv. fold (F2R (Zpos m2) e2).
      rewrite F2R_shift by lia. f_equal. lia. }
    repeat split; try exact Hb; rewrite ?Hval; lra.
Qed.

Lemma digits_shift (m j : Z) :
  0 < m -> 0 <= j -> Zdigits2 (m * 2 ^ j) = Zdigits2 m + j.
Proof.
  intros Hm Hj. pose proof (digits_bounds m Hm) as [Dlo Dhi].
  pose proof (digits_pos m Hm) as Dp.
  assert (Hp : 0 < 2 ^ j) by (apply Z.pow_pos_nonneg; lia).
  apply digits_unique; [|nia].
  replace (Zdigits2 m + j - 1) with (Zdigits2 m - 1 + j) by lia.
  rewrite !Z.pow_add_r by lia. nia.
Qed.

Lemma shl_align_value (mx : positive) (ex ex' : Z) :
  snd (shl_align mx ex ex') = Z.min ex ex' /\
  Zpos (fst (shl_align mx ex ex')) = Zpos mx * 2 ^ (ex - Z.min ex ex').
Proof.
  unfold shl_align. destruct (ex' - ex) as [|d|d] eqn:E; cbn [fst snd].
  - rewrite Z.min_l by lia. rewrite Z.sub_diag. cbn. lia.
  - rewrite Z.min_l by lia. rewrite Z.sub_diag. cbn. lia.
  - rewrite Z.min_r by lia. split; [reflexivity|].
    change (Pos.iter xO mx d) with (shift_pos d mx).
    rewrite shift_pos_correct. replace (ex - ex') with (Zpos d) by lia.
    change (Z.pow_pos 2 d) with (2 ^ Zpos d). lia.
Qed.

Lemma binary_round_rounds (mx : positive) (ex k : Z) :
  (F2R (Zpos mx) ex < bpow k)%R -> k <= 1000 ->
  rounds (F2R (Zpos mx) ex) k (binary_round prec emax false mx ex).
Proof.
  intros Hk Hk'. unfold binary_round. rewrite fexp64_eq.
  change (Zpos (digits2_pos mx)) with (Zdigits2 (Zpos mx)).
  set (e0 := fexp64 (Zdigits2 (Zpos mx) + ex)).
  destruct (shl_align_value mx ex e0) as [Hs Hf].
  destruct (shl_align mx ex e0) as [mz ez]. cbn [fst snd] in Hs, Hf.
  assert (Hv : F2R (Zpos mz) ez = F2R (Zpos mx) ex).
  { rewrite Hf, F2R_shift by lia. f_equal. lia. }
  rewrite <- Hv. apply round_aux_rounds; try lia; [|rewrite Hv; exact Hk].
  rewrite Hf, digits_shift by lia.
  replace (Zdigits2 (Zpos mx) + (ex - Z.min ex e0) + ez)
    with (Zdigits2 (Zpos mx) + ex) by lia.
  fold e0. lia.
Qed.

Lemma binary_normalize_rounds (m e k : Z) :
  (0 <= F2R m e < bpow k)%R -> k <= 1000 ->
  rounds (F2R m e) k (binary_normalize prec emax m e false).
Proof.
  intros [H0 Hk] Hk'. destruct m as [|p|p]; cbn [binary_normalize].
  - apply rounds_exact; [split; reflexivity| |exact H0].
    unfold F2R. cbn. ring.
  - apply binary_round_rounds; assumption.
  - exfalso. unfold F2R in H0. pose proof (bpow_pos e).
    assert (IZR (Zneg p) < 0)%R by (apply IZR_lt; lia). nra.
Qed.

(** *** The three operations *)

Lemma B2R_finite (s : bool) (m : positive) (e : Z) :
  B2R (S754_finite s m e) = F2R (cond_Zopp s (Zpos m)) e.
Proof.
  unfold F2R. destruct s; cbn [B2R cond_Zopp].
  - change (- Zpos m) with (Zneg m).
    replace (IZR (Zneg m)) with (- IZR (Zpos m))%R
      by (rewrite <- opp_IZR; reflexivity).
    ring.
  - reflexivity.
Qed.

(** The value of a finite float, with its mantissa aligned to a smaller
    exponent as [SFadd] and [SFsub] do. *)
Lemma B2R_aligned (s : bool) (m : positive) (e e' : Z) :
  B2R (S754_finite s m e)
  = F2R (cond_Zopp s (Zpos (fst (shl_align m e (Z.min e e'))))) (Z.min e e').
Proof.
  destruct (shl_align_value m e (Z.min e e')) as [_ Hf].
  rewrite Hf, B2R_finite.
  replace (Z.min e (Z.min e e')) with (Z.min e e') by lia.
  replace (cond_Zopp s (Zpos m * 2 ^ (e - Z.min e e')))
    with (cond_Zopp s (Zpos m) * 2 ^ (e - Z.min e e'))
    by (destruct s; cbn [cond_Zopp]; lia).
  rewrite F2R_shift by lia. f_equal. lia.
Qed.

Lemma F2R_plus (a b e : Z) : F2R (a + b) e = (F2R a e + F2R b e)%R.
Proof. unfold F2R. rewrite plus_IZR. ring. Qed.

Lemma F2R_minus (a b e : Z) : F2R (a - b) e = (F2R a e - F2R b e)%R.
Proof. unfold F2R. rewrite minus_IZR. ring. Qed.

Lemma number_zero (s : bool) : number (S754_zero s).
Proof. split; reflexivity. Qed.

Lemma add_rounds (x y : float) (k : Z) :
  number x -> number y ->
  (0 <= B2R x + B2R y < bpow k)%R -> k <= 1000 ->
  rounds (B2R x + B2R y) k (fadd x y).
Proof.
  intros [Fx Vx] [Fy Vy] Hk Hk'. unfold fadd.
  destruct x as [sx|sx| |sx mx ex], y as [sy|sy| |sy my ey];
    try discriminate; cbn [SFadd].
  - destruct sx, sy;
      (apply rounds_exact; [apply number_zero|cbn; ring|apply Hk]).
  - apply rounds_exact; [split; assumption|cbn [B2R]; ring|apply Hk].
  - apply rounds_exact; [split; assumption|cbn [B2R]; ring|apply Hk].
  - rewrite (B2R_aligned sx mx ex ey), (B2R_aligned sy my ey ex) in *.
    rewrite (Z.min_comm ey ex) in *. rewrite <- F2R_plus in *.
    apply binary_normalize_rounds; assumption.
Qed.

Lemma sub_rounds (x y : float) (k : Z) :
  number x -> number y ->
  (0 <= B2R x - B2R y < bpow k)%R -> k <= 1000 ->
  rounds (B2R x - B2R y) k (fsub x y).
Proof.
  intros [Fx Vx] [Fy Vy] Hk Hk'. unfold fsub.
  destruct x as [sx|sx| |sx mx ex], y as [sy|sy| |sy my ey];
    try discriminate; cbn [SFsub].
  - destruct sx, sy;
      (apply rounds_exact; [apply number_zero|cbn; ring|apply Hk]).
  - apply rounds_exact; [split; assumption| |apply Hk].
    destruct sy; cbn [B2R negb]; ring.
  - apply rounds_exact; [split; assumption|cbn [B2R]; ring|apply Hk].
  - rewrite (B2R_aligned sx mx ex ey), (B2R_aligned sy my ey ex) in *.
    rewrite (Z.min_comm ey ex) in *. rewrite <- F2R_minus in *.
    apply binary_normalize_rounds; assumption.
Qed.

(** A normalised mantissa has at most 53 bits, and exactly 53 unless its
    exponent is the smallest one. *)
Lemma canonical_digits (m : positive) (e : Z) :
  SpecFloat.bounded prec emax m e = true ->
  Zdigits2 (Zpos m) <= 53 /\ -1074 <= e /\
  (e = -1074 \/ Zdigits2 (Zpos m) = 53).
Proof.
  unfold SpecFloat.bounded, canonical_mantissa. intros H.
  apply andb_prop in H. destruct H as [H _]. apply Z.eqb_eq in H.
  rewrite fexp64_eq in H. unfold fexp64 in H. cbn [Zdigits2]. lia.
Qed.

Lemma digits_mul (a b : Z) :
  0 < a -> 0 < b -> Zdigits2 a + Zdigits2 b - 1 <= Zdigits2 (a * b).
Proof.
  intros Ha Hb.
  pose proof (digits_bounds a Ha) as [Alo _].
  pose proof (digits_bounds b Hb) as [Blo _].
  pose proof (digits_pos a Ha). pose proof (digits_pos b Hb).
  assert (Hab : 0 < a * b) by nia.
  pose proof (digits_bounds (a * b) Hab) as [_ Chi].
  destruct (Z.le_gt_cases (Zdigits2 a + Zdigits2 b - 1) (Zdigits2 (a * b)))
    as [|G]; [assumption|exfalso].
  assert (L : 2 ^ Zdigits2 (a * b) <= 2 ^ (Zdigits2 a - 1 + (Zdigits2 b - 1)))
    by (apply Z.pow_le_mono_r; lia).
  rewrite Z.pow_add_r in L by lia.
  assert (0 < 2 ^ (Zdigits2 a - 1)) by (apply Z.pow_pos_nonneg; lia).
  assert (0 < 2 ^ (Zdigits2 b - 1)) by (apply Z.pow_pos_nonneg; lia).
  nia.
Qed.

Lemma nonneg_sign (s : bool) (m : positive) (e : Z) :
  (0 <= B2R (S754_finite s m e))%R -> s = false.
Proof.
  destruct s; [|reflexivity]. cbn [B2R]. intros H. exfalso.
  pose proof (bpow_pos e). assert (0 < IZR (Zpos m))%R by (apply IZR_lt; lia).
  nra.
Qed.

Lemma mul_rounds (x y : float) (k : Z) :
  number x -> number y ->
  (0 <= B2R x)%R -> (0 <= B2R y)%R ->
  (B2R x * B2R y < bpow k)%R -> k <= 1000 ->
  rounds (B2R x * B2R y) k (fmul x y).
Proof.
  intros [Fx Vx] [Fy Vy] Hx Hy Hk Hk'. unfold fmul.
  destruct x as [sx|sx| |sx mx ex], y as [sy|sy| |sy my ey];
    try discriminate; cbn [SFmul];
    try (apply rounds_exact;
         [apply number_zero|cbn [B2R]; ring
         |cbn [B2R]; rewrite ?Rmult_0_l, ?Rmult_0_r; lra]).
  apply nonneg_sign in Hx, Hy. subst sx sy. cbn [xorb B2R] in *.
  assert (Hv : (IZR (Zpos mx) * bpow ex * (IZR (Zpos my) * bpow ey))%R
               = F2R (Zpos (mx * my)) (ex + ey)).
  { unfold F2R. rewrite Pos2Z.inj_mul, mult_IZR, bpow_add. ring. }
  rewrite Hv in *. apply round_aux_rounds; try assumption; try lia.
  cbn [valid_binary] in Vx, Vy.
  destruct (canonical_digits _ _ Vx) as (Dx & Ex & Nx).
  destruct (canonical_digits _ _ Vy) as (Dy & Ey & Ny).
  pose proof (digits_mul (Zpos mx) (Zpos my) eq_refl eq_refl) as Dm.
  pose proof (digits_pos (Zpos mx) eq_refl).
  pose proof (digits_pos (Zpos my) eq_refl).
  rewrite Pos2Z.inj_mul. unfold fexp64. lia.
Qed.

(** *** Comparisons, in real numbers *)

Lemma flt_F2R (mx my : positive) (ex ey : Z) :
  SpecFloat.bounded prec emax mx ex = true ->
  SpecFloat.bounded prec emax my ey = true ->
  flt (S754_finite false mx ex) (S754_finite false my ey) = true ->
  (F2R (Zpos mx) ex < F2R (Zpos my) ey)%R.
Proof.
  intros Vx Vy H. apply compare_rank in H; [|reflexivity|reflexivity].
  unfold lex_lt in H. cbn [rank fst snd] in H.
  destruct (canonical_digits _ _ Vx) as (Dx & Ex & Nx).
  destruct (canonical_digits _ _ Vy) as (Dy & Ey & Ny).
  unfold F2R.
  destruct H as [H|[_ [H|[-> H]]]]; [lia| |].
  - (* the smaller exponent *)
    assert (Hdy : Zdigits2 (Zpos my) = 53) by lia.
    pose proof (digits_bounds (Zpos my) eq_refl) as [Ylo _].
    pose proof (digits_bounds (Zpos mx) eq_refl) as [_ Xhi].
    rewrite Hdy in Ylo.
    assert (Xhi' : Zpos mx < 2 ^ 53).
    { apply Z.lt_le_trans with (1 := Xhi). apply Z.pow_le_mono_r; lia. }
    apply IZR_lt in Xhi'. apply IZR_le in Ylo.
    rewrite <- bpow_IZR in Xhi', Ylo by lia.
    pose proof (bpow_pos ex). pose proof (bpow_pos ey).
    assert (L : (bpow (53 + ex) <= bpow (53 - 1 + ey))%R) by (apply bpow_le; lia).
    rewrite !bpow_add in L. nra.
  - apply IZR_lt in H. pose proof (bpow_pos ey). nra.
Qed.

(** A number that is not negative is a zero or a positive finite float. *)
Lemma nonneg_cases (x : float) :
  number x -> (0 <= B2R x)%R ->
  (exists s, x = S754_zero s) \/
  (exists m e, x = S754_finite false m e /\
               SpecFloat.bounded prec emax m e = true).
Proof.
  intros [F V] H. destruct x as [s|s| |s m e]; try discriminate.
  - left. exists s. reflexivity.
  - right. apply nonneg_sign in H. subst s. exists m, e. auto.
Qed.

Lemma F2R_pos (m : positive) (e : Z) : (0 < F2R (Zpos m) e)%R.
Proof.
  unfold F2R. apply Rmult_lt_0_compat; [apply IZR_lt; lia|apply bpow_pos].
Qed.

Lemma flt_real (x y : float) :
  number x -> number y -> (0 <= B2R x)%R -> (0 <= B2R y)%R ->
  flt x y = true -> (B2R x < B2R y)%R.
Proof.
  intros Nx Ny Hx Hy H.
  destruct (nonneg_cases x Nx Hx) as [[sx ->]|(mx & ex & -> & Vx)],
           (nonneg_cases y Ny Hy) as [[sy ->]|(my & ey & -> & Vy)];
    try discriminate.
  - cbn [B2R]. apply F2R_pos.
  - cbn [B2R]. apply flt_F2R; assumption.
Qed.

Lemma feq_real (x y : float) :
  number x -> number y -> (0 <= B2R x)%R -> (0 <= B2R y)%R ->
  feq x y = true -> B2R x = B2R y.
Proof.
  intros Nx Ny Hx Hy H.
  destruct (nonneg_cases x Nx Hx) as [[sx ->]|(mx & ex & -> & Vx)],
           (nonneg_cases y Ny Hy) as [[sy ->]|(my & ey & -> & Vy)];
    try discriminate; [reflexivity|].
  apply compare_rank in H; [|reflexivity|reflexivity].
  cbn [rank] in H. injection H as -> ->. reflexivity.
Qed.

Lemma number_not_nan (x : float) : number x -> is_nan x = false.
Proof. intros [F _]. destruct x; try discriminate; reflexivity. Qed.

(** Of two numbers, one is below the other or they compare equal. *)
Lemma flt_total (x y : float) :
  is_nan x = false -> is_nan y = false ->
  flt x y = false -> feq x y = false -> flt y x = true.
Proof.
  intros Hx Hy L E.
  apply (flt_false_iff x y Hx Hy) in L.
  assert (Hr : rank x <> rank y).
  { intros R. apply (compare_rank x y Hx Hy) in R. congruence. }
  apply (compare_rank y x Hy Hx). unfold lex_lt in *.
  destruct (rank x) as [a [b c]], (rank y) as [a' [b' c']]; cbn [fst snd] in *.
  destruct (Z.eq_dec a a') as [->|]; [|lia].
  destruct (Z.eq_dec b b') as [->|]; [|lia].
  destruct (Z.eq_dec c c') as [->|]; [congruence|lia].
Qed.

Lemma real_flt (x y : float) :
  number x -> number y -> (0 <= B2R x)%R -> (0 <= B2R y)%R ->
  (B2R x < B2R y)%R -> flt x y = true.
Proof.
  intros Nx Ny Hx Hy H.
  destruct (flt x y) eqn:L; [reflexivity|exfalso].
  destruct (feq x y) eqn:E.
  - apply feq_real in E; try assumption. lra.
  - pose proof (flt_total x y (number_not_nan x Nx) (number_not_nan y Ny) L E) as G.
    apply flt_real in G; try assumption. lra.
Qed.

Lemma not_flt_real (x y : float) :
  number x -> number y -> (0 <= B2R x)%R -> (0 <= B2R y)%R ->
  flt x y = false -> (B2R y <= B2R x)%R.
Proof.
  intros Nx Ny Hx Hy H.
  destruct (Rle_or_lt (B2R y) (B2R x)) as [|G]; [assumption|exfalso].
  apply real_flt in G; try assumption. congruence.
Qed.

Lemma fle_real (x y : float) :
  number x -> number y -> (0 <= B2R x)%R -> (0 <= B2R y)%R ->
  fle x y = true -> (B2R x <= B2R y)%R.
Proof.
  intros Nx Ny Hx Hy H. apply fle_not_gt in H.
  apply not_flt_real; assumption.
Qed.

(** *** The constants of the model *)

Lemma bpow_opp (n : Z) : bpow (- n) = (/ bpow n)%R.
Proof. apply powerRZ_neg'. Qed.

(** Evaluates [B2R] of a literal to a quotient of two integers. *)
Ltac eval_literal :=
  cbv [B2R]; 
  repeat match goal with
  | |- context [bpow (Zneg ?p)] =>
      change (Zneg p) with (- Zpos p);
      rewrite (bpow_opp (Zpos p)), (bpow_IZR (Zpos p)) by lia;
      let v := eval vm_compute in (2 ^ Zpos p) in
      change (2 ^ Zpos p) with v
  end.

Lemma literal_values :
  B2R f0 = 0%R /\ B2R f2 = 2%R /\ B2R f10 = 10%R /\ B2R f30 = 30%R /\
  B2R f32 = 32%R /\ B2R f65 = 65%R /\ B2R f66 = 66%R /\ B2R f70 = 70%R /\
  B2R f100 = 100%R /\ B2R f0_25 = (1 / 4)%R /\ B2R f3_5 = (7 / 2)%R /\
  (1 / 20 <= B2R f0_05 <= 51 / 1000)%R /\
  (1 / 10 <= B2R f0_1 <= 1 / 10 + 1 / 100000000000000000)%R /\
  (29 / 100 <= B2R f0_3 <= 3 / 10)%R.
Proof.
  unfold f0, f2, f10, f30, f32, f65, f66, f70, f100, f0_25, f3_5, f0_05,
    f0_1, f0_3.
  repeat split; eval_literal; lra.
Qed.

Lemma literal_numbers :
  number f2 /\ number f10 /\ number f30 /\ number f32 /\ number f65 /\
  number f66 /\ number f70 /\ number f0_25 /\ number f3_5 /\
  number f0_05 /\ number f0_1 /\ number f0_3.
Proof. repeat split. Qed.

Lemma bpow_7 : bpow 7 = 128%R.
Proof. rewrite bpow_IZR by lia. reflexivity. Qed.

Lemma ulp_7 : (0 < bpow (fexp64 7) <= 1 / 10000000000000)%R.
Proof.
  split; [apply bpow_pos|]. change (fexp64 7) with (-46).
  eval_literal. lra.
Qed.

(** *** Operations on values below 128 *)

Lemma rounds_7 (x : R) (r : float) :
  rounds x 7 r ->
  number r /\ (0 <= B2R r)%R /\
  (x - 1 / 10000000000000 <= B2R r <= x + 1 / 10000000000000)%R.
Proof.
  intros (N & H0 & H). pose proof ulp_7. repeat split; try apply N; lra.
Qed.

Lemma add_near (x y : float) :
  number x -> number y -> (0 <= B2R x + B2R y < 128)%R ->
  number (fadd x y) /\ (0 <= B2R (fadd x y))%R /\
  (B2R x + B2R y - 1 / 10000000000000 <= B2R (fadd x y)
   <= B2R x + B2R y + 1 / 10000000000000)%R.
Proof.
  intros Nx Ny H. apply rounds_7, add_rounds; try assumption; [|lia].
  rewrite bpow_7. exact H.
Qed.

Lemma sub_near (x y : float) :
  number x -> number y -> (0 <= B2R x - B2R y < 128)%R ->
  number (fsub x y) /\ (0 <= B2R (fsub x y))%R /\
  (B2R x - B2R y - 1 / 10000000000000 <= B2R (fsub x y)
   <= B2R x - B2R y + 1 / 10000000000000)%R.
Proof.
  intros Nx Ny H. apply rounds_7, sub_rounds; try assumption; [|lia].
  rewrite bpow_7. exact H.
Qed.

Lemma mul_near (x y : float) :
  number x -> number y -> (0 <= B2R x)%R -> (0 <= B2R y)%R ->
  (B2R x * B2R y < 128)%R ->
  number (fmul x y) /\ (0 <= B2R (fmul x y))%R /\
  (B2R x * B2R y - 1 / 10000000000000 <= B2R (fmul x y)
   <= B2R x * B2R y + 1 / 10000000000000)%R.
Proof.
  intros Nx Ny Hx Hy H. apply rounds_7, mul_rounds; try assumption; [|lia].
  rewrite bpow_7. exact H.
Qed.

(** A number of the format that lies between two numbers that are not
    negative. *)
Lemma range_real (lo hi p : float) :
  number lo -> number hi -> (0 <= B2R lo)%R -> (0 <= B2R hi)%R ->
  valid_binary prec emax p = true ->
  fle lo p = true -> fle p hi = true ->
  number p /\ (B2R lo <= B2R p <= B2R hi)%R.
Proof.
  intros Nlo Nhi Hlo0 Hhi0 V Hlo Hhi.
  assert (N : number p).
  { split; [|exact V]. destruct Nlo as [Flo _], Nhi as [Fhi _].
    destruct p as [s|[]| |s m e]; try reflexivity; try discriminate.
    - destruct lo; discriminate.
    - destruct hi; discriminate. }
  assert (H0 : (0 <= B2R p)%R).
  { destruct p as [s|s| |[] m e]; cbn [B2R]; try lra.
    - destruct (nonneg_cases lo Nlo Hlo0) as [[? ->]|(? & ? & -> & _)];
        discriminate.
    - apply Rlt_le, F2R_pos. }
  split; [exact N|]. split; apply fle_real; assumption.
Qed.

(** A percentage that the range check accepts. *)
Lemma percentage_real (p : float) :
  valid_binary prec emax p = true -> in_range f0 f100 p = true ->
  number p /\ (0 <= B2R p <= 100)%R.
Proof.
  intros V H. apply in_range_bounds in H. destruct H as [Hlo Hhi].
  destruct literal_values as (E0 & _ & _ & _ & _ & _ & _ & _ & E100 & _).
  rewrite <- E0, <- E100.
  apply range_real; try assumption; try (split; reflexivity);
    rewrite ?E0, ?E100; lra.
Qed.

(** The disappearance temperature of a percentage lies between 30 and 72
    degrees. *)
Lemma disappear_temp_real (p : float) :
  number p -> (0 <= B2R p <= 100)%R ->
  number (disappear_temp p) /\ (30 <= B2R (disappear_temp p) <= 72)%R.
Proof.
  intros Np [P0 P100].
  destruct literal_values as
    (E0 & E2 & E10 & E30 & E32 & E65 & E66 & E70 & E100 & E025 & E35 &
     B005 & B01 & B03).
  destruct literal_numbers as
    (N2 & N10 & N30 & N32 & N65 & N66 & N70 & N025 & N35 & N005 & N01 & N03).
  unfold disappear_temp.
  destruct (flt p f10) eqn:L10; [|destruct (flt p f30) eqn:L30;
                                  [|destruct (flt p f70) eqn:L70]].
  - (* below 10 *)
    apply flt_real in L10; try assumption; [|lra]. rewrite E10 in L10.
    unfold segment_below_10.
    destruct (mul_near p f3_5) as (Nt & T0 & T); try assumption; try lra;
      [rewrite E35; lra|]. rewrite E35 in T.
    destruct (add_near f32 (fmul p f3_5)) as (Nd & D0 & D); try assumption;
      rewrite E32 in *; [lra|]. split; [exact Nd|lra].
  - (* from 10 to 30 *)
    apply not_flt_real in L10; try assumption; [|lra]. rewrite E10 in L10.
    apply flt_real in L30; try assumption; [|lra]. rewrite E30 in L30.
    unfold segment_10_30.
    destruct (sub_near p f10) as (Nu & U0 & U); try assumption;
      rewrite E10 in *; [lra|].
    destruct (mul_near (fsub p f10) f0_25) as (Nt & T0 & T); try assumption;
      rewrite E025 in *; try lra.
    destruct (add_near f65 (fmul (fsub p f10) f0_25)) as (Nd & D0 & D);
      try assumption; rewrite E65 in *; [lra|]. split; [exact Nd|lra].
  - (* from 30 to 70 *)
    apply not_flt_real in L30; try assumption; [|lra]. rewrite E30 in L30.
    apply flt_real in L70; try assumption; [|lra]. rewrite E70 in L70.
    unfold segment_30_70.
    destruct (sub_near p f30) as (Nu & U0 & U); try assumption;
      rewrite E30 in *; [lra|].
    assert (Tx : (0 <= B2R (fsub p f30) * B2R f0_1 <= 5)%R) by nra.
    destruct (mul_near (fsub p f30) f0_1) as (Nt & T0 & T); try assumption;
      try lra.
    destruct (sub_near f70 (fmul (fsub p f30) f0_1)) as (Nd & D0 & D);
      try assumption; rewrite E70 in *; [lra|]. split; [exact Nd|lra].
  - (* from 70 *)
    apply not_flt_real in L70; try assumption; [|lra]. rewrite E70 in L70.
    unfold segment_from_70.
    destruct (sub_near p f70) as (Nu & U0 & U); try assumption;
      rewrite E70 in *; [lra|].
    assert (Tx : (0 <= B2R (fsub p f70) * B2R f0_3 <= 10)%R) by nra.
    destruct (mul_near (fsub p f70) f0_3) as (Nt & T0 & T); try assumption;
      try lra.
    destruct (sub_near f66 (fmul (fsub p f70) f0_3)) as (Nd & D0 & D);
      try assumption; rewrite E66 in *; [lra|]. split; [exact Nd|lra].
Qed.

(** ** Reappearance below disappearance (C4) *)

(** C4: for every binary64 percentage from 0 to 100 (a well-formed float
    that passes the range check, the zeros and the subnormal numbers
    included), the reappearance temperature that [calculate_temps] returns
    is strictly below the disappearance temperature it returns, in the
    comparison [<] of the floats themselves. *)
Theorem reappear_below_disappear (percent_phenol : float) :
  valid_binary prec emax percent_phenol = true ->
  in_range f0 f100 percent_phenol = true ->
  flt (snd (calculate_temps percent_phenol))
     (fst (calculate_temps percent_phenol)) = true.
Proof.
  intros V H. destruct (percentage_real _ V H) as (Np & P0 & P100).
  destruct (disappear_temp_real _ Np (conj P0 P100)) as (Nd & D30 & D72).
  destruct literal_values as
    (_ & E2 & _ & _ & _ & _ & _ & _ & _ & _ & _ & B005 & _).
  destruct literal_numbers as
    (N2 & _ & _ & _ & _ & _ & _ & _ & _ & N005 & _).
  unfold calculate_temps. cbn [fst snd].
  set (d := disappear_temp percent_phenol) in *.
  assert (Tx : (0 <= B2R percent_phenol * B2R f0_05 <= 6)%R) by nra.
  destruct (mul_near percent_phenol f0_05) as (Nt & T0 & T);
    try assumption; try lra.
  destruct (add_near f2 (fmul percent_phenol f0_05)) as (Ns & S0 & S);
    try assumption; rewrite E2 in *; [lra|].
  destruct (sub_near d (fadd f2 (fmul percent_phenol f0_05))) as (Nr & R0 & R);
    try assumption; [lra|].
  apply real_flt; try assumption; lra.
Qed.

Lemma reappear_below_disappear_witness :
  flt (snd (calculate_temps f62_5)) (fst (calculate_temps f62_5)) = true.
Proof.
  apply (reappear_below_disappear f62_5); reflexivity.
Defined.

(** ** Continuity of the disappearance temperature (C2) *)

(** The second and third segments, against the exact formulas. *)
Lemma segment_10_30_real (p : float) :
  number p -> (10 <= B2R p <= 30)%R ->
  (65 + (B2R p - 10) / 4 - 3 / 10000000000000 <= B2R (segment_10_30 p)
   <= 65 + (B2R p - 10) / 4 + 3 / 10000000000000)%R.
Proof.
  intros Np [Plo Phi].
  destruct literal_values as
    (_ & _ & E10 & _ & _ & E65 & _ & _ & _ & E025 & _).
  destruct literal_numbers as (_ & N10 & _ & _ & N65 & _ & _ & N025 & _).
  unfold segment_10_30.
  destruct (sub_near p f10) as (Nu & U0 & U); try assumption;
    rewrite E10 in *; [lra|].
  destruct (mul_near (fsub p f10) f0_25) as (Nt & T0 & T); try assumption;
    rewrite E025 in *; try lra.
  destruct (add_near f65 (fmul (fsub p f10) f0_25)) as (Nd & D0 & D);
    try assumption; rewrite E65 in *; lra.
Qed.

Lemma segment_30_70_real (p : float) :
  number p -> (30 <= B2R p <= 70)%R ->
  (70 - (B2R p - 30) / 10 - 3 / 10000000000000 <= B2R (segment_30_70 p)
   <= 70 - (B2R p - 30) / 10 + 3 / 10000000000000)%R.
Proof.
  intros Np [Plo Phi].
  destruct literal_values as
    (_ & _ & _ & E30 & _ & _ & _ & E70 & _ & _ & _ & _ & B01 & _).
  destruct literal_numbers as
    (_ & _ & N30 & _ & _ & _ & N70 & _ & _ & _ & N01 & _).
  unfold segment_30_70.
  destruct (sub_near p f30) as (Nu & U0 & U); try assumption;
    rewrite E30 in *; [lra|].
  assert (Tx : (B2R (fsub p f30) / 10 <= B2R (fsub p f30) * B2R f0_1
                <= B2R (fsub p f30) / 10 + 1 / 1000000000000000)%R) by nra.
  destruct (mul_near (fsub p f30) f0_1) as (Nt & T0 & T); try assumption;
    try lra.
  destruct (sub_near f70 (fmul (fsub p f30) f0_1)) as (Nd & D0 & D);
    try assumption; rewrite E70 in *; lra.
Qed.

(** C2, as stated, fails at the boundary 10: the formula of the segment
    below gives 67 there, and the model already gives 67 at the largest float
    below 10, while its value at 10 is 65. *)
Lemma continuity_fails_at_10 :
  close_to (segment_below_10 f10) (disappear_temp f10) = false /\
  close_to (disappear_temp (prev_float f10)) (disappear_temp f10) = false /\
  fsub (disappear_temp (prev_float f10)) (disappear_temp f10) = f2.
Proof. repeat split; vm_compute; reflexivity. Qed.

(** The jump at 10, for the record: 67 from below, 65 at the boundary. *)
Lemma disappear_temp_jump_at_10 :
  segment_below_10 f10 = f67 /\
  disappear_temp (prev_float f10) = f67 /\
  disappear_temp f10 = f65.
Proof. repeat split; vm_compute; reflexivity. Qed.

(** C2 (amended): the disappearance temperature is continuous at the segment
    boundaries 30 and 70.  At each of them the formula of the segment below
    takes the value the model has at the boundary (70, respectively 66), and
    the model at the largest float below the boundary is within tolerance of
    it.  More generally, for every binary64 percentage [p] of the segment
    below, the model differs from its value at the boundary by at most
    [(30 - p) / 4], respectively [(70 - p) / 10], plus a tolerance of
    [1e-12]. *)
Theorem disappear_temp_continuous_at_30_and_70 (p : float) :
  valid_binary prec emax p = true ->
  (segment_10_30 f30 = disappear_temp f30 /\ disappear_temp f30 = f70 /\
   close_to (disappear_temp (prev_float f30)) (disappear_temp f30) = true) /\
  (segment_30_70 f70 = disappear_temp f70 /\ disappear_temp f70 = f66 /\
   close_to (disappear_temp (prev_float f70)) (disappear_temp f70) = true) /\
  (fle f10 p = true -> flt p f30 = true ->
   (Rabs (B2R (disappear_temp p) - B2R (disappear_temp f30))
    <= (30 - B2R p) / 4 + 1 / 1000000000000)%R) /\
  (fle f30 p = true -> flt p f70 = true ->
   (Rabs (B2R (disappear_temp p) - B2R (disappear_temp f70))
    <= (70 - B2R p) / 10 + 1 / 1000000000000)%R).
Proof.
  intros V.
  destruct literal_values as
    (_ & _ & E10 & E30 & _ & _ & E66 & E70 & _).
  destruct literal_numbers as (_ & N10 & N30 & _ & _ & _ & N70 & _).
  split; [repeat split; vm_compute; reflexivity|].
  split; [repeat split; vm_compute; reflexivity|].
  split; intros Hlo Hhi.
  - destruct (range_real f10 f30 p) as (Np & Plo & Phi); try assumption;
      rewrite ?E10, ?E30 in *; try lra; [apply flt_le, Hhi|].
    replace (disappear_temp f30) with f70 by (vm_compute; reflexivity).
    unfold disappear_temp.
    rewrite (fle_not_gt _ _ Hlo), Hhi, E70.
    pose proof (segment_10_30_real p Np (conj Plo Phi)).
    apply Rabs_le. lra.
  - destruct (range_real f30 f70 p) as (Np & Plo & Phi); try assumption;
      rewrite ?E30, ?E70 in *; try lra; [apply flt_le, Hhi|].
    replace (disappear_temp f70) with f66 by (vm_compute; reflexivity).
    assert (L10 : flt p f10 = false).
    { destruct (flt p f10) eqn:L; [|reflexivity].
      apply flt_real in L; try assumption; rewrite ?E10 in *; lra. }
    unfold disappear_temp.
    rewrite L10, (fle_not_gt _ _ Hlo), Hhi, E66.
    pose proof (segment_30_70_real p Np (conj Plo Phi)).
    apply Rabs_le. lra.
Qed.

Lemma disappear_temp_continuous_at_30_and_70_witness :
  (Rabs (B2R (disappear_temp (prev_float f30)) - B2R (disappear_temp f30))
   <= (30 - B2R (prev_float f30)) / 4 + 1 / 1000000000000)%R.
Proof.
  apply (disappear_temp_continuous_at_30_and_70 (prev_float f30));
    vm_compute; reflexivity.
Defined.

(** ** The literals are the nearest binary64 numbers *)

(** Each decimal literal of the source lies within half a unit in the last
    place of the decimal number it is written as. *)
Lemma decimal_literals_nearest :
  (Rabs (B2R f0_02 - 2 / 100) <= half_ulp f0_02)%R /\
  (Rabs (B2R f0_03 - 3 / 100) <= half_ulp f0_03)%R /\
  (Rabs (B2R f0_05 - 5 / 100) <= half_ulp f0_05)%R /\
  (Rabs (B2R f0_1 - 1 / 10) <= half_ulp f0_1)%R /\
  (Rabs (B2R f0_2 - 2 / 10) <= half_ulp f0_2)%R /\
  (Rabs (B2R f0_3 - 3 / 10) <= half_ulp f0_3)%R /\
  (Rabs (B2R f0_6 - 6 / 10) <= half_ulp f0_6)%R /\
  (Rabs (B2R f0_8 - 8 / 10) <= half_ulp f0_8)%R /\
  B2R f0_25 = (25 / 100)%R /\
  B2R f3_5 = (35 / 10)%R /\
  B2R f18_5 = (185 / 10)%R.
Proof.
  unfold half_ulp, f0_02, f0_03, f0_05, f0_1, f0_2, f0_3, f0_6, f0_8, f0_25,
    f3_5, f18_5.
  repeat split; try apply Rabs_le;
    repeat match goal with
    | |- context [(?e - 1)%Z] =>
        let v := eval vm_compute in (e - 1)%Z in change (e - 1)%Z with v
    end;
    eval_literal; lra.
Qed.

(** ** Rounding an inexact mantissa: division *)

(** [shr_fexp] whatever the location of the discarded part: the mantissa
    loses its [n] low bits. *)
Lemma shr_fexp_any (m e : Z) (l : location) :
  0 <= m ->
  let n := Z.max 0 (fexp64 (Zdigits2 m + e) - e) in
  shr_m (fst (shr_fexp prec emax m e l)) = m / 2 ^ n /\
  snd (shr_fexp prec emax m e l) = e + n.
Proof.
  intros H n. unfold shr_fexp, shr. rewrite fexp64_eq. subst n.
  assert (Hm : shr_m (shr_record_of_loc m l) = m) by (destruct l as [|[]]; reflexivity).
  destruct (fexp64 (Zdigits2 m + e) - e) as [|p|p] eqn:E; cbn [fst snd].
  - rewrite Hm. cbn. rewrite Z.div_1_r. lia.
  - rewrite iter_shr_1_div by (rewrite Hm; exact H). rewrite Hm.
    rewrite Z.max_r by lia. split; reflexivity.
  - rewrite Hm, Z.max_l by lia. cbn. rewrite Z.div_1_r. lia.
Qed.

(** [round_aux_exact] for a mantissa that carries a location, as the
    quotient of a division does.  A zero mantissa is allowed when its
    exponent is at most the smallest of the format. *)
Lemma round_aux_any (s : bool) (mx ex : Z) (l : location) :
  0 <= mx -> (mx = 0 -> ex <= -1074) ->
  let e1 := fexp64 (Zdigits2 mx + ex) in
  ex <= e1 -> e1 < 971 ->
  exists m1,
    mx / 2 ^ (e1 - ex) <= m1 <= mx / 2 ^ (e1 - ex) + 1 /\
    ((m1 = 0 /\ binary_round_aux prec emax s mx ex l = S754_zero s) \/
     (exists m2 e2,
        binary_round_aux prec emax s mx ex l = S754_finite s m2 e2 /\
        SpecFloat.bounded prec emax m2 e2 = true /\
        e1 <= e2 /\ Zpos m2 * 2 ^ (e2 - e1) = m1)).
Proof.
  intros Hmx Hzero e1 Hex He1.
  set (d := Zdigits2 mx) in *.
  set (n := e1 - ex).
  assert (Hn : 0 <= n) by (unfold n; lia).
  assert (Hpn : 0 < 2 ^ n) by (apply Z.pow_pos_nonneg; lia).
  set (q := mx / 2 ^ n).
  assert (Hq : 0 <= q) by (apply Z.div_pos; lia).
  unfold binary_round_aux.
  destruct (shr_fexp_any mx ex l Hmx) as [S1 S2].
  fold d in S1, S2. fold e1 in S1, S2.
  rewrite Z.max_r in S1, S2 by lia. fold n in S1, S2. fold q in S1.
  destruct (shr_fexp prec emax mx ex l) as [mrs1 e1'].
  cbn [fst snd] in S1, S2. rewrite S1.
  replace e1' with e1 by (unfold n in S2; lia).
  pose proof (round_nearest_even_bounds q (loc_of_shr_record mrs1)) as Hm1.
  set (m1 := round_nearest_even q (loc_of_shr_record mrs1)) in *.
  exists m1. split; [exact Hm1|].
  assert (Hm1' : 0 <= m1) by lia.
  destruct (shr_fexp_any m1 e1 loc_Exact Hm1') as [T1 T2].
  destruct (shr_fexp prec emax m1 e1 loc_Exact) as [mrs2 e2].
  cbn [fst snd] in T1, T2.
  destruct (Z.eq_dec m1 0) as [Hz|Hnz].
  - left. split; [exact Hz|]. rewrite T1, Hz. cbn. reflexivity.
  - right.
    set (D := Z.max 0 (d + ex - e1)).
    assert (He1def : e1 = Z.max (d + ex - 53) (-1074)) by reflexivity.
    assert (HqD : q < 2 ^ D /\ (D = 53 -> 2 ^ 52 <= m1)).
    { destruct (Z.eq_dec mx 0) as [Hm0|Hm0].
      - assert (Hq0 : q = 0) by (unfold q; rewrite Hm0; apply Z.div_0_l; lia).
        assert (Hd0 : d = 0) by (unfold d; rewrite Hm0; reflexivity).
        specialize (Hzero Hm0).
        split; [rewrite Hq0; apply Z.pow_pos_nonneg; unfold D; lia|].
        unfold D. lia.
      - assert (Hpos : 0 < mx) by lia.
        pose proof (digits_bounds mx Hpos) as [Dlo Dhi].
        pose proof (digits_pos mx Hpos) as Dp.
        fold d in Dlo, Dhi, Dp. split.
        + apply Z.div_lt_upper_bound; [exact Hpn|].
          rewrite <- Z.pow_add_r by (unfold D; lia).
          apply Z.lt_le_trans with (1 := Dhi).
          apply Z.pow_le_mono_r; unfold D, n; lia.
        + intros HD. apply Z.le_trans with q; [|lia].
          apply Z.div_le_lower_bound; [exact Hpn|].
          rewrite Z.mul_comm, <- Z.pow_add_r by lia.
          apply Z.le_trans with (2 := Dlo).
          apply Z.pow_le_mono_r; unfold D, n in *; lia. }
    destruct HqD as [HqD Hnorm].
    assert (Hfexp : fexp64 (D + e1) = e1).
    { destruct (Z.eq_dec mx 0) as [Hm0|Hm0].
      - specialize (Hzero Hm0).
        assert (Hd0 : d = 0) by (unfold d; rewrite Hm0; reflexivity).
        unfold fexp64, D. lia.
      - unfold fexp64, D. lia. }
    destruct (renormalise m1 e1 D) as (R1 & R2 & R3 & R4);
      [lia|unfold D; lia|exact Hfexp|exact Hnorm|].
    set (n2 := Z.max 0 (fexp64 (Zdigits2 m1 + e1) - e1)) in *.
    rewrite T1.
    destruct (m1 / 2 ^ n2) as [|m2|m2] eqn:Em2; try lia.
    assert (He2 : e2 = e1 + n2) by exact T2.
    assert (Hle : (e2 <=? emax - prec) = true)
      by (apply Z.leb_le; change (emax - prec) with 971; lia).
    rewrite Hle. exists m2, e2. split; [reflexivity|].
    split; [|split].
    + unfold SpecFloat.bounded, canonical_mantissa. rewrite Hle, andb_true_r.
      apply Z.eqb_eq. rewrite fexp64_eq.
      change (Zpos (digits2_pos m2)) with (Zdigits2 (Zpos m2)).
      rewrite He2. exact R4.
    + lia.
    + replace (e2 - e1) with n2 by lia. exact R2.
Qed.

(** The result of rounding the mantissa [mx] at exponent [ex], for any real
    number [v] that lies between [mx * 2^ex] and [(mx + 1) * 2^ex]. *)
Lemma round_aux_between (mx ex k : Z) (l : location) (v : R) :
  0 <= mx -> (mx = 0 -> ex <= -1074) ->
  ex <= fexp64 (Zdigits2 mx + ex) ->
  (F2R mx ex <= v <= F2R (mx + 1) ex)%R ->
  (v < bpow k)%R -> k <= 1000 ->
  rounds v k (binary_round_aux prec emax false mx ex l).
Proof.
  intros Hmx Hzero Hex [Hvlo Hvhi] Hk Hk'.
  assert (Hd : Zdigits2 mx + ex <= k \/ mx = 0).
  { destruct (Z.eq_dec mx 0) as [|Hm0]; [right; assumption|left].
    apply F2R_digits; [lia|]. lra. }
  set (e1 := fexp64 (Zdigits2 mx + ex)) in *.
  assert (He1k : e1 <= fexp64 k \/ e1 = -1074).
  { destruct Hd as [Hd|Hm0]; [left; apply fexp64_mono, Hd|right].
    specialize (Hzero Hm0). unfold e1. rewrite Hm0. cbn [Zdigits2].
    unfold fexp64. lia. }
  assert (He1k' : e1 <= fexp64 k) by (unfold fexp64 in *; lia).
  assert (He1 : e1 < 971) by (unfold fexp64 in He1k'; lia).
  destruct (round_aux_any false mx ex l Hmx Hzero Hex He1) as (m1 & Hm1 & Hres).
  fold e1 in Hm1, Hres.
  set (n := e1 - ex) in *.
  assert (Hpn : 0 < 2 ^ n) by (apply Z.pow_pos_nonneg; unfold n; lia).
  pose proof (bpow_pos e1) as Hb1. pose proof (bpow_pos ex) as Hbx.
  pose proof (bpow_le e1 (fexp64 k) He1k') as Hbk.
  assert (Hbe : bpow e1 = (bpow n * bpow ex)%R)
    by (rewrite <- bpow_add; f_equal; unfold n; lia).
  assert (Hpow : bpow n = IZR (2 ^ n)) by (apply bpow_IZR; unfold n; lia).
  (* the kept bits bracket the value *)
  assert (Hlo : (IZR (mx / 2 ^ n) * bpow e1 <= v)%R).
  { pose proof (Z.mul_div_le mx (2 ^ n) Hpn) as L. apply IZR_le in L.
    rewrite mult_IZR, <- Hpow in L. unfold F2R in Hvlo. rewrite Hbe. nra. }
  assert (Hhi : (v <= (IZR (mx / 2 ^ n) + 1) * bpow e1)%R).
  { pose proof (Z.mul_succ_div_gt mx (2 ^ n) Hpn) as L.
    assert (L' : mx + 1 <= 2 ^ n * Z.succ (mx / 2 ^ n)) by lia.
    apply IZR_le in L'.
    rewrite mult_IZR, succ_IZR, plus_IZR, <- Hpow in L'.
    unfold F2R in Hvhi. rewrite plus_IZR in Hvhi. rewrite Hbe. nra. }
  assert (Hm1lo : (IZR (mx / 2 ^ n) <= IZR m1)%R) by (apply IZR_le; lia).
  assert (Hm1hi : (IZR m1 <= IZR (mx / 2 ^ n) + 1)%R)
    by (rewrite <- succ_IZR; apply IZR_le; lia).
  assert (Hq0 : (0 <= IZR (mx / 2 ^ n))%R)
    by (apply IZR_le, Z.div_pos; lia).
  assert (P1 : (0 <= (IZR m1 - IZR (mx / 2 ^ n)) * bpow e1)%R)
    by (apply Rmult_le_pos; lra).
  assert (P2 : (0 <= (IZR (mx / 2 ^ n) + 1 - IZR m1) * bpow e1)%R)
    by (apply Rmult_le_pos; lra).
  assert (P3 : (0 <= IZR (mx / 2 ^ n) * bpow e1)%R)
    by (apply Rmult_le_pos; lra).
  assert (Hy : (v - bpow (fexp64 k) <= F2R m1 e1 <= v + bpow (fexp64 k))%R)
    by (unfold F2R in *; lra).
  assert (Hy0 : (0 <= F2R m1 e1)%R) by (unfold F2R; lra).
  destruct Hres as [[Hz ->]|(m2 & e2 & -> & Hb & He2 & Hv)].
  - subst m1. unfold F2R in Hy. rewrite Rmult_0_l in Hy.
    repeat split; cbn; lra.
  - assert (Hval : B2R (S754_finite false m2 e2) = F2R m1 e1).
    { cbn [B2R]. rewrite <- Hv. fold (F2R (Zpos m2) e2).
      rewrite F2R_shift by lia. f_equal. lia. }
    repeat split; try exact Hb; rewrite ?Hval; lra.
Qed.

Lemma digits_ge_pow (q j : Z) : 0 <= j -> 2 ^ j <= q -> j + 1 <= Zdigits2 q.
Proof.
  intros Hj H. assert (Hq : 0 < q).
  { apply Z.lt_le_trans with (2 := H). apply Z.pow_pos_nonneg; lia. }
  pose proof (digits_bounds q Hq) as [_ Dhi].
  destruct (Z.le_gt_cases (j + 1) (Zdigits2 q)) as [|G]; [assumption|exfalso].
  assert (2 ^ Zdigits2 q <= 2 ^ j).
  { apply Z.pow_le_mono_r; [lia|]. lia. }
  lia.
Qed.

Lemma shifted_dividend (m s : Z) :
  0 <= s ->
  match s with
  | 0 => m
  | Zpos _ => Z.shiftl m s
  | Zneg _ => 0
  end = m * 2 ^ s.
Proof.
  destruct s as [|p|p]; intros H; try lia.
  apply Z.shiftl_mul_pow2. lia.
Qed.

(** The quotient that [SFdiv] hands to the rounding: its mantissa and
    exponent bracket the exact quotient, at an exponent that is not above the
    one the format gives to it. *)
Lemma div_core_spec (m1 m2 : positive) (e1 e2 : Z) :
  let '(q, e', l) := SFdiv_core_binary prec emax (Zpos m1) e1 (Zpos m2) e2 in
  0 <= q /\ (q = 0 -> e' <= -1074) /\
  e' <= fexp64 (Zdigits2 q + e') /\
  (F2R q e' <= F2R (Zpos m1) e1 / F2R (Zpos m2) e2 <= F2R (q + 1) e')%R.
Proof.
  unfold SFdiv_core_binary. rewrite fexp64_eq.
  set (d1 := Zdigits2 (Zpos m1)). set (d2 := Zdigits2 (Zpos m2)).
  set (A := d1 + e1 - (d2 + e2)).
  set (e' := Z.min (fexp64 A) (e1 - e2)).
  set (s := e1 - e2 - e').
  assert (Hs : 0 <= s) by (unfold s, e'; lia).
  set (m' := match s with
             | 0 => Zpos m1
             | Zpos _ => Z.shiftl (Zpos m1) s
             | Zneg _ => 0
             end).
  assert (Hm' : m' = Zpos m1 * 2 ^ s) by (apply shifted_dividend, Hs).
  assert (Hps : 0 < 2 ^ s) by (apply Z.pow_pos_nonneg; lia).
  destruct (Z.div_eucl m' (Zpos m2)) as [q r] eqn:E.
  assert (Hq : q = m' / Zpos m2) by (unfold Z.div; rewrite E; reflexivity).
  assert (Hq0 : 0 <= q) by (rewrite Hq; apply Z.div_pos; lia).
  pose proof (Z.mul_div_le m' (Zpos m2) eq_refl) as Qlo.
  pose proof (Z.mul_succ_div_gt m' (Zpos m2) eq_refl) as Qhi.
  rewrite <- Hq in Qlo, Qhi.
  pose proof (digits_bounds (Zpos m1) eq_refl) as [D1lo D1hi].
  pose proof (digits_bounds (Zpos m2) eq_refl) as [D2lo D2hi].
  pose proof (digits_pos (Zpos m1) eq_refl) as D1p.
  pose proof (digits_pos (Zpos m2) eq_refl) as D2p.
  fold d1 in D1lo, D1hi, D1p. fold d2 in D2lo, D2hi, D2p.
  (* either the smallest exponent, or a quotient of at least 53 bits *)
  assert (Hcases : e' <= -1074 \/
                   (0 < q /\ A <= Zdigits2 q + e')).
  { destruct (Z.le_gt_cases (A - 53) (-1074)) as [Hsub|Hnorm].
    - left. unfold e', fexp64. lia.
    - right.
      assert (Hs53 : 53 - d1 + d2 <= s) by (unfold s, e', fexp64, A; lia).
      set (j := d1 - 1 + s - d2).
      assert (Hj : 0 <= j) by (unfold j; lia).
      assert (Hqj : 2 ^ j <= q).
      { rewrite Hq. apply Z.div_le_lower_bound; [lia|].
        rewrite Hm'.
        apply Z.le_trans with (2 ^ d2 * 2 ^ j).
        - apply Z.mul_le_mono_nonneg_r; [apply Z.pow_nonneg; lia|lia].
        - rewrite <- Z.pow_add_r by lia.
          replace (d2 + j) with (d1 - 1 + s) by (unfold j; lia).
          rewrite Z.pow_add_r by lia.
          apply Z.mul_le_mono_nonneg_r; lia. }
      pose proof (digits_ge_pow q j Hj Hqj) as Hdq.
      split.
      + apply Z.lt_le_trans with (2 := Hqj). apply Z.pow_pos_nonneg; lia.
      + unfold j, s, A in *. lia. }
  split; [exact Hq0|]. split; [|split].
  - intros Hz. destruct Hcases as [|[Hpos _]]; lia.
  - destruct Hcases as [Hsub|[_ Hd]].
    + unfold fexp64. lia.
    + apply Z.le_trans with (fexp64 A); [unfold e'; lia|].
      apply fexp64_mono, Hd.
  - (* the bracket, in real numbers *)
    pose proof (bpow_pos e1). pose proof (bpow_pos e2). pose proof (bpow_pos e').
    assert (Hm2 : (0 < IZR (Zpos m2))%R) by (apply IZR_lt; lia).
    assert (He : bpow e1 = (bpow s * bpow e' * bpow e2)%R).
    { rewrite <- !bpow_add. f_equal. unfold s. lia. }
    assert (Hquot : (F2R (Zpos m1) e1 / F2R (Zpos m2) e2
                     = IZR m' / IZR (Zpos m2) * bpow e')%R).
    { unfold F2R. rewrite Hm', mult_IZR, He, <- bpow_IZR by exact Hs.
      field. split; lra. }
    rewrite Hquot. unfold F2R.
    apply IZR_le in Qlo.
    assert (Qhi' : m' + 1 <= Zpos m2 * Z.succ q) by lia.
    apply IZR_le in Qhi'.
    rewrite mult_IZR in Qlo. rewrite mult_IZR, succ_IZR, plus_IZR in Qhi'.
    rewrite plus_IZR.
    assert (L1 : (IZR q <= IZR m' / IZR (Zpos m2))%R).
    { apply Rmult_le_reg_r with (IZR (Zpos m2)); [exact Hm2|].
      unfold Rdiv. rewrite Rmult_assoc, Rinv_l by lra. lra. }
    assert (L2 : (IZR m' / IZR (Zpos m2) <= IZR q + 1)%R).
    { apply Rmult_le_reg_r with (IZR (Zpos m2)); [exact Hm2|].
      unfold Rdiv. rewrite Rmult_assoc, Rinv_l by lra. lra. }
    split; apply Rmult_le_compat_r; lra.
Qed.

Lemma div_rounds (x y : float) (k : Z) :
  number x -> number y ->
  (0 <= B2R x)%R -> (0 < B2R y)%R ->
  (B2R x / B2R y < bpow k)%R -> k <= 1000 ->
  rounds (B2R x / B2R y) k (SFdiv prec emax x y).
Proof.
  intros [Fx Vx] [Fy Vy] Hx Hy Hk Hk'.
  destruct x as [sx|sx| |sx mx ex], y as [sy|sy| |sy my ey];
    try discriminate; cbn [SFdiv]; try (cbn [B2R] in Hy; lra).
  - apply rounds_exact; [apply number_zero| |].
    + cbn [B2R]. unfold Rdiv. ring.
    + cbn [B2R]. unfold Rdiv. rewrite Rmult_0_l. lra.
  - apply nonneg_sign in Hx. subst sx.
    assert (Hsy : sy = false) by (apply (nonneg_sign sy my ey); lra).
    subst sy. cbn [xorb B2R] in *.
    fold (F2R (Zpos mx) ex) in *. fold (F2R (Zpos my) ey) in *.
    pose proof (div_core_spec mx my ex ey) as C.
    destruct (SFdiv_core_binary prec emax (Zpos mx) ex (Zpos my) ey)
      as [[q e'] l].
    destruct C as (Hq & Hz & He & Hv).
    apply round_aux_between; assumption.
Qed.

(** *** Operations on values below 256 *)

Lemma bpow_8 : bpow 8 = 256%R.
Proof. rewrite bpow_IZR by lia. reflexivity. Qed.

Lemma ulp_8 : (0 < bpow (fexp64 8) <= 1 / 10000000000000)%R.
Proof.
  split; [apply bpow_pos|]. change (fexp64 8) with (-45).
  eval_literal. lra.
Qed.

Lemma rounds_8 (x : R) (r : float) :
  rounds x 8 r ->
  number r /\ (0 <= B2R r)%R /\
  (x - 1 / 10000000000000 <= B2R r <= x + 1 / 10000000000000)%R.
Proof.
  intros (N & H0 & H). pose proof ulp_8. repeat split; try apply N; lra.
Qed.

Lemma add_near_256 (x y : float) :
  number x -> number y -> (0 <= B2R x + B2R y < 256)%R ->
  number (fadd x y) /\ (0 <= B2R (fadd x y))%R /\
  (B2R x + B2R y - 1 / 10000000000000 <= B2R (fadd x y)
   <= B2R x + B2R y + 1 / 10000000000000)%R.
Proof.
  intros Nx Ny H. apply rounds_8, add_rounds; try assumption; [|lia].
  rewrite bpow_8. exact H.
Qed.

Lemma div_near (x y : float) :
  number x -> number y -> (0 <= B2R x)%R -> (0 < B2R y)%R ->
  (B2R x / B2R y < 256)%R ->
  number (SFdiv prec emax x y) /\ (0 <= B2R (SFdiv prec emax x y))%R /\
  (B2R x / B2R y - 1 / 10000000000000 <= B2R (SFdiv prec emax x y)
   <= B2R x / B2R y + 1 / 10000000000000)%R.
Proof.
  intros Nx Ny Hx Hy H. apply rounds_8, div_rounds; try assumption; [|lia].
  rewrite bpow_8. exact H.
Qed.

(** A divisor that is a positive number is not a zero. *)
Lemma positive_not_zero (y : float) : (0 < B2R y)%R -> is_zero y = false.
Proof. destruct y; cbn [B2R is_zero]; intros H; try reflexivity. lra. Qed.

Lemma fdiv_positive (x y : float) :
  (0 < B2R y)%R -> fdiv x y = Ok (SFdiv prec emax x y).
Proof. intros H. unfold fdiv. rewrite (positive_not_zero y H). reflexivity. Qed.

Lemma real_fle (x y : float) :
  number x -> number y -> (0 <= B2R x)%R -> (0 <= B2R y)%R ->
  (B2R x <= B2R y)%R -> fle x y = true.
Proof.
  intros Nx Ny Hx Hy H.
  apply fle_of_not_lt; try (apply number_not_nan; assumption).
  destruct (flt y x) eqn:L; [|reflexivity].
  apply flt_real in L; try assumption. lra.
Qed.

(** *** The model, in real numbers *)

(** Both temperatures of a percentage from 0 to 100 are numbers; the
    reappearance temperature is at least 1.9 and at most 7.2 degrees below
    the disappearance temperature. *)
Lemma calculate_temps_real (p : float) :
  number p -> (0 <= B2R p <= 100)%R ->
  number (fst (calculate_temps p)) /\ number (snd (calculate_temps p)) /\
  (30 <= B2R (fst (calculate_temps p)) <= 72)%R /\
  (B2R (fst (calculate_temps p)) - 72 / 10 <= B2R (snd (calculate_temps p))
   <= B2R (fst (calculate_temps p)) - 19 / 10)%R.
Proof.
  intros Np [P0 P100].
  destruct (disappear_temp_real _ Np (conj P0 P100)) as (Nd & D30 & D72).
  destruct literal_values as
    (_ & E2 & _ & _ & _ & _ & _ & _ & _ & _ & _ & B005 & _).
  destruct literal_numbers as
    (N2 & _ & _ & _ & _ & _ & _ & _ & _ & N005 & _).
  unfold calculate_temps. cbn [fst snd].
  set (d := disappear_temp p) in *.
  assert (Tx : (0 <= B2R p * B2R f0_05 <= 51 / 10)%R) by nra.
  destruct (mul_near p f0_05) as (Nt & T0 & T); try assumption; try lra.
  destruct (add_near f2 (fmul p f0_05)) as (Ns & S0 & S);
    try assumption; rewrite E2 in *; [lra|].
  destruct (sub_near d (fadd f2 (fmul p f0_05))) as (Nr & R0 & R);
    try assumption; [lra|].
  repeat split; try apply Nd; try apply Nr; lra.
Qed.

(** The percentage of a mixture of 5 to 10 ml of phenol in 3 to 36 ml of
    water is a number between 11.9 and 77.1; the total volume is a number
    between 7.9 and 46.1. *)
Lemma percent_of_real (phenol water : float) :
  volumes_ok phenol water ->
  number (fadd phenol water) /\
  (79 / 10 <= B2R (fadd phenol water) <= 461 / 10)%R /\
  number (percent_of phenol water) /\
  (119 / 10 <= B2R (percent_of phenol water) <= 771 / 10)%R.
Proof.
  intros (Np & [P5 P10] & Nw & [W3 W36]).
  destruct literal_values as (_ & _ & _ & _ & _ & _ & _ & _ & E100 & _).
  assert (N100 : number f100) by (split; reflexivity).
  destruct (add_near phenol water) as (Nt & T0 & T); try assumption; [lra|].
  set (t := fadd phenol water) in *.
  assert (Tpos : (0 < B2R t)%R) by lra.
  assert (Q : (12 / 100 <= B2R phenol / B2R t <= 77 / 100)%R).
  { split.
    - apply Rmult_le_reg_r with (B2R t); [exact Tpos|].
      unfold Rdiv. rewrite (Rmult_assoc (B2R phenol)), Rinv_l by lra. lra.
    - apply Rmult_le_reg_r with (B2R t); [exact Tpos|].
      unfold Rdiv. rewrite (Rmult_assoc (B2R phenol)), Rinv_l by lra. lra. }
  destruct (div_near phenol t) as (Nq & Q0 & Qb); try assumption; try lra.
  unfold percent_of. fold t.
  set (q := SFdiv prec emax phenol t) in *.
  destruct (mul_near q f100) as (Npc & PC0 & PC); try assumption;
    rewrite E100 in *; try lra.
  repeat split; try apply Nt; try apply Npc; lra.
Qed.

(** The row that the record step builds for a mixture. *)
Lemma row_of_real (phenol water : float) :
  volumes_ok phenol water ->
  let r := row_of phenol water in
  number (disappear_c r) /\ number (reappear_c r) /\ number (mean_c r) /\
  (119 / 10 <= B2R (pct_phenol r) <= 771 / 10)%R /\
  (B2R (reappear_c r) + 9 / 10 <= B2R (mean_c r)
   <= B2R (disappear_c r) - 9 / 10)%R /\
  (48 <= B2R (reappear_c r))%R /\ (B2R (disappear_c r) <= 71)%R.
Proof.
  intros Hv. destruct (percent_of_real _ _ Hv) as (_ & _ & Npc & PCb).
  unfold row_of.
  set (pct := percent_of phenol water) in *.
  destruct (calculate_temps_real pct Npc) as (Nd & Nr & Db & Rb); [lra|].
  (* the percentage is at least 10: the first segment is not used *)
  assert (Dlo : (56 <= B2R (fst (calculate_temps pct)) <= 71)%R).
  { destruct literal_values as
      (_ & _ & E10 & E30 & _ & E65 & E66 & E70 & _ & E025 & _ & _ & B01 & B03).
    destruct literal_numbers as
      (_ & N10 & N30 & _ & N65 & N66 & N70 & N025 & _ & _ & N01 & N03).
    unfold calculate_temps. cbn [fst]. unfold disappear_temp.
    assert (L10 : flt pct f10 = false).
    { destruct (flt pct f10) eqn:L; [|reflexivity].
      apply flt_real in L; try assumption; rewrite ?E10 in *; lra. }
    rewrite L10.
    destruct (flt pct f30) eqn:L30; [|destruct (flt pct f70) eqn:L70].
    - apply flt_real in L30; try assumption; rewrite ?E30 in *; try lra.
      pose proof (segment_10_30_real pct Npc). lra.
    - apply not_flt_real in L30; try assumption; rewrite ?E30 in *; try lra.
      apply flt_real in L70; try assumption; rewrite ?E70 in *; try lra.
      pose proof (segment_30_70_real pct Npc). lra.
    - apply not_flt_real in L70; try assumption; rewrite ?E70 in *; try lra.
      unfold segment_from_70.
      destruct (sub_near pct f70) as (Nu & U0 & U); try assumption;
        rewrite E70 in *; [lra|].
      assert (Tx : (0 <= B2R (fsub pct f70) * B2R f0_3 <= 3)%R) by nra.
      destruct (mul_near (fsub pct f70) f0_3) as (Nt & T0 & T);
        try assumption; try lra.
      destruct (sub_near f66 (fmul (fsub pct f70) f0_3)) as (Nd' & D0 & D);
        try assumption; rewrite E66 in *; lra. }
  cbn zeta. cbn [disappear_c reappear_c mean_c pct_phenol].
  set (d := fst (calculate_temps pct)) in *.
  set (r := snd (calculate_temps pct)) in *.
  destruct literal_values as (_ & E2 & _).
  assert (N2 : number f2) by (split; reflexivity).
  destruct (add_near_256 d r) as (Ns & S0 & S); try assumption; [lra|].
  destruct (div_near (fadd d r) f2) as (Nm & M0 & M); try assumption;
    rewrite ?E2 in *; try lra.
  repeat split; try apply Nd; try apply Nr; try apply Nm; lra.
Qed.

(** ** The inputs and the two titration formulas, in real numbers *)

Lemma more_literal_values :
  B2R f3 = 3%R /\ B2R f4 = 4%R /\ B2R f5 = 5%R /\ B2R f8 = 8%R /\
  B2R f25 = 25%R /\ B2R f36 = 36%R /\ B2R f50 = 50%R /\
  (2 / 10 <= B2R f0_2 <= 2 / 10 + 1 / 10000000000000000)%R /\
  (2 / 100 <= B2R f0_02 <= 2 / 100 + 1 / 10000000000000000)%R /\
  (3 / 100 - 1 / 10000000000000000 <= B2R f0_03 <= 3 / 100)%R /\
  (6 / 10 - 1 / 10000000000000000 <= B2R f0_6 <= 6 / 10)%R /\
  (8 / 10 <= B2R f0_8 <= 8 / 10 + 1 / 10000000000000000)%R /\
  (1 / 20 <= B2R f0_05 <= 1 / 20 + 1 / 10000000000000000)%R.
Proof.
  unfold f3, f4, f5, f8, f25, f36, f50, f0_2, f0_02, f0_03, f0_6, f0_8,
    f0_05.
  repeat split; eval_literal; lra.
Qed.

Lemma more_literal_numbers :
  number f0 /\ number f3 /\ number f4 /\ number f5 /\ number f8 /\
  number f10 /\ number f25 /\ number f36 /\ number f50 /\ number f0_1 /\
  number f0_2 /\ number f0_02 /\ number f0_03 /\ number f0_6 /\
  number f0_8 /\ number f0_05.
Proof. repeat split. Qed.

(** What a bounded number input hands back, when it is a genuine float. *)
Lemma st_number_input_real (lo hi d c x : float) :
  number lo -> number hi -> (0 <= B2R lo)%R -> (0 <= B2R hi)%R ->
  valid_binary prec emax c = true ->
  st_number_input lo hi d c = Ok x ->
  x = c /\ number x /\ (B2R lo <= B2R x <= B2R hi)%R.
Proof.
  intros Nlo Nhi Hlo Hhi V H.
  apply st_number_input_ok in H. destruct H as [-> H].
  apply in_range_bounds in H. destruct H as [H1 H2].
  split; [reflexivity|]. apply range_real; assumption.
Qed.

(** A number input returns, whenever its default and the value entered are
    within its bounds. *)
Lemma st_number_input_returns (lo hi d c : float) :
  in_range lo hi d = true -> in_range lo hi c = true ->
  st_number_input lo hi d c = Ok c.
Proof. unfold st_number_input. intros -> ->. reflexivity. Qed.

Lemma in_range_real (lo hi x : float) :
  number lo -> number hi -> number x ->
  (0 <= B2R lo)%R -> (B2R lo <= B2R x <= B2R hi)%R ->
  in_range lo hi x = true.
Proof.
  intros Nlo Nhi Nx H0 [H1 H2]. unfold in_range.
  apply andb_true_intro. split; apply real_fle; try assumption; lra.
Qed.

Lemma add_more_water_real (w : float) :
  number w -> (3 <= B2R w <= 36)%R ->
  number (add_more_water w) /\ (3 <= B2R (add_more_water w) <= 36)%R.
Proof.
  intros Nw [W3 W36].
  destruct literal_values as (_ & E2 & _).
  destruct more_literal_values as (_ & _ & _ & _ & _ & E36 & _).
  assert (N2 : number f2) by (split; reflexivity).
  assert (N36 : number f36) by (split; reflexivity).
  destruct (add_near w f2) as (Ns & S0 & S); try assumption;
    rewrite E2 in *; [lra|].
  unfold add_more_water, fmin.
  destruct (flt f36 (fadd w f2)) eqn:L.
  - split; [exact N36|]. rewrite E36. lra.
  - apply not_flt_real in L; try assumption; rewrite ?E36 in *; try lra.
    split; [exact Ns|]. lra.
Qed.

(** The normality that "Calculate NaOH Normality" computes, against the
    exact quotient [1.25 / naoh_used]. *)
Lemma standardize_real (naoh_used : float) :
  number naoh_used -> (1 / 10 <= B2R naoh_used <= 50)%R ->
  standardize naoh_used
  = Ok (SFdiv prec emax (fmul f25 f0_05) naoh_used) /\
  number (SFdiv prec emax (fmul f25 f0_05) naoh_used) /\
  (249 / 10000 <= B2R (SFdiv prec emax (fmul f25 f0_05) naoh_used)
   <= 1251 / 100)%R /\
  (5 / 4 / B2R naoh_used - 2 / 1000000000000
   <= B2R (SFdiv prec emax (fmul f25 f0_05) naoh_used)
   <= 5 / 4 / B2R naoh_used + 2 / 1000000000000)%R.
Proof.
  intros Nu [U1 U50].
  destruct more_literal_values as
    (_ & _ & _ & _ & E25 & _ & _ & _ & _ & _ & _ & _ & B005).
  assert (N25 : number f25) by (split; reflexivity).
  assert (N005 : number f0_05) by (split; reflexivity).
  assert (Px : (125 / 100 <= B2R f25 * B2R f0_05
                <= 125 / 100 + 1 / 100000000000000)%R)
    by (rewrite E25; lra).
  destruct (mul_near f25 f0_05) as (Nm & M0 & M); try assumption;
    rewrite ?E25; try lra.
  set (m := fmul f25 f0_05) in *.
  assert (Upos : (0 < B2R naoh_used)%R) by lra.
  assert (I0 : (0 < / B2R naoh_used)%R) by (apply Rinv_0_lt_compat, Upos).
  assert (I10 : (/ B2R naoh_used <= 10)%R).
  { apply Rmult_le_reg_r with (B2R naoh_used); [exact Upos|].
    rewrite Rinv_l by lra. lra. }
  assert (I50 : (1 / 50 <= / B2R naoh_used)%R).
  { apply Rmult_le_reg_r with (B2R naoh_used); [exact Upos|].
    rewrite Rinv_l by lra. lra. }
  assert (D1 : (B2R m / B2R naoh_used - 5 / 4 / B2R naoh_used
                = (B2R m - 5 / 4) * / B2R naoh_used)%R)
    by (unfold Rdiv; ring).
  assert (D2 : (- (12 / 100000000000000) * 10
                <= (B2R m - 5 / 4) * / B2R naoh_used
                <= 12 / 100000000000000 * 10)%R) by nra.
  assert (D3 : (5 / 4 * (1 / 50) <= 5 / 4 / B2R naoh_used <= 5 / 4 * 10)%R)
    by (unfold Rdiv; nra).
  destruct (div_near m naoh_used) as (Nq & Q0 & Qb); try assumption; try lra.
  split; [unfold standardize; fold m; apply fdiv_positive, Upos|].
  split; [exact Nq|]. split; lra.
Qed.

Lemma not_fle_real (x y : float) :
  number x -> number y -> (0 <= B2R x)%R -> (0 <= B2R y)%R ->
  fle x y = false -> (B2R y < B2R x)%R.
Proof.
  intros Nx Ny Hx Hy H.
  destruct (Rlt_or_le (B2R y) (B2R x)) as [|G]; [assumption|exfalso].
  apply real_fle in G; try assumption. congruence.
Qed.

(** *** The conductance model against its exact formulas *)

(** A quotient by the float 0.2, against five times the dividend. *)
Lemma quotient_by_fifth (x y : R) :
  (0 <= x <= 8)%R -> (1 / 5 <= y <= 1 / 5 + 1 / 10000000000000000)%R ->
  (5 * x - 1 / 10000000000000 <= x / y <= 5 * x)%R.
Proof.
  intros [X0 X8] [Y1 Y2].
  assert (Ypos : (0 < y)%R) by lra.
  assert (Hq : (x / y * y = x)%R) by (field; lra).
  assert (Q0 : (0 <= x / y)%R)
    by (apply Rmult_le_pos; [lra|left; apply Rinv_0_lt_compat, Ypos]).
  set (q := (x / y)%R) in *.
  assert (P1 : (0 <= q * (y - 1 / 5))%R) by (apply Rmult_le_pos; lra).
  assert (Qhi : (q <= 5 * x)%R) by nra.
  assert (P2 : (q * (y - 1 / 5) <= 40 * (1 / 10000000000000000))%R).
  { apply Rle_trans with (q * (1 / 10000000000000000))%R.
    - apply Rmult_le_compat_l; lra.
    - apply Rmult_le_compat_r; lra. }
  split; [nra|exact Qhi].
Qed.

(** The conductance of a volume from 0 to 8 ml, to twelve decimals. *)
Lemma conductance_model_tight (naoh_added : float) :
  number naoh_added -> (0 <= B2R naoh_added <= 8)%R ->
  exists c,
    conductance_model naoh_added = Ok c /\ number c /\
    (fle naoh_added f4 = true ->
     (B2R naoh_added <= 4 /\
      8 / 10 - B2R naoh_added / 10 - 1 / 1000000000000 <= B2R c
      <= 8 / 10 - B2R naoh_added / 10 + 1 / 1000000000000)%R) /\
    (fle naoh_added f4 = false ->
     (4 < B2R naoh_added /\
      6 / 10 + (B2R naoh_added - 4) * 3 / 20 - 1 / 1000000000000 <= B2R c
      <= 6 / 10 + (B2R naoh_added - 4) * 3 / 20 + 1 / 1000000000000)%R).
Proof.
  intros Nx [X0 X8].
  destruct more_literal_values as
    (_ & E4 & _ & _ & _ & _ & _ & B02 & B002 & B003 & B06 & B08 & _).
  destruct more_literal_numbers as
    (_ & _ & N4 & _ & _ & _ & _ & _ & _ & _ & N02 & N002 & N003 & N06 &
     N08 & _).
  assert (P02 : (0 < B2R f0_2)%R) by lra.
  unfold conductance_model.
  destruct (fle naoh_added f4) eqn:L.
  - apply fle_real in L; try assumption; rewrite ?E4 in *; try lra.
    unfold conductance_low. rewrite (fdiv_positive _ _ P02). cbn [bind].
    assert (Q : (5 * B2R naoh_added - 1 / 10000000000000
                 <= B2R naoh_added / B2R f0_2 <= 5 * B2R naoh_added)%R)
      by (apply quotient_by_fifth; lra).
    destruct (div_near naoh_added f0_2) as (Nq & Q0 & Qb);
      try assumption; try lra.
    set (q := SFdiv prec emax naoh_added f0_2) in *.
    assert (T1 : (0 <= B2R q * (B2R f0_02 - 2 / 100))%R)
      by (apply Rmult_le_pos; lra).
    assert (T2 : (B2R q * (B2R f0_02 - 2 / 100)
                  <= 21 * (1 / 10000000000000000))%R).
    { apply Rle_trans with (B2R q * (1 / 10000000000000000))%R.
      - apply Rmult_le_compat_l; lra.
      - apply Rmult_le_compat_r; lra. }
    assert (Tx : (2 / 100 * B2R q <= B2R f0_02 * B2R q
                  <= 2 / 100 * B2R q + 1 / 100000000000000)%R) by nra.
    destruct (mul_near f0_02 q) as (Nt & T0 & T); try assumption; try lra.
    destruct (sub_near f0_8 (fmul f0_02 q)) as (Nc & C0 & C);
      try assumption; [lra|].
    eexists. split; [reflexivity|]. split; [exact Nc|].
    split; intros; [|discriminate]. split; [lra|]. lra.
  - apply not_fle_real in L; try assumption; rewrite ?E4 in *; try lra.
    unfold conductance_high. rewrite (fdiv_positive _ _ P02). cbn [bind].
    destruct (sub_near naoh_added f4) as (Nu & U0 & U); try assumption;
      rewrite ?E4 in *; [lra|].
    set (u := fsub naoh_added f4) in *.
    assert (Q : (5 * B2R u - 1 / 10000000000000
                 <= B2R u / B2R f0_2 <= 5 * B2R u)%R)
      by (apply quotient_by_fifth; lra).
    destruct (div_near u f0_2) as (Nq & Q0 & Qb); try assumption; try lra.
    set (q := SFdiv prec emax u f0_2) in *.
    assert (T1 : (0 <= B2R q * (3 / 100 - B2R f0_03))%R)
      by (apply Rmult_le_pos; lra).
    assert (T2 : (B2R q * (3 / 100 - B2R f0_03)
                  <= 21 * (1 / 10000000000000000))%R).
    { apply Rle_trans with (B2R q * (1 / 10000000000000000))%R.
      - apply Rmult_le_compat_l; lra.
      - apply Rmult_le_compat_r; lra. }
    assert (Tx : (3 / 100 * B2R q - 1 / 100000000000000
                  <= B2R f0_03 * B2R q <= 3 / 100 * B2R q)%R) by nra.
    destruct (mul_near f0_03 q) as (Nt & T0 & T); try assumption; try lra.
    destruct (add_near f0_6 (fmul f0_03 q)) as (Nc & C0 & C);
      try assumption; [lra|].
    eexists. split; [reflexivity|]. split; [exact Nc|].
    split; intros; [discriminate|]. split; [lra|]. lra.
Qed.

(** ** The frame operations of the plot page *)

Lemma same_cell_nan (x y : float) :
  same_cell x y = true -> is_nan x = is_nan y.
Proof.
  unfold same_cell. intros H. apply orb_prop in H. destruct H as [H|H].
  - apply feq_not_nan in H. destruct H as [-> ->]. reflexivity.
  - apply andb_prop in H. destruct H as [-> ->]. reflexivity.
Qed.

Lemma same_cell_feq (x y : float) :
  is_nan x = false -> same_cell x y = true -> feq x y = true.
Proof.
  unfold same_cell. intros Hx H. rewrite Hx in H. cbn in H.
  rewrite orb_false_r in H. exact H.
Qed.

Lemma same_row_cells (a b : phenol_row) :
  same_row a b = true ->
  same_cell (phenol_ml a) (phenol_ml b) = true /\
  same_cell (water_ml a) (water_ml b) = true /\
  same_cell (mean_c a) (mean_c b) = true.
Proof.
  unfold same_row. intros H.
  repeat (apply andb_prop in H; let H' := fresh "H" in destruct H as [H H']).
  repeat split; assumption.
Qed.

(** Every row of a frame is kept by [drop_duplicates], or holds the same
    values as a row that is kept or was seen earlier. *)
Lemma drop_duplicates_aux_represents (df : frame) :
  forall seen x, In x df ->
    (exists r, In r seen /\ same_row (snd x) r = true) \/
    (exists y, In y (drop_duplicates_aux seen df) /\
               (y = x \/ same_row (snd x) (snd y) = true)).
Proof.
  induction df as [|[l r] df IH]; intros seen x Hin; [contradiction|].
  cbn [drop_duplicates_aux].
  destruct (existsb (same_row r) seen) eqn:E.
  - destruct Hin as [<-|Hin]; [|exact (IH seen x Hin)].
    left. apply existsb_exists in E. exact E.
  - destruct Hin as [<-|Hin].
    + right. exists (l, r). split; [left; reflexivity|left; reflexivity].
    + destruct (IH (r :: seen) x Hin) as [(r' & [<-|Hr'] & S)|(y & Hy & S)].
      * right. exists (l, r). split; [left; reflexivity|right; exact S].
      * left. exists r'. split; assumption.
      * right. exists y. split; [right; exact Hy|exact S].
Qed.

Lemma plotted_frame_rows (t : list phenol_row) (x : nat * phenol_row) :
  In x (plotted_frame t) -> In (snd x) t.
Proof. apply sorted_frame_rows, plotted_frame_sorted. Qed.

(** A row of the table with a mean temperature that is a number leaves a
    row with such a mean temperature in the plotted frame. *)
Lemma plotted_frame_number (t : list phenol_row) (r : phenol_row) :
  In r t -> is_nan (mean_c r) = false ->
  exists y, In y (plotted_frame t) /\ is_nan (mean_c (snd y)) = false.
Proof.
  intros Hin Hr.
  destruct (In_nth _ _ r Hin) as (n & Hn & Hnth).
  assert (Hx : In (n, r) (to_frame t)).
  { unfold to_frame. rewrite <- Hnth.
    assert (Hc : nth n (combine (seq 0 (List.length t)) t) (O, r)
                 = (nth n (seq 0 (List.length t)) O, nth n t r))
      by apply combine_nth, length_seq.
    rewrite seq_nth in Hc by exact Hn. cbn in Hc. rewrite <- Hc.
    apply nth_In. rewrite length_combine, length_seq. lia. }
  destruct (drop_duplicates_aux_represents _ [] _ Hx)
    as [(r' & [] & _)|(y & Hy & S)].
  exists y. split.
  - unfold plotted_frame.
    apply (Permutation_in _ (Permutation_sym (sort_values_perm _))). exact Hy.
  - destruct S as [->|S]; [exact Hr|].
    apply same_row_cells in S. destruct S as (_ & _ & S).
    apply same_cell_nan in S. cbn [snd] in S. congruence.
Qed.

Lemma first_max_in (rest : frame) (best : nat * phenol_row) :
  In (first_max best rest) (best :: rest).
Proof.
  destruct (first_max_spec rest best) as (before & after & -> & _).
  apply in_elt.
Qed.

(** [idxmax] raises exactly on a frame with no number in the column. *)
Lemma idxmax_returns (df : frame) :
  (exists y, In y df /\ is_nan (mean_c (snd y)) = false) ->
  exists x, In x df /\ idxmax df = Ok (fst x).
Proof.
  intros (y & Hy & Ny). destruct df as [|x rest]; [contradiction|].
  unfold idxmax.
  destruct (forallb (fun r => is_nan (mean_c (snd r))) (x :: rest)) eqn:F.
  - rewrite forallb_forall in F. rewrite (F y Hy) in Ny. discriminate.
  - exists (first_max x rest). split; [apply first_max_in|reflexivity].
Qed.


(** The CST point is computed when some row of the table has a mean
    temperature that is a number. *)
Lemma cst_point_number (t : list phenol_row) (r : phenol_row) :
  In r t -> is_nan (mean_c r) = false ->
  exists x, In x (plotted_frame t) /\
            cst_point t = Ok (mean_c (snd x), pct_phenol (snd x)).
Proof.
  intros Hin Hr.
  destruct (idxmax_returns _ (plotted_frame_number t r Hin Hr))
    as (x & Hx & Hi).
  exists x. split; [exact Hx|].
  assert (Hd : NoDup (map fst (plotted_frame t)))
    by apply (sorted_frame_labels t), plotted_frame_sorted.
  unfold cst_point, cst_of_frame. rewrite Hi. cbn [bind].
  rewrite !(loc_row _ x _ Hd Hx). reflexivity.
Qed.


(** *** Tables with one row per mixture *)

Lemma filter_has {A : Type} (f : A -> bool) (t : list A) (a : A) :
  In a t -> f a = true -> (1 <= List.length (filter f t))%nat.
Proof.
  induction t as [|b t IH]; [contradiction|]. intros [->|Hin] Ha; cbn.
  - rewrite Ha. cbn. lia.
  - destruct (f b); cbn; [lia|exact (IH Hin Ha)].
Qed.

Lemma one_row_per_mixture_distinct (t : list phenol_row) :
  (forall p w, (mixture_count p w t <= 1)%nat) ->
  (forall r, In r t -> is_nan (phenol_ml r) = false /\
                       is_nan (water_ml r) = false) ->
  ForallOrdPairs (fun a b => same_row b a = false) t.
Proof.
  induction t as [|a t IH]; intros Hc Hn; constructor.
  - apply Forall_forall. intros b Hb.
    destruct (same_row b a) eqn:S; [exfalso|reflexivity].
    apply same_row_cells in S. destruct S as (S1 & S2 & _).
    destruct (Hn b (or_intror Hb)) as [Nb1 Nb2].
    destruct (Hn a (or_introl eq_refl)) as [Na1 Na2].
    apply (same_cell_feq _ _ Nb1) in S1. apply (same_cell_feq _ _ Nb2) in S2.
    specialize (Hc (phenol_ml a) (water_ml a)).
    unfold mixture_count in Hc. cbn [filter] in Hc.
    unfold same_mixture at 1 in Hc.
    rewrite !feq_refl in Hc by assumption. cbn in Hc.
    assert (Hb' : same_mixture (phenol_ml a) (water_ml a) b = true)
      by (unfold same_mixture; rewrite S1, S2; reflexivity).
    pose proof (filter_has _ _ _ Hb Hb'). lia.
  - apply IH.
    + intros p w. specialize (Hc p w). unfold mixture_count in *.
      cbn [filter] in Hc. destruct (same_mixture p w a); cbn in Hc; lia.
    + intros r Hr. apply Hn. right. exact Hr.
Qed.

Lemma drop_duplicates_aux_distinct (df : frame) :
  forall seen,
    Forall (fun x => existsb (same_row (snd x)) seen = false) df ->
    ForallOrdPairs (fun a b => same_row (snd b) (snd a) = false) df ->
    drop_duplicates_aux seen df = df.
Proof.
  induction df as [|[l r] df IH]; intros seen Hs Hp; [reflexivity|].
  cbn [drop_duplicates_aux].
  inversion Hs as [|? ? Hr Hs']; subst.
  inversion Hp as [|? ? Hh Hp']; subst.
  cbn [snd] in Hr. rewrite Hr. f_equal. apply IH; [|exact Hp'].
  rewrite Forall_forall in *. intros x Hx. cbn [existsb].
  pose proof (Hh x Hx) as Hx'. cbn [snd] in Hx'.
  rewrite Hx', (Hs' x Hx). reflexivity.
Qed.

Lemma labelled_distinct (t : list phenol_row) :
  ForallOrdPairs (fun a b => same_row b a = false) t ->
  forall k,
    ForallOrdPairs (fun a b : nat * phenol_row => same_row (snd b) (snd a) = false)
      (combine (seq k (List.length t)) t).
Proof.
  induction 1 as [|a t Ha Ht IH]; intros k; cbn; constructor.
  - apply Forall_forall. intros [l b] Hb. apply in_combine_r in Hb.
    rewrite Forall_forall in Ha. exact (Ha b Hb).
  - apply IH.
Qed.

(** On a table with one row per mixture nothing is dropped. *)
Lemma drop_duplicates_same_table (t : list phenol_row) :
  (forall p w, (mixture_count p w t <= 1)%nat) ->
  (forall r, In r t -> is_nan (phenol_ml r) = false /\
                       is_nan (water_ml r) = false) ->
  drop_duplicates (to_frame t) = to_frame t.
Proof.
  intros Hc Hn. unfold drop_duplicates, to_frame.
  apply drop_duplicates_aux_distinct.
  - apply Forall_forall. intros x _. reflexivity.
  - apply labelled_distinct, one_row_per_mixture_distinct; assumption.
Qed.

Lemma drop_duplicates_keeps_rows (t : list phenol_row) :
  (forall p w, (mixture_count p w t <= 1)%nat) ->
  (forall r, In r t -> is_nan (phenol_ml r) = false /\
                       is_nan (water_ml r) = false) ->
  List.length (plotted_frame t) = List.length t.
Proof.
  intros Hc Hn. unfold plotted_frame.
  rewrite (drop_duplicates_same_table t Hc Hn).
  rewrite (Permutation_length (sort_values_perm _)).
  unfold to_frame. rewrite length_combine, length_seq. lia.
Qed.

(** ** The invariant of a session of genuine inputs *)

Lemma bounded_input (lo hi x : float) :
  number lo -> number hi -> (0 <= B2R lo)%R -> (0 <= B2R hi)%R ->
  valid_binary prec emax x = true -> in_range lo hi x = true ->
  number x /\ (B2R lo <= B2R x <= B2R hi)%R.
Proof.
  intros Nlo Nhi Hlo Hhi V H. apply in_range_bounds in H.
  destruct H as [H1 H2]. apply range_real; assumption.
Qed.

Lemma volumes_of_inputs (phenol water : float) :
  valid_binary prec emax phenol = true -> in_range f5 f10 phenol = true ->
  valid_binary prec emax water = true -> in_range f3 f36 water = true ->
  volumes_ok phenol water.
Proof.
  intros Vp Rp Vw Rw.
  destruct literal_values as (_ & _ & E10 & _).
  destruct more_literal_values as (E3 & _ & E5 & _ & _ & E36 & _).
  destruct more_literal_numbers as (_ & N3 & _ & N5 & _ & N10 & _ & N36 & _).
  destruct (bounded_input f5 f10 phenol) as [Np Bp]; try assumption;
    rewrite ?E5, ?E10 in *; try lra.
  destruct (bounded_input f3 f36 water) as [Nw Bw]; try assumption;
    rewrite ?E3, ?E36 in *; try lra.
  repeat split; try apply Np; try apply Nw; lra.
Qed.

Lemma water_in_range (w : float) :
  number w -> (3 <= B2R w <= 36)%R -> in_range f3 f36 w = true.
Proof.
  intros Nw Bw.
  destruct more_literal_values as (E3 & _ & _ & _ & _ & E36 & _).
  destruct more_literal_numbers as (_ & N3 & _ & _ & _ & _ & _ & N36 & _).
  apply in_range_real; try assumption; rewrite ?E3, ?E36; lra.
Qed.

Lemma initial_state_sound : session_sound initial_state.
Proof.
  destruct more_literal_values as (E3 & _).
  destruct literal_values as
    (_ & _ & _ & _ & _ & _ & _ & _ & _ & _ & _ & _ & B01 & _).
  unfold session_sound, initial_state.
  cbn [water_vol phenol_vol current_naoh naoh_normality page total disappear
       reappear phenol_data].
  repeat split; try discriminate; try contradiction;
    rewrite ?E3; try lra.
Qed.

(** The record step on the record page of a sound session: it returns, and
    the row it appends for a new mixture is the row of the stored volumes. *)
Lemma record_row_sound (s : session_state) (pv : float) :
  volumes_ok pv (water_vol s) ->
  phenol_vol s = Some pv ->
  total s = Some (fadd pv (water_vol s)) ->
  disappear s = Some (disappear_c (row_of pv (water_vol s))) ->
  reappear s = Some (reappear_c (row_of pv (water_vol s))) ->
  record_row s
  = Ok (match filter (same_mixture pv (water_vol s)) (phenol_data s) with
        | [] => set_phenol_data (phenol_data s ++ [row_of pv (water_vol s)]) s
        | _ :: _ => s
        end).
Proof.
  intros Hv Hp Ht Hd Hr.
  destruct (percent_of_real _ _ Hv) as (Nt & Bt & _).
  destruct (row_of_real _ _ Hv) as (Nd & Nr & _ & _ & _ & R48 & D71).
  destruct literal_values as (_ & E2 & _).
  unfold record_row. rewrite Hp, Ht, Hd, Hr. cbn [attr bind].
  rewrite fdiv_positive by lra. cbn [bind].
  rewrite fdiv_positive by (rewrite E2; lra). cbn [bind].
  destruct (filter _ (phenol_data s)); reflexivity.
Qed.

Ltac sound_fields :=
  cbn [page phenol_data water_vol cond_data naoh_normality current_naoh
       phenol_vol disappear reappear total set_page set_phenol_data
       set_water_vol set_cond_data set_naoh_normality set_current_naoh
       set_phenol_vol set_temps] in *.

Ltac sound_split :=
  unfold session_sound; sound_fields;
  refine (conj _ (conj _ (conj _ (conj _ (conj _ (conj _ (conj _ _))))))).

(** A change of the page to one that reads no attribute keeps a session
    sound. *)
Lemma sound_set_page (s : session_state) (p : page_id) :
  session_sound s ->
  p <> pg_phenol_exp2 -> p <> pg_phenol_exp3 -> p <> pg_phenol_graph ->
  session_sound (set_page p s).
Proof.
  intros (Hw & Hp & Hc & Hn & _ & _ & Hrows & _) P2 P3 Pg.
  sound_split; try assumption; intros; contradiction.
Qed.

Lemma home_sound (s : session_state) (i : user_input) :
  session_sound s -> exists s', home s i = Ok s' /\ session_sound s'.
Proof.
  intros Hs. unfold home.
  destruct (st_button i BtnPhenolWater);
    [|destruct (st_button i BtnTitration)];
    eexists; (split; [reflexivity|]);
    try (apply sound_set_page; [exact Hs|discriminate..]).
  exact Hs.
Qed.

Lemma phenol_intro_sound (s : session_state) (i : user_input) :
  session_sound s -> exists s', phenol_intro s i = Ok s' /\ session_sound s'.
Proof.
  intros Hs. unfold phenol_intro.
  destruct (st_button i BtnStartExperiment);
    eexists; (split; [reflexivity|]); [|exact Hs].
  destruct Hs as (Hw & Hp & Hc & Hn & _).
  destruct more_literal_values as (E3 & _).
  sound_split; try assumption; try discriminate; try contradiction.
  split; [split; reflexivity|]. rewrite E3. lra.
Qed.

Lemma phenol_exp1_sound (s : session_state) (i : user_input) :
  genuine i -> session_sound s ->
  exists s', phenol_exp1 s i = Ok s' /\ session_sound s'.
Proof.
  intros ((Vw & Rw) & (Vp & Rp) & _) Hs.
  pose proof Hs as ((Nw & Bw) & Hp & Hc & Hn & _ & _ & Hrows & _).
  destruct (volumes_of_inputs _ _ Vp Rp Vw Rw) as (Np & Bp & Nw' & Bw').
  unfold phenol_exp1.
  rewrite (st_number_input_returns _ _ _ _ (water_in_range _ Nw Bw) Rw).
  cbn [bind].
  rewrite (st_number_input_returns f5 f10 f5 _ eq_refl Rp). cbn [bind].
  destruct (st_button i BtnHeatMixture);
    eexists; (split; [reflexivity|]); [|exact Hs].
  sound_split; try assumption; try discriminate.
  - split; assumption.
  - intros pv [= <-]. split; assumption.
Qed.

Lemma phenol_exp2_sound (s : session_state) (i : user_input) :
  session_sound s -> page s = pg_phenol_exp2 ->
  exists s', phenol_exp2 s i = Ok s' /\ session_sound s'.
Proof.
  intros Hs Hpage.
  pose proof Hs as ((Nw & Bw) & Hp & Hc & Hn & H2 & _ & Hrows & _).
  destruct (phenol_vol s) as [pv|] eqn:Epv; [|exfalso; exact (H2 Hpage eq_refl)].
  destruct (Hp pv eq_refl) as [Np Bp].
  assert (Hv : volumes_ok pv (water_vol s)) by exact (conj Np (conj Bp (conj Nw Bw))).
  destruct (percent_of_real _ _ Hv) as (Nt & Bt & _).
  unfold phenol_exp2. rewrite Epv. cbn [attr bind].
  rewrite fdiv_positive by lra. cbn [bind].
  fold (percent_of pv (water_vol s)).
  destruct (calculate_temps (percent_of pv (water_vol s))) as [d r] eqn:Ec.
  destruct (st_button i BtnRecordTemperatures);
    eexists; (split; [reflexivity|]); [|exact Hs].
  sound_split; try assumption; try discriminate.
  - split; assumption.
  - rewrite Epv. exact Hp.
  - intros _. exists pv. unfold row_of. cbn [disappear_c reappear_c].
    rewrite Ec. cbn [fst snd]. rewrite Epv. repeat split; reflexivity.
Qed.

Lemma same_mixture_found (pv w : float) (t : list phenol_row) (r : phenol_row)
  (rest : list phenol_row) :
  filter (same_mixture pv w) t = r :: rest ->
  In r t /\ feq (water_ml r) w = true.
Proof.
  intros F.
  assert (Hin : In r (filter (same_mixture pv w) t))
    by (rewrite F; left; reflexivity).
  apply filter_In in Hin. destruct Hin as [Hin Hm]. split; [exact Hin|].
  unfold same_mixture in Hm. apply andb_prop in Hm. apply Hm.
Qed.

Lemma phenol_exp3_sound (s : session_state) (i : user_input) :
  session_sound s -> page s = pg_phenol_exp3 ->
  exists s', phenol_exp3 s i = Ok s' /\ session_sound s'.
Proof.
  intros Hs Hpage.
  pose proof Hs as ((Nw & Bw) & Hp & Hc & Hn & H2 & H3 & Hrows & _).
  destruct (H3 Hpage) as (pv & Epv & Et & Ed & Er).
  destruct (Hp pv Epv) as [Np Bp].
  assert (Hv : volumes_ok pv (water_vol s)) by exact (conj Np (conj Bp (conj Nw Bw))).
  destruct more_literal_values as (_ & _ & _ & _ & _ & E36 & _).
  assert (N36 : number f36) by (split; reflexivity).
  unfold phenol_exp3.
  rewrite (record_row_sound s pv Hv Epv Et Ed Er). cbn [bind].
  set (s1 := match filter (same_mixture pv (water_vol s)) (phenol_data s) with
             | [] => set_phenol_data
                       (phenol_data s ++ [row_of pv (water_vol s)]) s
             | _ :: _ => s
             end).
  assert (Hw1 : water_vol s1 = water_vol s)
    by (unfold s1; destruct (filter _ _); reflexivity).
  assert (Hrows1 : forall r, In r (phenol_data s1) ->
            volumes_ok (phenol_ml r) (water_ml r) /\
            r = row_of (phenol_ml r) (water_ml r)).
  { unfold s1. destruct (filter _ _); [|exact Hrows].
    sound_fields. intros r Hr. apply in_app_or in Hr.
    destruct Hr as [Hr|[<-|[]]]; [exact (Hrows r Hr)|].
    split; [exact Hv|reflexivity]. }
  assert (Hs1 : session_sound s1).
  { unfold s1. destruct (filter _ _); [|exact Hs].
    fold s1 in Hrows1. destruct Hs as (? & ? & ? & ? & ? & ? & ? & Hg).
    sound_split; try assumption.
    intros Hg'. rewrite Hg' in Hpage. discriminate. }
  assert (Hfound : exists r, In r (phenol_data s1) /\
                             B2R (water_ml r) = B2R (water_vol s)).
  { unfold s1. destruct (filter _ _) as [|r rest] eqn:F.
    - exists (row_of pv (water_vol s)). sound_fields. split; [|reflexivity].
      apply in_or_app. right. left. reflexivity.
    - destruct (same_mixture_found _ _ _ _ _ F) as [Hin Hq].
      exists r. split; [exact Hin|].
      destruct (Hrows r Hin) as ((_ & _ & Nr & Br) & _).
      apply feq_real; try assumption; lra. }
  assert (Hp1 : phenol_vol s1 = phenol_vol s)
    by (unfold s1; destruct (filter _ _); reflexivity).
  assert (Hc1 : current_naoh s1 = current_naoh s)
    by (unfold s1; destruct (filter _ _); reflexivity).
  assert (Hn1 : naoh_normality s1 = naoh_normality s)
    by (unfold s1; destruct (filter _ _); reflexivity).
  clearbody s1. rewrite Hw1.
  destruct (flt (water_vol s) f36) eqn:L.
  - destruct (st_button i BtnAddMoreWater);
      eexists; (split; [reflexivity|]); [|exact Hs1].
    destruct (add_more_water_real _ Nw Bw) as [Na Ba].
    sound_split; try assumption; try discriminate;
      rewrite ?Hp1, ?Hc1, ?Hn1; try assumption.
    split; assumption.
  - destruct (st_button i BtnPlotPhaseDiagram);
      eexists; (split; [reflexivity|]); [|exact Hs1].
    apply not_flt_real in L; try assumption; rewrite ?E36 in *; try lra.
    destruct Hfound as (r & Hin & Hr).
    sound_split; try assumption; try discriminate;
      rewrite ?Hp1, ?Hc1, ?Hn1, ?Hw1; try assumption.
    + split; assumption.
    + intros _. exists r. split; [exact Hin|]. lra.
Qed.

Lemma phenol_graph_sound (s : session_state) (i : user_input) :
  session_sound s -> page s = pg_phenol_graph ->
  exists s', phenol_graph s i = Ok s' /\ session_sound s'.
Proof.
  intros Hs Hpage.
  pose proof Hs as (_ & _ & _ & _ & _ & _ & Hrows & Hg).
  destruct (Hg Hpage) as (r & Hin & _).
  destruct (Hrows r Hin) as (Hv & Hr).
  destruct (row_of_real _ _ Hv) as (_ & _ & Nm & _). rewrite <- Hr in Nm.
  destruct (cst_point_number _ r Hin (number_not_nan _ Nm)) as (x & _ & Hc).
  unfold phenol_graph. rewrite Hc. cbn [bind].
  destruct (st_button i BtnReturnHome);
    eexists; (split; [reflexivity|]); [|exact Hs].
  apply sound_set_page; [exact Hs|discriminate..].
Qed.

Lemma cond_intro_sound (s : session_state) (i : user_input) :
  session_sound s -> exists s', cond_intro s i = Ok s' /\ session_sound s'.
Proof.
  intros Hs. unfold cond_intro.
  destruct (st_button i BtnStartExperiment);
    eexists; (split; [reflexivity|]); [|exact Hs].
  destruct Hs as (Hw & Hp & Hc & Hn & _ & _ & Hrows & _).
  sound_split; try assumption; try discriminate. reflexivity.
Qed.

Lemma genuine_standardize (i : user_input) :
  genuine i ->
  number (naoh_standardize i) /\ (1 / 10 <= B2R (naoh_standardize i) <= 50)%R.
Proof.
  intros (_ & _ & (V & R) & _).
  destruct literal_values as
    (_ & _ & _ & _ & _ & _ & _ & _ & _ & _ & _ & _ & B01 & _).
  destruct more_literal_values as (_ & _ & _ & _ & _ & _ & E50 & _).
  destruct (bounded_input f0_1 f50 (naoh_standardize i)) as [N B];
    try assumption; try (split; reflexivity); rewrite ?E50 in *; try lra.
  split; [exact N|lra].
Qed.

Lemma genuine_titration (i : user_input) :
  genuine i ->
  number (naoh_titration i) /\ (0 <= B2R (naoh_titration i) <= 8)%R.
Proof.
  intros (_ & _ & _ & (V & R)).
  destruct literal_values as (E0 & _).
  destruct more_literal_values as (_ & _ & _ & E8 & _).
  destruct (bounded_input f0 f8 (naoh_titration i)) as [N B];
    try assumption; try (split; reflexivity); rewrite ?E0, ?E8 in *; try lra.
  split; [exact N|lra].
Qed.

Lemma cond_standardize_sound (s : session_state) (i : user_input) :
  genuine i -> session_sound s ->
  exists s', cond_standardize s i = Ok s' /\ session_sound s'.
Proof.
  intros Hi Hs.
  destruct (genuine_standardize i Hi) as [Nu Bu].
  destruct Hi as (_ & _ & (V & R) & _).
  destruct (standardize_real _ Nu Bu) as (Es & Nn & Bn & _).
  unfold cond_standardize.
  rewrite (st_number_input_returns f0_1 f50 f18_5 _ eq_refl R). cbn [bind].
  assert (Hs1 : session_sound
                  (set_naoh_normality
                     (SFdiv prec emax (fmul f25 f0_05) (naoh_standardize i)) s)).
  { destruct Hs as (? & ? & ? & ? & ? & ? & ? & ?).
    sound_split; try assumption. split; [exact Nn|lra]. }
  destruct (st_button i BtnCalculateNaOHNormality);
    [rewrite Es|]; cbn [bind];
    destruct (st_button i BtnProceedToTitration);
    eexists; (split; [reflexivity|]);
    try (apply sound_set_page; [|discriminate..]); assumption.
Qed.

Lemma cond_titration_sound (s : session_state) (i : user_input) :
  genuine i -> session_sound s ->
  exists s', cond_titration s i = Ok s' /\ session_sound s'.
Proof.
  intros Hi Hs.
  destruct (genuine_titration i Hi) as [Nx Bx].
  destruct Hi as (_ & _ & _ & (V & R)).
  destruct (conductance_model_tight _ Nx Bx) as (c & Ec & _).
  pose proof Hs as (_ & _ & Hc & _).
  unfold cond_titration.
  rewrite (st_number_input_returns f0 f8 _ _ Hc R). cbn [bind].
  rewrite Ec. cbn [bind].
  destruct (st_button i BtnRecordMeasurement);
    eexists; (split; [reflexivity|]); [|exact Hs].
  unfold record_measurement.
  destruct (not_in_column _ _); exact Hs.
Qed.

(** One run of the script in a sound session, on genuine inputs: it
    returns, and the session stays sound. *)
Lemma run_sound (s : session_state) (i : user_input) :
  genuine i -> session_sound s ->
  exists s', run s i = Ok s' /\ session_sound s'.
Proof.
  intros Hi Hs. unfold run. destruct (page s) eqn:Hpage.
  - apply home_sound, Hs.
  - apply phenol_intro_sound, Hs.
  - apply phenol_exp1_sound; assumption.
  - apply phenol_exp2_sound; assumption.
  - apply phenol_exp3_sound; assumption.
  - apply phenol_graph_sound; assumption.
  - apply cond_intro_sound, Hs.
  - apply cond_standardize_sound; assumption.
  - apply cond_titration_sound; assumption.
Qed.

Lemma run_session_sound (inputs : list user_input) :
  forall s, genuine_session inputs -> session_sound s ->
            exists s', run_session s inputs = Ok s' /\ session_sound s'.
Proof.
  induction inputs as [|i rest IH]; intros s Hg Hs; cbn [run_session].
  - exists s. split; [reflexivity|exact Hs].
  - inversion Hg as [|? ? Hi Hrest]; subst.
    destruct (run_sound s i Hi Hs) as (s1 & E & Hs1).
    rewrite E. cbn [bind]. exact (IH s1 Hrest Hs1).
Qed.

(** ** The mean temperature of a mixture *)

(** The third segment's end: at 70 percent and above the disappearance
    temperature is 66 less three tenths per point, the decimal 0.3 being
    the binary64 number nearest to it. *)
Lemma segment_from_70_real (p : float) :
  number p -> (70 <= B2R p <= 100)%R ->
  (66 - (B2R p - 70) * (3 / 10) - 3 / 10000000000000
   <= B2R (segment_from_70 p) <= 66 + 3 / 10000000000000)%R.
Proof.
  intros Np [Plo Phi].
  destruct literal_values as
    (_ & _ & _ & _ & _ & _ & E66 & E70 & _ & _ & _ & _ & _ & B03).
  destruct literal_numbers as
    (_ & _ & _ & _ & _ & N66 & N70 & _ & _ & _ & _ & N03).
  unfold segment_from_70.
  destruct (sub_near p f70) as (Nu & U0 & U); try assumption;
    rewrite E70 in *; [lra|].
  assert (Tx : (0 <= B2R (fsub p f70) * B2R f0_3
                <= B2R (fsub p f70) * (3 / 10))%R) by nra.
  destruct (mul_near (fsub p f70) f0_3) as (Nt & T0 & T); try assumption;
    try lra.
  assert (Ux : (B2R (fsub p f70) * (3 / 10)
                <= (B2R p - 70) * (3 / 10) + 1 / 10000000000000)%R) by lra.
  destruct (sub_near f66 (fmul (fsub p f70) f0_3)) as (Nd & D0 & D);
    try assumption; rewrite E66 in *; lra.
Qed.

(** The row of a mixture, to thirteen decimals: its mean temperature is
    the mean of the two temperatures, the reappearance temperature is the
    disappearance temperature less [2 + 0.05 p]. *)
Lemma row_of_tight (phenol water : float) :
  volumes_ok phenol water ->
  let r := row_of phenol water in
  (B2R (disappear_c r) - (2 + B2R (pct_phenol r) / 20) - 4 / 10000000000000
   <= B2R (reappear_c r)
   <= B2R (disappear_c r) - (2 + B2R (pct_phenol r) / 20)
      + 4 / 10000000000000)%R /\
  ((B2R (disappear_c r) + B2R (reappear_c r)) / 2 - 2 / 10000000000000
   <= B2R (mean_c r)
   <= (B2R (disappear_c r) + B2R (reappear_c r)) / 2 + 2 / 10000000000000)%R.
Proof.
  intros Hv.
  destruct (percent_of_real _ _ Hv) as (_ & _ & Npc & PCb).
  destruct (row_of_real _ _ Hv) as (Nd & Nr & Nm & _ & Mb & R48 & D71).
  destruct literal_values as (_ & E2 & _).
  destruct more_literal_values as
    (_ & _ & _ & _ & _ & _ & _ & _ & _ & _ & _ & _ & B005).
  destruct more_literal_numbers as
    (_ & _ & _ & _ & _ & _ & _ & _ & _ & _ & _ & _ & _ & _ & _ & N005).
  assert (N2 : number f2) by (split; reflexivity).
  revert Nd Nr Nm Mb R48 D71. unfold row_of. cbn zeta.
  cbn [disappear_c reappear_c mean_c pct_phenol].
  set (pct := percent_of phenol water) in *.
  unfold calculate_temps. cbn [fst snd].
  set (d := disappear_temp pct).
  intros Nd Nr Nm Mb R48 D71.
  assert (Tx : (B2R pct / 20 <= B2R pct * B2R f0_05
                <= B2R pct / 20 + 1 / 100000000000000)%R) by nra.
  destruct (mul_near pct f0_05) as (Nt & T0 & T); try assumption; try lra.
  destruct (add_near f2 (fmul pct f0_05)) as (Ns & S0 & S);
    try assumption; rewrite E2 in *; [lra|].
  destruct (sub_near d (fadd f2 (fmul pct f0_05))) as (_ & _ & R);
    try assumption; [lra|].
  set (r := fsub d (fadd f2 (fmul pct f0_05))) in *.
  destruct (add_near_256 d r) as (Na & A0 & A); try assumption; [lra|].
  assert (M : (B2R (fadd d r) / B2R f2 - 1 / 10000000000000
               <= B2R (SFdiv prec emax (fadd d r) f2)
               <= B2R (fadd d r) / B2R f2 + 1 / 10000000000000)%R)
    by (apply div_near; try assumption; rewrite ?E2; lra).
  rewrite E2 in M. split; lra.
Qed.

(** Which formula gives the disappearance temperature of a mixture, by the
    real value of its percentage. *)
Lemma row_of_disappear (phenol water : float) :
  volumes_ok phenol water ->
  let r := row_of phenol water in
  let P := B2R (pct_phenol r) in
  let D := B2R (disappear_c r) in
  (P <= 30 /\ 65 + (P - 10) / 4 - 3 / 10000000000000 <= D
            <= 65 + (P - 10) / 4 + 3 / 10000000000000)%R \/
  (30 <= P <= 70 /\ 70 - (P - 30) / 10 - 3 / 10000000000000 <= D
                 <= 70 - (P - 30) / 10 + 3 / 10000000000000)%R \/
  (70 <= P /\ 66 - (P - 70) * (3 / 10) - 3 / 10000000000000 <= D
           <= 66 + 3 / 10000000000000)%R.
Proof.
  intros Hv.
  destruct (percent_of_real _ _ Hv) as (_ & _ & Npc & PCb).
  destruct literal_values as (_ & _ & E10 & E30 & _ & _ & _ & E70 & _).
  destruct literal_numbers as (_ & N10 & N30 & _ & _ & _ & N70 & _).
  unfold row_of. cbn zeta. cbn [disappear_c pct_phenol].
  set (pct := percent_of phenol water) in *.
  unfold calculate_temps. cbn [fst]. unfold disappear_temp.
  assert (L10 : flt pct f10 = false).
  { destruct (flt pct f10) eqn:L; [|reflexivity].
    apply flt_real in L; try assumption; rewrite ?E10 in *; lra. }
  rewrite L10.
  destruct (flt pct f30) eqn:L30; [|destruct (flt pct f70) eqn:L70].
  - apply flt_real in L30; try assumption; rewrite ?E30 in *; try lra.
    left. split; [lra|]. apply segment_10_30_real; [exact Npc|lra].
  - apply not_flt_real in L30; try assumption; rewrite ?E30 in *; try lra.
    apply flt_real in L70; try assumption; rewrite ?E70 in *; try lra.
    right. left. split; [lra|]. apply segment_30_70_real; [exact Npc|lra].
  - apply not_flt_real in L70; try assumption; rewrite ?E70 in *; try lra.
    right. right. split; [lra|]. apply segment_from_70_real; [exact Npc|lra].
Qed.

Lemma row_of_mean_real (phenol water : float) :
  volumes_ok phenol water ->
  (609 / 10 <= B2R (mean_c (row_of phenol water)) <= 6826 / 100)%R.
Proof.
  intros Hv.
  destruct (row_of_real _ _ Hv) as (_ & _ & _ & PCb & _).
  destruct (row_of_tight _ _ Hv) as (R & M).
  destruct (row_of_disappear _ _ Hv) as [[P D]|[[P D]|[P D]]]; cbn zeta in *;
    lra.
Qed.

(** ** Water added in steps of 2 ml *)

Lemma add_more_water_step (w : float) :
  number w -> (3 <= B2R w <= 36)%R ->
  B2R (add_more_water w) = 36%R \/
  (B2R w + 2 - 1 / 10000000000000 <= B2R (add_more_water w))%R.
Proof.
  intros Nw [W3 W36].
  destruct literal_values as (_ & E2 & _).
  destruct more_literal_values as (_ & _ & _ & _ & _ & E36 & _).
  assert (N2 : number f2) by (split; reflexivity).
  destruct (add_near w f2) as (Ns & S0 & S); try assumption;
    rewrite E2 in *; [lra|].
  unfold add_more_water, fmin.
  destruct (flt f36 (fadd w f2)); [left; exact E36|right; lra].
Qed.

Lemma add_more_water_times_real (n : nat) (w : float) :
  number w -> (3 <= B2R w <= 36)%R ->
  number (add_more_water_times n w) /\
  (3 <= B2R (add_more_water_times n w) <= 36)%R /\
  (B2R (add_more_water_times n w) = 36%R \/
   (B2R w + INR n * (2 - 1 / 10000000000000)
    <= B2R (add_more_water_times n w))%R).
Proof.
  intros Nw Bw. induction n as [|n (Nn & Bn & IH)].
  - cbn [add_more_water_times INR]. split; [exact Nw|]. split; [exact Bw|].
    right. lra.
  - cbn [add_more_water_times].
    destruct (add_more_water_real _ Nn Bn) as [Na Ba].
    split; [exact Na|]. split; [exact Ba|].
    rewrite S_INR.
    destruct (add_more_water_step _ Nn Bn) as [E|G]; [left; exact E|].
    destruct IH as [E|G']; [|right; lra].
    left. lra.
Qed.


(** X9: from every water volume from 3.0 to 36.0, seventeen or more clicks
    on "Add More Water (+2ml)" in a row bring the volume to exactly 36: the
    test [water_vol < 36] of line 129 then fails, so the record page offers
    "Plot Phase Diagram". *)
Theorem add_more_water_reaches_36 (w : float) (n : nat) :
  valid_binary prec emax w = true -> in_range f3 f36 w = true ->
  (17 <= n)%nat ->
  B2R (add_more_water_times n w) = 36%R /\
  feq (add_more_water_times n w) f36 = true /\
  flt (add_more_water_times n w) f36 = false.
Proof.
  intros V R Hn.
  destruct more_literal_values as (E3 & _ & _ & _ & _ & E36 & _).
  assert (N36 : number f36) by (split; reflexivity).
  destruct (bounded_input f3 f36 w) as [N B];
    try assumption; try (split; reflexivity); rewrite ?E3, ?E36 in *; try lra.
  destruct (add_more_water_times_real n w N B) as (Nn & Bn & H).
  assert (E : B2R (add_more_water_times n w) = 36%R).
  { destruct H as [H|H]; [exact H|].
    apply le_INR in Hn.
    assert (E17 : INR 17 = 17%R) by (cbn [INR]; lra). rewrite E17 in Hn.
    assert (17 * (2 - 1 / 10000000000000)
            <= INR n * (2 - 1 / 10000000000000))%R
      by (apply Rmult_le_compat_r; lra).
    lra. }
  assert (L : flt (add_more_water_times n w) f36 = false).
  { destruct (flt (add_more_water_times n w) f36) eqn:L; [|reflexivity].
    apply flt_real in L; try assumption; rewrite ?E36 in *; lra. }
  assert (G : flt f36 (add_more_water_times n w) = false).
  { destruct (flt f36 (add_more_water_times n w)) eqn:G; [|reflexivity].
    apply flt_real in G; try assumption; rewrite ?E36 in *; lra. }
  split; [exact E|]. split; [|exact L].
  destruct (feq (add_more_water_times n w) f36) eqn:Q; [reflexivity|].
  rewrite (flt_total _ _ (number_not_nan _ Nn) (number_not_nan _ N36) L Q) in G.
  discriminate G.
Qed.

Lemma add_more_water_reaches_36_witness :
  flt (add_more_water_times 17 f3) f36 = false.
Proof.
  apply (add_more_water_reaches_36 f3 17); [reflexivity|reflexivity|lia].
Defined.

(** ** Properties of the phenol-water pages *)

(** X1: for every phenol volume from 5.0 to 10.0 and water volume from 3.0
    to 36.0 that the inputs of the preparation page accept, the percentage
    [(phenol / (phenol + water)) * 100] lies between 11.9 and 77.1.  It is
    never below 10, so [calculate_temps] never uses its first formula
    [32 + percent_phenol * 3.5] for a mixture of the experiment: the
    disappearance temperature is that of the three remaining formulas. *)
Theorem first_segment_never_used (phenol water : float) :
  valid_binary prec emax phenol = true -> in_range f5 f10 phenol = true ->
  valid_binary prec emax water = true -> in_range f3 f36 water = true ->
  (119 / 10 <= B2R (percent_of phenol water) <= 771 / 10)%R /\
  flt (percent_of phenol water) f10 = false /\
  fst (calculate_temps (percent_of phenol water))
  = (if flt (percent_of phenol water) f30
     then segment_10_30 (percent_of phenol water)
     else if flt (percent_of phenol water) f70
          then segment_30_70 (percent_of phenol water)
          else segment_from_70 (percent_of phenol water)).
Proof.
  intros Vp Rp Vw Rw.
  pose proof (volumes_of_inputs _ _ Vp Rp Vw Rw) as Hv.
  destruct (percent_of_real _ _ Hv) as (_ & _ & Npc & PCb).
  destruct literal_values as (_ & _ & E10 & _).
  assert (N10 : number f10) by (split; reflexivity).
  assert (L10 : flt (percent_of phenol water) f10 = false).
  { destruct (flt (percent_of phenol water) f10) eqn:L; [|reflexivity].
    apply flt_real in L; try assumption; rewrite ?E10 in *; lra. }
  split; [exact PCb|]. split; [exact L10|].
  unfold calculate_temps. cbn [fst]. unfold disappear_temp.
  rewrite L10. reflexivity.
Qed.

Lemma first_segment_never_used_witness :
  flt (percent_of f5 f3) f10 = false.
Proof.
  apply (first_segment_never_used f5 f3); reflexivity.
Defined.

(** X2: with a phenol volume from 5.0 to 10.0 and a water volume from 3.0
    to 36.0 stored, "Record Temperatures" on the observation page returns
    (the total is not zero) and leads to the record page; the record page
    then returns as well, whatever is clicked there.  If the table had no
    row for this pair of volumes, its table is the old one followed by the
    row of these volumes: the percentage that line 105 recomputes from the
    stored total is the one the observation page computed on line 73, and the
    temperatures are those it displayed.  If the table had such a row, the
    table is unchanged. *)
Theorem record_page_appends_row_of_volumes
  (s : session_state) (pv : float) (i j : user_input) :
  valid_binary prec emax pv = true -> in_range f5 f10 pv = true ->
  valid_binary prec emax (water_vol s) = true ->
  in_range f3 f36 (water_vol s) = true ->
  phenol_vol s = Some pv ->
  clicked i = Some BtnRecordTemperatures ->
  exists s1 s2,
    phenol_exp2 s i = Ok s1 /\ page s1 = pg_phenol_exp3 /\
    phenol_exp3 s1 j = Ok s2 /\
    (filter (same_mixture pv (water_vol s)) (phenol_data s) = [] ->
     phenol_data s2 = phenol_data s ++ [row_of pv (water_vol s)]) /\
    (filter (same_mixture pv (water_vol s)) (phenol_data s) <> [] ->
     phenol_data s2 = phenol_data s).
Proof.
  intros Vp Rp Vw Rw Epv Hc.
  pose proof (volumes_of_inputs _ _ Vp Rp Vw Rw) as Hv.
  destruct (percent_of_real _ _ Hv) as (Nt & Bt & _).
  set (s1 := set_page pg_phenol_exp3
               (set_temps (disappear_c (row_of pv (water_vol s)))
                          (reappear_c (row_of pv (water_vol s)))
                          (fadd pv (water_vol s)) s)).
  assert (E2 : phenol_exp2 s i = Ok s1).
  { unfold phenol_exp2. rewrite Epv. cbn [attr bind].
    rewrite fdiv_positive by lra. cbn [bind].
    fold (percent_of pv (water_vol s)).
    rewrite (st_button_clicked _ _ Hc).
    unfold s1, row_of. cbn [disappear_c reappear_c].
    destruct (calculate_temps (percent_of pv (water_vol s))); reflexivity. }
  assert (Er : record_row s1
               = Ok (match filter (same_mixture pv (water_vol s))
                             (phenol_data s) with
                     | [] => set_phenol_data
                               (phenol_data s ++ [row_of pv (water_vol s)]) s1
                     | _ :: _ => s1
                     end))
    by (apply (record_row_sound s1 pv); [exact Hv|exact Epv|reflexivity..]).
  exists s1. unfold phenol_exp3. rewrite Er. cbn [bind].
  destruct (filter (same_mixture pv (water_vol s)) (phenol_data s))
    as [|r rest];
    match goal with
    | |- context [flt (water_vol ?x) f36] =>
        destruct (flt (water_vol x) f36);
        [destruct (st_button j BtnAddMoreWater)
        |destruct (st_button j BtnPlotPhaseDiagram)]
    end;
    eexists; (split; [exact E2|]); (split; [reflexivity|]);
    (split; [reflexivity|]); (split; intros H); try reflexivity;
    try discriminate; exfalso; apply H; reflexivity.
Qed.

Lemma record_page_appends_row_of_volumes_witness :
  exists s1 s2,
    phenol_exp2 (set_phenol_vol f5 initial_state)
      (example_input (Some BtnRecordTemperatures)) = Ok s1 /\
    phenol_exp3 s1 (example_input None) = Ok s2 /\
    phenol_data s2 = [row_of f5 f3].
Proof.
  destruct (record_page_appends_row_of_volumes
              (set_phenol_vol f5 initial_state) f5
              (example_input (Some BtnRecordTemperatures))
              (example_input None)
              eq_refl eq_refl eq_refl eq_refl eq_refl eq_refl)
    as (s1 & s2 & E2 & _ & E3 & Hnew & _).
  exists s1, s2. split; [exact E2|]. split; [exact E3|].
  exact (Hnew eq_refl).
Defined.

(** X3: in the row of every mixture that the inputs accept (phenol 5.0 to
    10.0, water 3.0 to 36.0) the mean temperature [(disappear + reappear) / 2]
    lies strictly between the reappearance and the disappearance
    temperature, in the comparison [<] of the floats themselves. *)
Theorem mean_between_reappear_and_disappear (phenol water : float) :
  valid_binary prec emax phenol = true -> in_range f5 f10 phenol = true ->
  valid_binary prec emax water = true -> in_range f3 f36 water = true ->
  flt (reappear_c (row_of phenol water)) (mean_c (row_of phenol water)) = true /\
  flt (mean_c (row_of phenol water)) (disappear_c (row_of phenol water)) = true.
Proof.
  intros Vp Rp Vw Rw.
  pose proof (volumes_of_inputs _ _ Vp Rp Vw Rw) as Hv.
  destruct (row_of_real _ _ Hv) as (Nd & Nr & Nm & _ & Mb & R48 & D71).
  split; apply real_flt; try assumption; lra.
Qed.

Lemma mean_between_reappear_and_disappear_witness :
  flt (reappear_c (row_of f5 f3)) (mean_c (row_of f5 f3)) = true /\
  flt (mean_c (row_of f5 f3)) (disappear_c (row_of f5 f3)) = true.
Proof.
  apply (mean_between_reappear_and_disappear f5 f3); reflexivity.
Defined.

(** The rows that the record page can build: the row of a phenol volume
    from 5.0 to 10.0 and a water volume from 3.0 to 36.0. *)
Lemma cst_point_of_rows (t : list phenol_row) (r0 : phenol_row) :
  In r0 t ->
  (forall r, In r t -> volumes_ok (phenol_ml r) (water_ml r) /\
                       r = row_of (phenol_ml r) (water_ml r)) ->
  exists r, In r t /\ cst_point t = Ok (mean_c r, pct_phenol r) /\
            (609 / 10 <= B2R (mean_c r) <= 6826 / 100)%R /\
            (119 / 10 <= B2R (pct_phenol r) <= 771 / 10)%R.
Proof.
  intros Hin Hrows.
  destruct (Hrows r0 Hin) as [Hv0 Hr0].
  destruct (row_of_real _ _ Hv0) as (_ & _ & Nm & _). rewrite <- Hr0 in Nm.
  destruct (cst_point_number t r0 Hin (number_not_nan _ Nm)) as (x & Hx & Hc).
  apply plotted_frame_rows in Hx.
  exists (snd x). split; [exact Hx|]. split; [exact Hc|].
  destruct (Hrows _ Hx) as [Hv Hr].
  pose proof (row_of_mean_real _ _ Hv) as Mb.
  destruct (row_of_real _ _ Hv) as (_ & _ & _ & Pb & _).
  cbn zeta in Pb. rewrite <- Hr in Mb, Pb. split; assumption.
Qed.

(** X4: for a table that is not empty and whose rows are rows of mixtures
    that the inputs accept, the plot page computes a CST point, and it is
    the mean temperature and percentage of one row of the table; whatever
    the mixtures, the CST temperature shown lies between 60.9 and 68.26
    degrees and the CST concentration between 11.9 and 77.1 percent. *)
Theorem cst_point_within_bounds (t : list phenol_row) :
  t <> [] ->
  (forall r, In r t ->
     exists phenol water,
       valid_binary prec emax phenol = true /\
       in_range f5 f10 phenol = true /\
       valid_binary prec emax water = true /\
       in_range f3 f36 water = true /\
       r = row_of phenol water) ->
  exists r, In r t /\ cst_point t = Ok (mean_c r, pct_phenol r) /\
            (609 / 10 <= B2R (mean_c r) <= 6826 / 100)%R /\
            (119 / 10 <= B2R (pct_phenol r) <= 771 / 10)%R.
Proof.
  intros Hne Hrows. destruct t as [|r0 t]; [congruence|].
  apply (cst_point_of_rows _ r0); [left; reflexivity|].
  intros r Hr. destruct (Hrows r Hr) as (p & w & Vp & Rp & Vw & Rw & ->).
  split; [|reflexivity]. apply volumes_of_inputs; assumption.
Qed.

Lemma cst_point_within_bounds_witness :
  exists r, In r [row_of f5 f3; row_of f5 f36] /\
            cst_point [row_of f5 f3; row_of f5 f36]
            = Ok (mean_c r, pct_phenol r) /\
            (609 / 10 <= B2R (mean_c r) <= 6826 / 100)%R /\
            (119 / 10 <= B2R (pct_phenol r) <= 771 / 10)%R.
Proof.
  apply (cst_point_within_bounds [row_of f5 f3; row_of f5 f36]).
  - discriminate.
  - intros r [<-|[<-|[]]].
    + exists f5, f3. repeat split; reflexivity.
    + exists f5, f36. repeat split; reflexivity.
Defined.



(** X6: on a table with at most one row per pair of volumes, the volumes
    being numbers, [drop_duplicates] on line 142 removes no row: the frame
    that the plot page draws is the whole table, sorted by percentage. *)
Theorem drop_duplicates_keeps_every_mixture (t : list phenol_row) :
  (forall p w, (mixture_count p w t <= 1)%nat) ->
  (forall r, In r t -> is_nan (phenol_ml r) = false /\
                       is_nan (water_ml r) = false) ->
  drop_duplicates (to_frame t) = to_frame t /\
  plotted_frame t = sort_values (to_frame t) /\
  List.length (plotted_frame t) = List.length t.
Proof.
  intros Hc Hn.
  pose proof (drop_duplicates_same_table t Hc Hn) as E.
  split; [exact E|]. split; [unfold plotted_frame; rewrite E; reflexivity|].
  apply drop_duplicates_keeps_rows; assumption.
Qed.

Lemma drop_duplicates_keeps_every_mixture_witness :
  List.length (plotted_frame [row_of f5 f3; row_of f5 f36]) = 2%nat.
Proof.
  apply (drop_duplicates_keeps_every_mixture [row_of f5 f3; row_of f5 f36]).
  - intros p w. unfold mixture_count. cbn [filter].
    unfold same_mixture. cbn [phenol_ml water_ml row_of].
    destruct (feq f5 p); cbn [andb]; [|cbn; lia].
    destruct (feq f3 w) eqn:E3, (feq f36 w) eqn:E36; cbn; try lia.
    exfalso. rewrite feq_sym in E36.
    pose proof (feq_trans _ _ _ E3 E36) as C. discriminate C.
  - intros r [<-|[<-|[]]]; split; reflexivity.
Defined.

(** ** Properties of the titration pages *)

(** X7: for every volume from 0.0 to 8.0 that the input of the titration
    page accepts, the conductance model of lines 225-228 returns (its
    divisor is the constant 0.2) a number that agrees to twelve decimals
    with the exact value of its formula: [0.8 - naoh_added / 10] on the
    branch [naoh_added <= 4.0], which is taken exactly up to 4 ml, and
    [0.6 + 0.15 * (naoh_added - 4)] on the other one.  The conductance
    therefore falls to 0.4 at 4 ml, rises to 1.2 at 8 ml and always lies
    between 0.39 and 1.21 mS. *)
Theorem conductance_within_bounds (naoh_added : float) :
  valid_binary prec emax naoh_added = true ->
  in_range f0 f8 naoh_added = true ->
  exists c,
    conductance_model naoh_added = Ok c /\
    is_nan c = false /\
    (39 / 100 <= B2R c <= 121 / 100)%R /\
    (fle naoh_added f4 = true ->
     (B2R naoh_added <= 4 /\
      8 / 10 - B2R naoh_added / 10 - 1 / 1000000000000 <= B2R c
      <= 8 / 10 - B2R naoh_added / 10 + 1 / 1000000000000)%R) /\
    (fle naoh_added f4 = false ->
     (4 < B2R naoh_added /\
      6 / 10 + (B2R naoh_added - 4) * 3 / 20 - 1 / 1000000000000 <= B2R c
      <= 6 / 10 + (B2R naoh_added - 4) * 3 / 20 + 1 / 1000000000000)%R).
Proof.
  intros V R.
  destruct literal_values as (E0 & _).
  destruct more_literal_values as (_ & _ & _ & E8 & _).
  destruct (bounded_input f0 f8 naoh_added) as [N B];
    try assumption; try (split; reflexivity); rewrite ?E0, ?E8 in *; try lra.
  destruct (conductance_model_tight _ N B) as (c & Ec & Nc & Lo & Hi).
  exists c. split; [exact Ec|]. split; [apply number_not_nan, Nc|].
  split; [|split; assumption].
  destruct (fle naoh_added f4); [specialize (Lo eq_refl)|specialize (Hi eq_refl)];
    lra.
Qed.

Lemma conductance_within_bounds_witness :
  exists c, conductance_model f4 = Ok c /\
            (39 / 100 <= B2R c <= 121 / 100)%R.
Proof.
  destruct (conductance_within_bounds f4 eq_refl eq_refl)
    as (c & Ec & _ & Bc & _).
  exists c. split; assumption.
Defined.

(** X8: for every volume from 0.1 to 50.0 that the input of the
    standardization page accepts, the normality of line 207 is computed
    without a division by zero; it is a number that agrees with the exact
    quotient [1.25 / naoh_used] to within 2e-12, and lies between 0.0249
    and 12.51. *)
Theorem normality_within_bounds (naoh_used : float) :
  valid_binary prec emax naoh_used = true ->
  in_range f0_1 f50 naoh_used = true ->
  exists n,
    standardize naoh_used = Ok n /\
    is_nan n = false /\
    (249 / 10000 <= B2R n <= 1251 / 100)%R /\
    (5 / 4 / B2R naoh_used - 2 / 1000000000000 <= B2R n
     <= 5 / 4 / B2R naoh_used + 2 / 1000000000000)%R.
Proof.
  intros V R.
  destruct literal_values as
    (_ & _ & _ & _ & _ & _ & _ & _ & _ & _ & _ & _ & B01 & _).
  destruct more_literal_values as (_ & _ & _ & _ & _ & _ & E50 & _).
  destruct (bounded_input f0_1 f50 naoh_used) as [N B];
    try assumption; try (split; reflexivity); rewrite ?E50 in *; try lra.
  destruct (standardize_real naoh_used N) as (Es & Nn & Bn & Tn); [lra|].
  eexists. split; [exact Es|]. split; [apply number_not_nan, Nn|].
  split; assumption.
Qed.

Lemma normality_within_bounds_witness :
  exists n, standardize f18_5 = Ok n /\
            (249 / 10000 <= B2R n <= 1251 / 100)%R.
Proof.
  destruct (normality_within_bounds f18_5 eq_refl eq_refl)
    as (n & En & _ & Bn & _).
  exists n. split; assumption.
Defined.

(** ** Whole sessions *)

Lemma example_input_genuine (b : option button) : genuine (example_input b).
Proof. repeat split. Qed.

Lemma full_dilution_input_genuine (b : option button) :
  genuine (full_dilution_input b).
Proof. repeat split. Qed.

Lemma example_session_genuine : genuine_session example_session.
Proof. repeat constructor. Qed.

Lemma plot_session_genuine : genuine_session plot_session.
Proof. repeat constructor. Qed.

Lemma genuine_session_sound (inputs : list user_input) (s : session_state) :
  genuine_session inputs -> run_session initial_state inputs = Ok s ->
  session_sound s.
Proof.
  intros Hg H.
  destruct (run_session_sound inputs _ Hg initial_state_sound) as (s' & E & Hs).
  rewrite E in H. injection H as <-. exact Hs.
Qed.

Lemma volumes_in_range (phenol water : float) :
  volumes_ok phenol water ->
  in_range f5 f10 phenol = true /\ in_range f3 f36 water = true.
Proof.
  intros (Np & Bp & Nw & Bw). split; [|apply water_in_range; assumption].
  destruct literal_values as (_ & _ & E10 & _).
  destruct more_literal_values as (_ & _ & E5 & _).
  apply in_range_real; try assumption; try (split; reflexivity);
    rewrite ?E5, ?E10; lra.
Qed.

(** X10: a session in which every run carries number inputs within the
    bounds of their widgets never raises, whatever is clicked and in
    whatever order: no page reads an attribute that has not been assigned,
    no division is by zero, no number input is handed a default outside its
    bounds, and the plot page is never shown with a table in which [idxmax]
    finds no number. *)
Theorem genuine_session_never_raises (inputs : list user_input) :
  genuine_session inputs ->
  exists s, run_session initial_state inputs = Ok s.
Proof.
  intros Hg.
  destruct (run_session_sound inputs _ Hg initial_state_sound) as (s & E & _).
  exists s. exact E.
Qed.

Lemma genuine_session_never_raises_witness :
  exists s, run_session initial_state plot_session = Ok s.
Proof.
  apply (genuine_session_never_raises plot_session).
  repeat constructor.
Defined.

(** X11: after every such session, each row of the phenol table holds a
    phenol volume from 5.0 to 10.0 and a water volume from 3.0 to 36.0, and
    its four other columns are the percentage, the two temperatures and the
    mean temperature that lines 72-88 and 105-106 compute from these two
    volumes. *)
Theorem genuine_session_rows (inputs : list user_input) (s : session_state) :
  genuine_session inputs ->
  run_session initial_state inputs = Ok s ->
  forall r, In r (phenol_data s) ->
    in_range f5 f10 (phenol_ml r) = true /\
    in_range f3 f36 (water_ml r) = true /\
    r = row_of (phenol_ml r) (water_ml r).
Proof.
  intros Hg H r Hr.
  destruct (genuine_session_sound _ _ Hg H)
    as (_ & _ & _ & _ & _ & _ & Hrows & _).
  destruct (Hrows r Hr) as [Hv E].
  destruct (volumes_in_range _ _ Hv) as [Rp Rw].
  split; [exact Rp|]. split; [exact Rw|exact E].
Qed.

Lemma genuine_session_rows_witness :
  example_row = row_of f5 f3.
Proof.
  assert (R : run_session initial_state example_session = Ok example_recorded)
    by (vm_compute; reflexivity).
  apply (genuine_session_rows example_session example_recorded
           example_session_genuine R example_row).
  left. reflexivity.
Defined.

(** X12: when such a session is on the plot page, the table holds a row
    with 36 ml of water; [drop_duplicates] has removed nothing, so the
    plotted frame has as many rows as the table; and the page computes its
    CST point, from one row of the table, and returns. *)
Theorem plot_page_is_drawn (inputs : list user_input) (s : session_state) :
  genuine_session inputs ->
  run_session initial_state inputs = Ok s ->
  page s = pg_phenol_graph ->
  (exists r, In r (phenol_data s) /\ feq (water_ml r) f36 = true) /\
  List.length (plotted_frame (phenol_data s)) = List.length (phenol_data s) /\
  (exists r, In r (phenol_data s) /\
             cst_point (phenol_data s) = Ok (mean_c r, pct_phenol r)) /\
  (forall i, exists s', phenol_graph s i = Ok s').
Proof.
  intros Hg H Hpage.
  pose proof (genuine_session_sound _ _ Hg H) as Hs.
  pose proof Hs as (_ & _ & _ & _ & _ & _ & Hrows & Hgraph).
  destruct (Hgraph Hpage) as (r & Hr & E36).
  destruct more_literal_values as (_ & _ & _ & _ & _ & F36 & _).
  assert (N36 : number f36) by (split; reflexivity).
  split; [|split; [|split]].
  - exists r. split; [exact Hr|].
    destruct (Hrows r Hr) as ((_ & _ & Nw & Bw) & _).
    destruct (feq (water_ml r) f36) eqn:Q; [reflexivity|exfalso].
    assert (L : flt (water_ml r) f36 = false).
    { destruct (flt (water_ml r) f36) eqn:L; [|reflexivity].
      apply flt_real in L; try assumption; rewrite ?F36 in *; lra. }
    pose proof (flt_total _ _ (number_not_nan _ Nw) (number_not_nan _ N36) L Q)
      as G.
    apply flt_real in G; try assumption; rewrite ?F36 in *; lra.
  - apply drop_duplicates_keeps_rows.
    + apply (reachable_ok s). exists inputs. exact H.
    + intros r' Hr'. destruct (Hrows r' Hr') as ((Np & _ & Nw & _) & _).
      split; apply number_not_nan; assumption.
  - destruct (cst_point_of_rows _ r Hr Hrows) as (r' & Hr' & Hc & _).
    exists r'. split; assumption.
  - intros i. destruct (phenol_graph_sound s i Hs Hpage) as (s' & E & _).
    exists s'. exact E.
Qed.

Lemma plot_page_is_drawn_witness :
  exists s, run_session initial_state plot_session = Ok s /\
            exists r, In r (phenol_data s) /\ feq (water_ml r) f36 = true.
Proof.
  assert (R : exists s, run_session initial_state plot_session = Ok s /\
                        page s = pg_phenol_graph).
  { eexists. split; [vm_compute; reflexivity|reflexivity]. }
  destruct R as (s & Hrun & Hpage).
  exists s. split; [exact Hrun|].
  exact (proj1 (plot_page_is_drawn plot_session s plot_session_genuine
                  Hrun Hpage)).
Defined.

(** X13: after every such session the stored water volume lies within
    the bounds 3.0 to 36.0 of its input, which takes it as its default on
    line 49; a stored phenol volume lies within 5.0 to 10.0;
    [current_naoh], the default of the titration input on line 220, lies
    within the bounds 0.0 to 8.0 of that input; and the stored normality is
    a number between 0.0249 and 12.51. *)
Theorem genuine_session_stored_values
  (inputs : list user_input) (s : session_state) :
  genuine_session inputs ->
  run_session initial_state inputs = Ok s ->
  in_range f3 f36 (water_vol s) = true /\
  (forall pv, phenol_vol s = Some pv -> in_range f5 f10 pv = true) /\
  in_range f0 f8 (current_naoh s) = true /\
  is_nan (naoh_normality s) = false /\
  (249 / 10000 <= B2R (naoh_normality s) <= 1251 / 100)%R.
Proof.
  intros Hg H.
  destruct (genuine_session_sound _ _ Hg H)
    as ((Nw & Bw) & Hp & Hc & (Nn & Bn) & _).
  split; [apply water_in_range; assumption|].
  split; [|split; [exact Hc|split; [apply number_not_nan, Nn|exact Bn]]].
  intros pv Hpv. destruct (Hp pv Hpv) as [Np Bp].
  destruct literal_values as (_ & _ & E10 & _).
  destruct more_literal_values as (_ & _ & E5 & _).
  apply in_range_real; try assumption; try (split; reflexivity);
    rewrite ?E5, ?E10; lra.
Qed.

Lemma genuine_session_stored_values_witness :
  in_range f3 f36 (water_vol example_recorded) = true.
Proof.
  assert (R : run_session initial_state example_session = Ok example_recorded)
    by (vm_compute; reflexivity).
  exact (proj1 (genuine_session_stored_values example_session
                  example_recorded example_session_genuine R)).
Defined.

(** ** What the pages leave alone *)

Lemma record_row_frame (s s' : session_state) :
  record_row s = Ok s' ->
  s' = s \/ exists r, s' = set_phenol_data (phenol_data s ++ [r]) s.
Proof.
  intros H.
  destruct (record_row_cases s s' H) as (pv & _ & [[_ ->]|(_ & r & _ & _ & ->)]).
  - left. reflexivity.
  - right. exists r. reflexivity.
Qed.

(** X14: the two experiments do not touch each other's data.  Whatever
    is clicked or entered, a phenol-water page that returns leaves the
    conductance table, the NaOH normality and [current_naoh] as they were,
    and the titration introduction and the standardization page, when they
    return, leave the phenol table, the water and phenol volumes, the two
    temperatures and the total as they were. *)
Theorem experiments_are_independent (s s' : session_state) (i : user_input) :
  (forall h,
     In h [phenol_intro; phenol_exp1; phenol_exp2; phenol_exp3; phenol_graph] ->
     h s i = Ok s' -> titration_part s' = titration_part s) /\
  (forall h,
     In h [cond_intro; cond_standardize] ->
     h s i = Ok s' -> phenol_part s' = phenol_part s).
Proof.
  split; intros h Hh H; cbn [In] in Hh.
  - destruct Hh as [<-|[<-|[<-|[<-|[<-|[]]]]]].
    + unfold phenol_intro in H. step_handler; reflexivity.
    + unfold phenol_exp1 in H. step_handler; reflexivity.
    + unfold phenol_exp2 in H. step_handler; reflexivity.
    + unfold phenol_exp3 in H.
      destruct (record_row s) as [s1|] eqn:E; cbn [bind] in H; [|discriminate].
      apply record_row_frame in E.
      destruct E as [->|[r ->]]; step_handler; reflexivity.
    + unfold phenol_graph in H. step_handler; reflexivity.
  - destruct Hh as [<-|[<-|[]]].
    + unfold cond_intro in H. step_handler; reflexivity.
    + unfold cond_standardize in H. step_handler; reflexivity.
Qed.

(** X15: a run of the script in which no button is clicked changes
    nothing on the introduction, preparation, observation, plot and
    standardization pages: each of these handlers, when it returns, hands
    back the state it was given.  The record page is the one page that
    writes while it is displayed: its run is the record step alone, which
    returns the state unchanged or with one row appended to the phenol
    table. *)
Theorem render_without_click (s s' : session_state) (i : user_input) :
  clicked i = None ->
  (forall h,
     In h [phenol_intro; phenol_exp1; phenol_exp2; phenol_graph;
           cond_intro; cond_standardize] ->
     h s i = Ok s' -> s' = s) /\
  (phenol_exp3 s i = Ok s' ->
   record_row s = Ok s' /\
   (s' = s \/ exists r, s' = set_phenol_data (phenol_data s ++ [r]) s)).
Proof.
  intros Hc.
  assert (B : forall b, st_button i b = false)
    by (intros b; apply st_button_other; congruence).
  split.
  - intros h Hh H. cbn [In] in Hh.
    destruct Hh as [<-|[<-|[<-|[<-|[<-|[<-|[]]]]]]].
    + unfold phenol_intro in H. rewrite B in H. congruence.
    + unfold phenol_exp1 in H. rewrite B in H. step_handler. reflexivity.
    + unfold phenol_exp2 in H. rewrite B in H. step_handler. reflexivity.
    + unfold phenol_graph in H. rewrite B in H. step_handler. reflexivity.
    + unfold cond_intro in H. rewrite B in H. congruence.
    + unfold cond_standardize in H. rewrite !B in H. step_handler. reflexivity.
  - intros H. unfold phenol_exp3 in H. rewrite !B in H.
    destruct (record_row s) as [s1|] eqn:E; cbn [bind] in H; [|discriminate].
    assert (E1 : s' = s1) by (destruct (flt (water_vol s1) f36); congruence).
    subst s1. split; [reflexivity|]. apply record_row_frame, E.
Qed.

Lemma render_without_click_witness :
  cond_standardize initial_state (example_input None) = Ok initial_state.
Proof.
  assert (R : exists s', cond_standardize initial_state (example_input None)
                         = Ok s')
    by (eexists; vm_compute; reflexivity).
  destruct R as (s' & R). rewrite R. f_equal.
  apply (proj1 (render_without_click initial_state s' (example_input None)
                  eq_refl) cond_standardize); [|exact R].
  cbn [In]. tauto.
Defined.

(** X16: where each page can lead.  A handler that returns leaves the
    page as it was or sets it to its one successor: preparation after the
    introduction, observation after preparation, the record page after
    observation, home after the plot, standardization after the titration
    introduction, titration after standardization.  The record page leads
    back to preparation only on a click on "Add More Water (+2ml)" while the
    water volume is below 36, and to the plot only on a click on "Plot Phase
    Diagram" when it is not. *)
Theorem page_after_handler (s s' : session_state) (i : user_input) :
  (phenol_intro s i = Ok s' -> page s' = page s \/ page s' = pg_phenol_exp1) /\
  (phenol_exp1 s i = Ok s' -> page s' = page s \/ page s' = pg_phenol_exp2) /\
  (phenol_exp2 s i = Ok s' -> page s' = page s \/ page s' = pg_phenol_exp3) /\
  (phenol_exp3 s i = Ok s' ->
   page s' = page s \/
   (page s' = pg_phenol_exp1 /\ flt (water_vol s) f36 = true /\
    clicked i = Some BtnAddMoreWater) \/
   (page s' = pg_phenol_graph /\ flt (water_vol s) f36 = false /\
    clicked i = Some BtnPlotPhaseDiagram)) /\
  (phenol_graph s i = Ok s' -> page s' = page s \/ page s' = pg_home) /\
  (cond_intro s i = Ok s' ->
   page s' = page s \/ page s' = pg_cond_standardize) /\
  (cond_standardize s i = Ok s' ->
   page s' = page s \/ page s' = pg_cond_titration).
Proof.
  assert (C : forall b, st_button i b = true -> clicked i = Some b).
  { intros b. unfold st_button. destruct (clicked i) as [c|]; [|discriminate].
    destruct c, b; try discriminate; reflexivity. }
  repeat split; intros H.
  - unfold phenol_intro in H. step_handler; auto.
  - unfold phenol_exp1 in H. step_handler; auto.
  - unfold phenol_exp2 in H. step_handler; auto.
  - unfold phenol_exp3 in H.
    destruct (record_row s) as [s1|] eqn:E; cbn [bind] in H; [|discriminate].
    assert (Hw : water_vol s1 = water_vol s /\ page s1 = page s)
      by (apply record_row_frame in E; destruct E as [->|[r ->]];
          split; reflexivity).
    destruct Hw as [Hw Hp]. rewrite Hw in H.
    destruct (flt (water_vol s) f36) eqn:L.
    + destruct (st_button i BtnAddMoreWater) eqn:B.
      * injection H as <-. right. left. cbn [page set_page].
        repeat split. apply C, B.
      * injection H as <-. left. exact Hp.
    + destruct (st_button i BtnPlotPhaseDiagram) eqn:B.
      * injection H as <-. right. right. cbn [page set_page].
        repeat split. apply C, B.
      * injection H as <-. left. exact Hp.
  - unfold phenol_graph in H. step_handler; auto.
  - unfold cond_intro in H. step_handler; auto.
  - unfold cond_standardize in H. step_handler; auto.
Qed.
